(** * travis-worker: the worker entry point and the GCE backend

    A shallow embedding of [cmd/travis-worker/main.go] (package [main]) and
    of the Google Compute Engine backend (package [backend]): image
    selection, VM creation, script upload and execution over SSH/SFTP, and
    teardown.

    Conventions.
    - Go's [(value, error)] results are [result A]; a bare [error] result is
      [option error] with [None] for [nil].
    - Calls of the backend into libraries and remote services (the compute
      API, SSH, SFTP) are answered by a [World]; every call is appended to
      the world's [log], so that the order of requests can be stated.  The
      calls of package [main] (AMQP, the provider factory) are answered by
      a [main.Host].
    - A goroutine that reports to a [select] is modelled by a schedule: the
      list of things the [select] can observe, in the order they occur. *)

From Stdlib Require Import ZArith Ascii String List Lia.
From Stdlib.Init Require Import Byte.
From stdpp Require Import base option list sorting strings gmap.

(** ** Go values *)

(** [[]byte] *)
Definition bytes := list byte.

(** The packed records of [google.golang.org/api/compute/v1] that the backend
    reads or writes.  Pointer fields are [option]s, slices are lists. *)
Module compute.

Definition DevstorageFullControlScope : string :=
  "https://www.googleapis.com/auth/devstorage.full_control".
Definition ComputeScope : string :=
  "https://www.googleapis.com/auth/compute".

Record Image := { Image_Name : string; Image_SelfLink : string }.

Record OperationErrorErrors :=
  { Code : string; Location : string; Message : string }.
Record OperationError := { Errors : list OperationErrorErrors }.
Record Operation :=
  { Op_Name : string; Status : string; Error : option OperationError }.

Record MachineType := { MachineType_SelfLink : string }.
Record Zone := { Zone_Name : string }.
Record Network := { Network_SelfLink : string }.

Record AttachedDiskInitializeParams :=
  { SourceImage : string; DiskType : string; DiskSizeGb : Z }.
Record AttachedDisk :=
  { Disk_Type : string; Mode : string; Boot : bool; AutoDelete : bool;
    InitializeParams : option AttachedDiskInitializeParams }.
Record Scheduling := { Preemptible : bool }.
Record MetadataItems := { Key : string; Value : string }.
Record Metadata := { Metadata_Items : list MetadataItems }.
Record AccessConfig :=
  { AccessConfig_Name : string; AccessConfig_Type : string; NatIP : string }.
Record NetworkInterface :=
  { AccessConfigs : list AccessConfig; NI_Network : string }.
Record ServiceAccount := { Email : string; Scopes : list string }.
Record Tags := { Tags_Items : list string }.

Record Instance :=
  { Description : string;
    Disks : list AttachedDisk;
    Scheduling_ : option Scheduling;
    MachineType_ : string;
    Name : string;
    Metadata_ : option Metadata;
    NetworkInterfaces : list NetworkInterface;
    ServiceAccounts : list ServiceAccount;
    Tags_ : option Tags }.

End compute.

(** ** Errors *)

(** The error values that travel through the backend. *)
Inductive error : Type :=
  | ErrStaleVM                                (* backend.ErrStaleVM *)
  | Canceled                                  (* context.Canceled *)
  | DeadlineExceeded                          (* context.DeadlineExceeded *)
  | gceOpError (Err : compute.OperationError) (* &gceOpError{Err: ...} *)
  | Errorf (msg : string)                     (* fmt.Errorf(...) *)
  | ExitError (status : Z)                    (* *ssh.ExitError *)
  | Foreign (msg : string)                    (* an error made by a library call *)
  | RuntimePanic (msg : string).              (* a Go run-time panic *)

Inductive result (A : Type) : Type :=
  | Ok (a : A)
  | Err (e : error).
Arguments Ok {A} a.
Arguments Err {A} e.

(** [var gceMissingIPAddressError = fmt.Errorf("no IP address found")] *)
Definition gceMissingIPAddressError : error := Errorf "no IP address found".

(** [strings.Join] *)
Fixpoint strings_Join (elems : list string) (sep : string) : string :=
  match elems with
  | [] => ""
  | [s] => s
  | s :: rest => s +:+ sep +:+ strings_Join rest sep
  end.



(** ** Ordering of strings and [sort.Strings] *)

(** Go compares strings byte by byte; so does [String.leb]. *)
Definition str_le (a b : string) : Prop := String.leb a b = true.

Global Instance str_le_dec a b : Decision (str_le a b).
Proof. unfold str_le. apply _. Defined.

(** [sort.Strings]: the increasing rearrangement of the slice. *)
Definition sort_Strings (a : list string) : list string := merge_sort str_le a.

(** ** Configuration of the provider and the instance handle *)

(** [ssh.Signer], as made by [ssh.NewSignerFromKey] *)
Inductive Signer := SignerFromKey (key : string).

Record gceInstanceConfig :=
  { MachineType : compute.MachineType;
    Zone : compute.Zone;
    Network : compute.Network;
    DiskType : string;
    DiskSize : Z;
    SSHKeySigner : Signer;
    SSHPubKey : string }.

Record GCEProvider :=
  { p_projectID : string;
    p_ic : gceInstanceConfig;
    defaultLanguage : string;
    languageMappings : gmap string string }.

Record GCEInstance :=
  { provider : GCEProvider;
    instance : compute.Instance;
    ic : gceInstanceConfig;
    authUser : string;
    projectID : string;
    imageName : string }.

Record StartAttributes := { Language : string }.

(** [uint8] exit code of [RunResult]. *)
Record RunResult := { Completed : bool; ExitCode : Z }.

(** Conversion [uint8(n)] of a Go [int]. *)
Definition uint8 (n : Z) : Z := n mod 256.

(** A context: [Err] is what [ctx.Err()] reports once [ctx.Done()] is
    closed. *)
Record Context := { ctx_Err : error }.

(** ** The world outside the process *)

(** [ssh.AuthMethod] *)
Inductive AuthMethod := PublicKeys (s : Signer).

Record ClientConfig := { User : string; Auth : list AuthMethod }.

(** Requests that leave the process, as they are written in the source. *)
Inductive Call : Type :=
  | ImagesList (project filter : string)
  | InstancesInsert (project zone : string) (inst : compute.Instance)
  | InstancesGet (project zone name : string)
  | InstancesDelete (project zone name : string)
  | ZoneOperationsGet (project zone op : string)
  | SshDial (network addr : string) (config : ClientConfig)
  | ClientClose
  | SftpNewClient
  | SftpClose
  | SftpLstat (path : string)
  | SftpCreate (path : string)
  | FileWrite (path : string) (data : bytes)
  | NewSession
  | SessionClose
  | RequestPty (term : string) (h w : Z)
  | SessionRun (cmd : string)
  | MetricsTimeSince (name : string)
  | MetricsMark (name : string).

(** How the VM answers during one connection: [None] is success. *)
Record DataPlane :=
  { dial : option error;         (* ssh.Dial *)
    sftpNew : option error;      (* sftp.NewClient *)
    lstatFault : option error;   (* a failure of Lstat other than a missing file *)
    create : option error;       (* sftp.Create *)
    write : option error;        (* f.Write *)
    newSession : option error;   (* client.NewSession *)
    requestPty : option error;   (* session.RequestPty *)
    run : option error }.        (* session.Run *)

Record World :=
  { images : string -> result (list compute.Image);
      (* Images.List(project).Filter(f).Do(), by filter *)
    insert : compute.Instance -> result compute.Operation;
    instancesGet : result compute.Instance;
    delete : result compute.Operation;
    uuid : string;                 (* uuid.NewUUID() *)
    plane : DataPlane;
    home : string;                 (* home directory of the SSH user on the VM *)
    files : gmap string bytes;     (* files of the VM, by absolute path *)
    log : list Call }.

Definition set_log (l : list Call) (w : World) : World :=
  {| images := images w; insert := insert w; instancesGet := instancesGet w;
     delete := delete w; uuid := uuid w; plane := plane w; home := home w;
     files := files w; log := l |}.

Definition set_files (f : gmap string bytes) (w : World) : World :=
  {| images := images w; insert := insert w; instancesGet := instancesGet w;
     delete := delete w; uuid := uuid w; plane := plane w; home := home w;
     files := f; log := log w |}.

Definition set_plane (d : DataPlane) (w : World) : World :=
  {| images := images w; insert := insert w; instancesGet := instancesGet w;
     delete := delete w; uuid := uuid w; plane := d; home := home w;
     files := files w; log := log w |}.

(** [w] after the requests [calls]. *)
Definition logged (w : World) (calls : list Call) : World :=
  set_log (log w ++ calls) w.

(** Worlds are taken apart by their fields, not by unfolding. *)
Arguments set_log : simpl never.
Arguments set_files : simpl never.
Arguments set_plane : simpl never.
Arguments logged : simpl never.

(** *** A state monad over the world *)

Definition M (A : Type) : Type := World -> A * World.

Global Instance M_ret : MRet M := fun A (a : A) w => (a, w).

Global Instance M_bind : MBind M :=
  fun A B (k : A -> M B) (m : M A) w => let (a, w') := m w in k a w'.

Definition ret {A : Type} (a : A) : M A := mret a.

(** Record a request. *)
Definition call (c : Call) : M unit := fun w => (tt, logged w [c]).

Definition ask {A} (f : World -> A) : M A := fun w => (f w, w).

(** A step that reads and changes the world. *)
Definition act {A} (f : World -> A * World) : M A := f.

Definition option_result (o : option error) : result unit :=
  match o with
  | None => Ok tt
  | Some e => Err e
  end.

(** *** The compute API *)

(** [client.Images.List(project).Filter(filter).Do()], reduced to the
    [Items] of the answer. *)
Definition Images_List (project filter : string)
  : M (result (list compute.Image)) :=
  call (ImagesList project filter) ;; ask (fun w => images w filter).

(** [client.Instances.Insert(project, zone, inst).Do()] *)
Definition Instances_Insert (project zone : string) (inst : compute.Instance)
  : M (result compute.Operation) :=
  call (InstancesInsert project zone inst) ;; ask (fun w => insert w inst).

(** [client.Instances.Get(project, zone, name).Do()] *)
Definition Instances_Get (project zone name : string)
  : M (result compute.Instance) :=
  call (InstancesGet project zone name) ;; ask instancesGet.

(** [client.Instances.Delete(project, zone, name).Do()] *)
Definition Instances_Delete (project zone name : string)
  : M (result compute.Operation) :=
  call (InstancesDelete project zone name) ;; ask delete.

(** *** Goroutines that report to a [select] *)

(** What the [select] of a waiting function can observe next: the blocking
    call of the background goroutine completes with an answer, or
    [ctx.Done()] is closed.  A schedule lists these in the order they
    occur; when several cases of a [select] are ready Go picks one, and the
    order of the schedule is that pick. *)
Inductive Event (R : Type) : Type :=
  | Completes (r : R)
  | Done.
Arguments Completes {R} r.
Arguments Done {R}.

(** What a [select] over one channel and [ctx.Done()] does. *)
Inductive Select (Msg : Type) : Type :=
  | Receives (m : Msg)
  | CtxDone
  | Waits.
Arguments Receives {Msg} m.
Arguments CtxDone {Msg}.
Arguments Waits {Msg}.

(** The result of a function that may wait for ever. *)
Inductive Wait (A : Type) : Type :=
  | Returned (a : A)
  | Blocked.
Arguments Returned {A} a.
Arguments Blocked {A}.

(** The polling goroutine of [Start] and of [Stop],
    [go func() { for { r := request(); ...send and return, or go on... } }()],
    against the [select] that follows it.  [body] is one turn of the loop:
    [Some m] sends [m] and returns, [None] polls again.  A request is
    logged when its answer arrives. *)
Fixpoint await {R Msg : Type} (request : Call) (body : R -> option Msg)
    (sched : list (Event R)) : M (Select Msg) :=
  match sched with
  | [] => ret Waits
  | Done :: _ => ret CtxDone
  | Completes r :: rest =>
      call request ;;
      match body r with
      | Some m => ret (Receives m)
      | None => await request body rest
      end
  end.

(** ** Package [backend]: the GCE provider *)

Definition defaultGCEZone : string := "us-central1-a".
Definition defaultGCEMachineType : string := "n1-standard-2".
Definition defaultGCENetwork : string := "default".
Definition defaultGCEDiskSize : Z := 20.
Definition defaultGCELanguage : string := "minimal".

(** [fmt.Sprintf(gceImagesFilter, language)] with
    [gceImagesFilter = "name eq ^travis-ci-%s.+"] *)
Definition gceImagesFilter (language : string) : string :=
  "name eq ^travis-ci-" +:+ language +:+ ".+".

(** [fmt.Sprintf(gceStartupScript, key)] *)
Definition gceStartupScript (key : string) : string :=
  "#!/usr/bin/env bash
cat > ~travis/.ssh/authorized_keys <<EOF
" +:+ key +:+ "
EOF
".

(** One turn of the loop of [imageForLanguage] over [images.Items]:
    [imagesByName[image.Name] = image] and
    [imageNames = append(imageNames, image.Name)]. *)
Definition indexImage (acc : gmap string compute.Image * list string)
    (image : compute.Image) : gmap string compute.Image * list string :=
  (<[compute.Image_Name image := image]> (fst acc),
   snd acc ++ [compute.Image_Name image]).

(** The loop, from the empty [imagesByName] and [imageNames]. *)
Definition indexImages (items : list compute.Image)
  : gmap string compute.Image * list string :=
  foldl indexImage (∅, []) items.

(** [func (p *GCEProvider) imageForLanguage(language string)], which
    returns a [*compute.Image] and an [error]. *)
Definition imageForLanguage (p : GCEProvider) (language : string)
  : M (result (option compute.Image)) :=
  r ← Images_List (p_projectID p) (gceImagesFilter language);
  match r with
  | Err err => ret (Err err)
  | Ok items =>
      if (length items =? 0)%nat then
        ret (Err (Errorf ("no image found with language " +:+ language)))
      else
        let (imagesByName, imageNames) := indexImages items in
        let imageNames := sort_Strings imageNames in
        match imageNames !! (length imageNames - 1)%nat with
        | None => ret (Err (RuntimePanic "index out of range"))
        | Some name => ret (Ok (imagesByName !! name))
        end
  end.

(** The candidate languages of [Start], in the order they are tried. *)
Definition candidateLangs (p : GCEProvider) (startAttributes : StartAttributes)
  : list string :=
  let candidateLangs := [Language startAttributes] in
  let candidateLangs :=
    match languageMappings p !! Language startAttributes with
    | Some lang => candidateLangs ++ [lang]
    | None => candidateLangs
    end in
  candidateLangs ++ [defaultLanguage p].

(** [for _, language := range candidateLangs { image, err = ...;
      if err == nil { break } }], from the current [(image, err)]. *)
Fixpoint tryLanguages (p : GCEProvider) (langs : list string)
    (cur : result (option compute.Image)) : M (result (option compute.Image)) :=
  match langs with
  | [] => ret cur
  | language :: rest =>
      r ← imageForLanguage p language;
      match r with
      | Ok image => ret (Ok image)
      | Err err => tryLanguages p rest (Err err)
      end
  end.

(** The [compute.Instance] literal of [Start]. *)
Definition newInstance (p : GCEProvider) (startAttributes : StartAttributes)
    (image : compute.Image) (uuid : string) : compute.Instance :=
  {| compute.Description :=
       "Travis CI " +:+ Language startAttributes +:+ " test VM";
     compute.Disks :=
       [ {| compute.Disk_Type := "PERSISTENT";
            compute.Mode := "READ_WRITE";
            compute.Boot := true;
            compute.AutoDelete := true;
            compute.InitializeParams :=
              Some {| compute.SourceImage := compute.Image_SelfLink image;
                      compute.DiskType := DiskType (p_ic p);
                      compute.DiskSizeGb := DiskSize (p_ic p) |} |} ];
     compute.Scheduling_ := Some {| compute.Preemptible := true |};
     compute.MachineType_ := compute.MachineType_SelfLink (MachineType (p_ic p));
     compute.Name := "testing-gce-" +:+ uuid;
     compute.Metadata_ :=
       Some {| compute.Metadata_Items :=
                 [ {| compute.Key := "startup-script";
                      compute.Value := gceStartupScript (SSHPubKey (p_ic p)) |} ] |};
     compute.NetworkInterfaces :=
       [ {| compute.AccessConfigs :=
              [ {| compute.AccessConfig_Name :=
                     "AccessConfig brought to you by travis-worker";
                   compute.AccessConfig_Type := "ONE_TO_ONE_NAT";
                   compute.NatIP := "" |} ];
            compute.NI_Network := compute.Network_SelfLink (Network (p_ic p)) |} ];
     compute.ServiceAccounts :=
       [ {| compute.Email := "default";
            compute.Scopes :=
              [ "https://www.googleapis.com/auth/userinfo.email";
                compute.DevstorageFullControlScope;
                compute.ComputeScope ] |} ];
     compute.Tags_ :=
       Some {| compute.Tags_Items := ["testing"; Language startAttributes] |} |}.

(** What the polling goroutine of [Start] sends: on [instanceReady] or on
    [errChan]. *)
Inductive bootMsg : Type :=
  | instanceReady (inst : compute.Instance)
  | errChan (err : error).

(** One turn of the polling loop of [Start] on the answer of
    [ZoneOperations.Get]. *)
Definition bootPoll (inst : compute.Instance) (r : result compute.Operation)
  : option bootMsg :=
  match r with
  | Err err => Some (errChan err)
  | Ok newOp =>
      if String.eqb (compute.Status newOp) "DONE" then
        match compute.Error newOp with
        | Some e => Some (errChan (gceOpError e))
        | None => Some (instanceReady inst)
        end
      else None
  end.

(** [ctx.Err() == gocontext.DeadlineExceeded] *)
Definition isDeadlineExceeded (e : error) : bool :=
  match e with
  | DeadlineExceeded => true
  | _ => false
  end.

(** [func (p *GCEProvider) Start(ctx, startAttributes) (Instance, error)].
    [sched] is what the final [select] observes. *)
Definition Start (p : GCEProvider) (ctx : Context)
    (startAttributes : StartAttributes)
    (sched : list (Event (result compute.Operation)))
  : M (Wait (result GCEInstance)) :=
  r ← tryLanguages p (candidateLangs p startAttributes) (Ok None);
  match r with
  | Err err => ret (Returned (Err err))
  | Ok None => ret (Returned (Err (RuntimePanic "nil pointer dereference")))
  | Ok (Some image) =>
      u ← ask uuid;
      let inst := newInstance p startAttributes image u in
      r ← Instances_Insert (p_projectID p) (compute.Zone_Name (Zone (p_ic p))) inst;
      match r with
      | Err err => ret (Returned (Err err))
      | Ok op =>
          s ← await (ZoneOperationsGet (p_projectID p)
                        (compute.Zone_Name (Zone (p_ic p))) (compute.Op_Name op))
                     (bootPoll inst) sched;
          match s with
          | Receives (instanceReady inst) =>
              call (MetricsTimeSince "worker.vm.provider.gce.boot") ;;
              ret (Returned (Ok {| provider := p;
                                   instance := inst;
                                   ic := p_ic p;
                                   authUser := "travis";
                                   projectID := p_projectID p;
                                   imageName := compute.Image_Name image |}))
          | Receives (errChan err) => ret (Returned (Err err))
          | CtxDone =>
              (if isDeadlineExceeded (ctx_Err ctx)
               then call (MetricsMark "worker.vm.provider.gce.boot.timeout")
               else ret tt) ;;
              ret (Returned (Err (ctx_Err ctx)))
          | Waits => ret Blocked
          end
      end
  end.

(** ** Package [backend]: the GCE instance *)

(** *** The VM as seen over SSH and SFTP *)

(** [*ssh.Client] *)
Inductive Client := ClientOf (addr : string) (config : ClientConfig).

(** An SFTP server starts in the home directory of the user it
    authenticated: a relative path names a file below it. *)
Definition sftpPath (home path : string) : string :=
  if String.prefix "/" path then path else home +:+ "/" +:+ path.



(** [ssh.Dial(network, addr, config)] *)
Definition ssh_Dial (network addr : string) (config : ClientConfig)
  : M (result Client) :=
  call (SshDial network addr config) ;;
  ask (fun w => match dial (plane w) with
                | None => Ok (ClientOf addr config)
                | Some err => Err err
                end).

(** [sftp.NewClient(client)] *)
Definition sftp_NewClient (client : Client) : M (result unit) :=
  call SftpNewClient ;; ask (fun w => option_result (sftpNew (plane w))).

(** [sftp.Lstat(path)]: no error exactly when the request goes through and
    the file exists. *)
Definition sftp_Lstat (path : string) : M (result unit) :=
  call (SftpLstat path) ;;
  ask (fun w => match lstatFault (plane w) with
                | Some err => Err err
                | None =>
                    match files w !! sftpPath (home w) path with
                    | Some _ => Ok tt
                    | None => Err (Foreign "file does not exist")
                    end
                end).

(** [sftp.Create(path)]: creates the file, or truncates it; the handle is
    the path. *)
Definition sftp_Create (path : string) : M (result string) :=
  call (SftpCreate path) ;;
  act (fun w =>
         match create (plane w) with
         | Some err => (Err err, w)
         | None =>
             (Ok path, set_files (<[sftpPath (home w) path := []]> (files w)) w)
         end).

(** [f.Write(data)] on a handle fresh from [Create]. *)
Definition file_Write (f : string) (data : bytes) : M (result unit) :=
  call (FileWrite f data) ;;
  act (fun w =>
         match write (plane w) with
         | Some err => (Err err, w)
         | None =>
             (Ok tt, set_files (<[sftpPath (home w) f := data]> (files w)) w)
         end).

(** [client.NewSession()] *)
Definition client_NewSession (client : Client) : M (result unit) :=
  call NewSession ;; ask (fun w => option_result (newSession (plane w))).

(** [session.RequestPty(term, h, w, modes)] *)
Definition session_RequestPty (term : string) (h w : Z) : M (option error) :=
  call (RequestPty term h w) ;; ask (fun w => requestPty (plane w)).

(** [session.Run(cmd)] *)
Definition session_Run (cmd : string) : M (option error) :=
  call (SessionRun cmd) ;; ask (fun w => run (plane w)).

(** [defer cleanup]: [cleanup] runs when [body] returns. *)
Definition defer {A : Type} (cleanup : M unit) (body : M A) : M A :=
  a ← body; cleanup ;; ret a.

(** *** Methods of [GCEInstance] *)

(** The methods take the handle [i] and give back the handle as they leave
    it: [refreshInstance] assigns to [i.instance]. *)

(** The inner loop of [getIP]: the first non-empty [NatIP]. *)
Fixpoint firstNatIP (acs : list compute.AccessConfig) : option string :=
  match acs with
  | [] => None
  | ac :: rest =>
      if negb (String.eqb (compute.NatIP ac) "")
      then Some (compute.NatIP ac)
      else firstNatIP rest
  end.

(** The outer loop of [getIP]. *)
Fixpoint getIP_in (nis : list compute.NetworkInterface) : string :=
  match nis with
  | [] => ""
  | ni :: rest =>
      match firstNatIP (compute.AccessConfigs ni) with
      | Some ip => ip
      | None => getIP_in rest
      end
  end.

(** [func (i *GCEInstance) getIP() string] *)
Definition getIP (i : GCEInstance) : string :=
  getIP_in (compute.NetworkInterfaces (instance i)).

Definition set_instance (inst : compute.Instance) (i : GCEInstance) : GCEInstance :=
  {| provider := provider i; instance := inst; ic := ic i;
     authUser := authUser i; projectID := projectID i;
     imageName := imageName i |}.

(** [func (i *GCEInstance) refreshInstance() error] *)
Definition refreshInstance (i : GCEInstance) : M (GCEInstance * option error) :=
  r ← Instances_Get (projectID i) (compute.Zone_Name (Zone (ic i)))
        (compute.Name (instance i));
  match r with
  | Err err => ret (i, Some err)
  | Ok inst => ret (set_instance inst i, None)
  end.

(** [func (i *GCEInstance) sshClient()], which returns an [*ssh.Client] and
    an [error]. *)
Definition sshClient (i : GCEInstance) : M (GCEInstance * result Client) :=
  '(i, _) ← refreshInstance i;
  let ipAddr := getIP i in
  if String.eqb ipAddr "" then ret (i, Err gceMissingIPAddressError)
  else
    r ← ssh_Dial "tcp" (ipAddr +:+ ":22")
          {| User := authUser i; Auth := [PublicKeys (SSHKeySigner (ic i))] |};
    ret (i, r).

(** [func (i *GCEInstance) uploadScriptAttempt(ctx, script []byte) error] *)
Definition uploadScriptAttempt (i : GCEInstance) (ctx : Context) (script : bytes)
  : M (GCEInstance * option error) :=
  '(i, r) ← sshClient i;
  match r with
  | Err err => ret (i, Some err)
  | Ok client =>
      defer (call ClientClose)
        (r ← sftp_NewClient client;
         match r with
         | Err err => ret (i, Some err)
         | Ok _ =>
             defer (call SftpClose)
               (r ← sftp_Lstat "build.sh";
                match r with
                | Ok _ => ret (i, Some ErrStaleVM)
                | Err _ =>
                    r ← sftp_Create "build.sh";
                    match r with
                    | Err err => ret (i, Some err)
                    | Ok f =>
                        r ← file_Write f script;
                        match r with
                        | Err err => ret (i, Some err)
                        | Ok _ => ret (i, None)
                        end
                    end
                end)
         end)
  end.

(** The goroutine of [UploadScript] against its [select].  An event
    [Completes d] is one turn of [for { err := i.uploadScriptAttempt(...);
    if err == nil { uploadedChan <- true }; uploadErr = err }] on a VM that
    answers as [d]; [uploadErr] is the variable the two share. *)
Fixpoint uploadLoop (i : GCEInstance) (ctx : Context) (script : bytes)
    (uploadErr : option error) (sched : list (Event DataPlane))
  : M (GCEInstance * Wait (option error)) :=
  match sched with
  | [] => ret (i, Blocked)
  | Done :: _ => ret (i, Returned uploadErr)
  | Completes d :: rest =>
      act (fun w => (tt, set_plane d w)) ;;
      '(i, err) ← uploadScriptAttempt i ctx script;
      match err with
      | None => ret (i, Returned None)
      | Some _ => uploadLoop i ctx script err rest
      end
  end.

(** [func (i *GCEInstance) UploadScript(ctx, script []byte) error] *)
Definition UploadScript (i : GCEInstance) (ctx : Context) (script : bytes)
    (sched : list (Event DataPlane)) : M (GCEInstance * Wait (option error)) :=
  uploadLoop i ctx script None sched.

(** The end of [RunScript], on the error of [session.Run]: no error, an
    [*ssh.ExitError], or any other error. *)
Definition runOutcome (err : option error) : RunResult * option error :=
  match err with
  | None => ({| Completed := true; ExitCode := 0 |}, None)
  | Some (ExitError status) =>
      ({| Completed := true; ExitCode := uint8 status |}, None)
  | Some err => ({| Completed := false; ExitCode := 0 |}, Some err)
  end.

(** [func (i *GCEInstance) RunScript(ctx, output)], which returns a
    [*RunResult] and an [error].  The writer [output] receives what the
    script prints; it plays no part in the result. *)
Definition RunScript (i : GCEInstance) (ctx : Context)
  : M (GCEInstance * (RunResult * option error)) :=
  '(i, r) ← sshClient i;
  match r with
  | Err err => ret (i, ({| Completed := false; ExitCode := 0 |}, Some err))
  | Ok client =>
      defer (call ClientClose)
        (r ← client_NewSession client;
         match r with
         | Err err => ret (i, ({| Completed := false; ExitCode := 0 |}, Some err))
         | Ok _ =>
             defer (call SessionClose)
               (err ← session_RequestPty "xterm" 80 40;
                match err with
                | Some err =>
                    ret (i, ({| Completed := false; ExitCode := 0 |}, Some err))
                | None =>
                    err ← session_Run "bash ~/build.sh";
                    ret (i, runOutcome err)
                end)
         end)
  end.

(** The handle as [refreshInstance] leaves it. *)
Definition refreshed (i : GCEInstance) (w : World) : GCEInstance :=
  (refreshInstance i w).1.1.

(** The VM lets [RunScript] get as far as running the command: it has an
    address, and the connection, the session and the terminal are granted. *)
Definition sessionReady (i : GCEInstance) (w : World) : Prop :=
  getIP (refreshed i w) <> "" /\ dial (plane w) = None
  /\ newSession (plane w) = None /\ requestPty (plane w) = None.

(** One turn of the polling loop of [Stop]: what it sends on [errChan]. *)
Definition stopPoll (r : result compute.Operation) : option (option error) :=
  match r with
  | Err err => Some (Some err)
  | Ok newOp =>
      if String.eqb (compute.Status newOp) "DONE" then
        match compute.Error newOp with
        | Some e => Some (Some (gceOpError e))
        | None => Some None
        end
      else None
  end.

(** [func (i *GCEInstance) Stop(ctx) error] *)
Definition Stop (i : GCEInstance) (ctx : Context)
    (sched : list (Event (result compute.Operation)))
  : M (Wait (option error)) :=
  r ← Instances_Delete (projectID i) (compute.Zone_Name (Zone (ic i)))
        (compute.Name (instance i));
  match r with
  | Err err => ret (Returned (Some err))
  | Ok op =>
      s ← await (ZoneOperationsGet (projectID i)
                   (compute.Zone_Name (Zone (ic i))) (compute.Op_Name op))
                stopPoll sched;
      match s with
      | Receives err => ret (Returned err)
      | CtxDone => ret (Returned (Some (ctx_Err ctx)))
      | Waits => ret Blocked
      end
  end.

(** [func (i *GCEInstance) ID() string] *)
Definition ID (i : GCEInstance) : string :=
  compute.Name (instance i) +:+ ":" +:+ imageName i.

(** ** Package [main] *)

Module main.

(** The fields of [lib.Config] that [runWorker] reads. *)
Record Config :=
  { LibratoEmail : string; LibratoToken : string; LibratoSource : string;
    AmqpURI : string; BuildAPIURI : string;
    ProviderName : string; PoolSize : Z; QueueName : string }.

(** What [runWorker] meets: the configuration of the environment and the
    answers of the message bus and of the provider factory. *)
Record Host :=
  { config : Config;                (* lib.EnvToConfig() *)
    amqpDial : option error;        (* amqp.Dial(config.AmqpURI) *)
    newProvider : option error;     (* backend.NewProvider(...) *)
    amqpClose : option error }.     (* amqpConn.Close() *)

(** What [runWorker] does, in order. *)
Inductive Act : Type :=
  | LogDebug (msg : string)
  | LogInfo (msg : string)
  | LogError (msg : string) (err : error)
  | GoLibrato
  | GoMetricsLog
  | AmqpDial (uri : string)
  | NewBuildScriptGenerator (uri : string)
  | NewProvider (name : string)
  | SignalNotify
  | PoolRun (poolSize : Z) (queueName : string)
  | AmqpClose.

(** How a function body is left: by [return], or by [os.Exit(code)]. *)
Inductive Flow : Type :=
  | Return
  | Exit (code : Z).

(** [func runWorker(c *cli.Context)] *)
Definition runWorker (h : Host) : list Act * Flow :=
  let config := config h in
  let reporter :=
    if negb (String.eqb (LibratoEmail config) "")
       && negb (String.eqb (LibratoToken config) "")
       && negb (String.eqb (LibratoSource config) "")
    then [LogInfo "starting librato metrics reporter"; GoLibrato]
    else [LogInfo "starting logger metrics reporter"; GoMetricsLog] in
  let start := [LogDebug "read config"] ++ reporter ++ [AmqpDial (AmqpURI config)] in
  match amqpDial h with
  | Some err => (start ++ [LogError "couldn't connect to AMQP" err], Return)
  | None =>
      let start :=
        start ++ [LogDebug "connected to AMQP";
                  NewBuildScriptGenerator (BuildAPIURI config);
                  NewProvider (ProviderName config)] in
      match newProvider h with
      | Some err =>
          (start ++ [LogError "couldn't create backend provider" err], Return)
      | None =>
          let served :=
            start ++ [SignalNotify;
                      PoolRun (PoolSize config) (QueueName config);
                      AmqpClose] in
          match amqpClose h with
          | Some err =>
              (served ++ [LogError "couldn't close AMQP connection cleanly" err],
               Return)
          | None => (served, Return)
          end
      end
  end.

(** [func main()]: [app.Run(os.Args)] runs [app.Action], which is
    [runWorker]; the result is what was done and the exit status of the
    process, 0 when [main] returns. *)
Definition main (h : Host) : list Act * Z :=
  let (acts, flow) := runWorker h in
  match flow with
  | Return => (acts, 0%Z)
  | Exit code => (acts, code)
  end.

(** Start-up fails: the bus cannot be dialled or the provider cannot be
    made. *)
Definition startupFails (h : Host) : Prop :=
  is_Some (amqpDial h) \/ is_Some (newProvider h).

End main.

(** ** A cloud and a VM to run the backend against *)

(** The compute API evaluates [name eq ^travis-ci-LANG.+] as a regular
    expression over the whole name.  For a [LANG] of literal characters it
    holds of the names that extend [travis-ci-LANG] by at least one
    character. *)
Definition extends (stem name : string) : bool :=
  String.prefix stem name && (String.length stem <? String.length name)%nat.

(** [Images.List] of a project whose images are [available]. *)
Definition imagesOf (available : list compute.Image) (filter : string)
  : result (list compute.Image) :=
  let n := String.length filter in
  if String.prefix "name eq ^" filter
     && String.eqb (String.substring (n - 2) 2 filter) ".+"
  then
    let stem := String.substring 9 (n - 11) filter in
    Ok (List.filter (fun image => extends stem (compute.Image_Name image)) available)
  else Err (Foreign "invalid filter").

Definition imageNamed (name : string) : compute.Image :=
  {| compute.Image_Name := name;
     compute.Image_SelfLink := "projects/travis/global/images/" +:+ name |}.

Definition operation (name status : string) (err : option compute.OperationError)
  : compute.Operation :=
  {| compute.Op_Name := name; compute.Status := status; compute.Error := err |}.

(** A VM on which every request succeeds. *)
Definition healthy : DataPlane :=
  {| dial := None; sftpNew := None; lstatFault := None; create := None;
     write := None; newSession := None; requestPty := None; run := None |}.

Definition set_run (r : option error) (d : DataPlane) : DataPlane :=
  {| dial := dial d; sftpNew := sftpNew d; lstatFault := lstatFault d;
     create := create d; write := write d; newSession := newSession d;
     requestPty := requestPty d; run := r |}.

(** A record of a running VM whose interface has the NAT address [ip]. *)
Definition runningVM (name ip : string) : compute.Instance :=
  {| compute.Description := "";
     compute.Disks := [];
     compute.Scheduling_ := None;
     compute.MachineType_ := "";
     compute.Name := name;
     compute.Metadata_ := None;
     compute.NetworkInterfaces :=
       [ {| compute.AccessConfigs :=
              [ {| compute.AccessConfig_Name := "external-nat";
                   compute.AccessConfig_Type := "ONE_TO_ONE_NAT";
                   compute.NatIP := ip |} ];
            compute.NI_Network := "" |} ];
     compute.ServiceAccounts := [];
     compute.Tags_ := None |}.

(** A project with the images [available], in which requests are accepted,
    and a VM at 10.0.0.7 that holds the files [fs]. *)
Definition cloud (available : list compute.Image) (fs : gmap string bytes) : World :=
  {| images := imagesOf available;
     insert := fun _ => Ok (operation "operation-insert" "PENDING" None);
     instancesGet := Ok (runningVM "testing-gce-0" "10.0.0.7");
     delete := Ok (operation "operation-delete" "PENDING" None);
     uuid := "0";
     plane := healthy;
     home := "/home/travis";
     files := fs;
     log := [] |}.

Definition testIC : gceInstanceConfig :=
  {| MachineType := {| compute.MachineType_SelfLink := "machineTypes/n1-standard-2" |};
     Zone := {| compute.Zone_Name := defaultGCEZone |};
     Network := {| compute.Network_SelfLink := "networks/default" |};
     DiskType := "zones/us-central1-a/diskTypes/pd-standard";
     DiskSize := defaultGCEDiskSize;
     SSHKeySigner := SignerFromKey "operator";
     SSHPubKey := "ssh-rsa AAAA operator" |}.

Definition providerWith (mappings : gmap string string) (default : string)
  : GCEProvider :=
  {| p_projectID := "travis"; p_ic := testIC;
     defaultLanguage := default; languageMappings := mappings |}.

(** The handle [Start] makes for a request named [testing-gce-0]. *)
Definition handle (p : GCEProvider) (image : compute.Image) : GCEInstance :=
  {| provider := p;
     instance := newInstance p {| Language := "ruby" |} image "0";
     ic := p_ic p;
     authUser := "travis";
     projectID := p_projectID p;
     imageName := compute.Image_Name image |}.

(** ** Notions used by the properties *)

(** Unfolding the monad and the requests. *)
Ltac run :=
  unfold Images_List, Instances_Insert, Instances_Get, Instances_Delete,
    ssh_Dial, sftp_NewClient, sftp_Lstat, sftp_Create, file_Write,
    client_NewSession, session_RequestPty, session_Run, defer,
    call, ask, act, ret;
  unfold mbind, M_bind, mret, M_ret; simpl.

(** An answer of [ZoneOperations.Get] after which the poll goes on: the
    operation is there and is not [DONE]. *)
Definition stillRunning (e : Event (result compute.Operation)) : Prop :=
  exists op, e = Completes (Ok op) /\ compute.Status op <> "DONE".

Definition isImagesList (c : Call) : Prop :=
  exists project filter, c = ImagesList project filter.

Definition isInsert (c : Call) : Prop :=
  exists project zone inst, c = InstancesInsert project zone inst.

(** The image [Start] settles on. *)
Definition selectedImage (p : GCEProvider) (startAttributes : StartAttributes)
    (w : World) : result (option compute.Image) :=
  (tryLanguages p (candidateLangs p startAttributes) (Ok None) w).1.

(** What [Start] returns once its [select] has decided. *)
Definition started (p : GCEProvider) (ctx : Context) (image : compute.Image)
    (s : Select bootMsg) : Wait (result GCEInstance) :=
  match s with
  | Receives (instanceReady inst) =>
      Returned (Ok {| provider := p; instance := inst; ic := p_ic p;
                      authUser := "travis"; projectID := p_projectID p;
                      imageName := compute.Image_Name image |})
  | Receives (errChan err) => Returned (Err err)
  | CtxDone => Returned (Err (ctx_Err ctx))
  | Waits => Blocked
  end.

(** The scenario of the specification: mappings py -> python, default
    language minimal, three images. *)
Definition scenarioProvider : GCEProvider :=
  providerWith {["py" := "python"]} "minimal".

Definition scenarioImages : list compute.Image :=
  [ imageNamed "travis-ci-python-1"; imageNamed "travis-ci-python-2";
    imageNamed "travis-ci-minimal-9" ].

(** The order of candidates in the words of the specification: the mapped
    language if there is one, then the language, then the default. *)
Definition specCandidateLangs (p : GCEProvider)
    (startAttributes : StartAttributes) : list string :=
  match languageMappings p !! Language startAttributes with
  | Some lang => [lang]
  | None => []
  end ++ [Language startAttributes; defaultLanguage p].

(** A provider that maps rb to ruby, and a project that has an image for
    each of the two. *)
Definition rubyProvider : GCEProvider :=
  providerWith {["rb" := "ruby"]} "minimal".

Definition rubyImages : list compute.Image :=
  [imageNamed "travis-ci-rb-1"; imageNamed "travis-ci-ruby-1"].

(** The request of [refreshInstance]. *)
Definition refreshCall (i : GCEInstance) : Call :=
  InstancesGet (projectID i) (compute.Zone_Name (Zone (ic i)))
    (compute.Name (instance i)).

(** The [ssh.Dial] of [sshClient], for the handle as refreshed in [w]. *)
Definition dialCall (i : GCEInstance) (w : World) : Call :=
  SshDial "tcp" (getIP (refreshed i w) +:+ ":22")
    {| User := authUser i; Auth := [PublicKeys (SSHKeySigner (ic i))] |}.

(** The record of a VM has no network interface with a non-empty NAT
    address. *)
Definition noNatIP (inst : compute.Instance) : Prop :=
  forall ni ac,
    ni ∈ compute.NetworkInterfaces inst -> ac ∈ compute.AccessConfigs ni ->
    compute.NatIP ac = "".

(** A request that opens an SSH connection. *)
Definition isDial (c : Call) : Prop :=
  exists network addr config, c = SshDial network addr config.


Definition set_instancesGet (r : result compute.Instance) (w : World) : World :=
  {| images := images w; insert := insert w; instancesGet := r;
     delete := delete w; uuid := uuid w; plane := plane w; home := home w;
     files := files w; log := log w |}.

(** The cloud while the VM has not been given an address yet. *)
Definition bootingCloud : World :=
  set_instancesGet (Ok (runningVM "testing-gce-0" "")) (cloud [] ∅).

(** The handle of the scenarios. *)
Definition pythonVM : GCEInstance :=
  handle (providerWith {["py" := "python"]} "minimal")
    (imageNamed "travis-ci-python-2").

(** A VM that still holds the script of an earlier job. *)
Definition staleCloud : World :=
  cloud [] {["/home/travis/build.sh" := [x65; x78; x69; x74]]}.

(** The VM answers every request of an upload attempt up to [Lstat], it
    has an address, and [build.sh] is there already. *)
Definition staleVM (i : GCEInstance) (w : World) : Prop :=
  getIP (refreshed i w) <> ""
  /\ is_Some (files w !! sftpPath (home w) "build.sh").

(** A host on which the message bus refuses the connection. *)
Definition noBusHost : main.Host :=
  {| main.config :=
       {| main.LibratoEmail := ""; main.LibratoToken := "";
          main.LibratoSource := ""; main.AmqpURI := "amqp://bus";
          main.BuildAPIURI := "http://build"; main.ProviderName := "gce";
          main.PoolSize := 2; main.QueueName := "builds" |};
     main.amqpDial := Some (Foreign "connection refused");
     main.newProvider := None;
     main.amqpClose := None |}.

(** A delete operation that ends with two sub-errors. *)
Definition failedDelete : compute.OperationError :=
  {| compute.Errors :=
       [ {| compute.Code := "RESOURCE_IN_USE"; compute.Location := "disk";
            compute.Message := "busy" |};
         {| compute.Code := "QUOTA"; compute.Location := "zone";
            compute.Message := "exceeded" |} ] |}.


(** What the [select] that follows a polling goroutine receives, read off
    the schedule alone. *)
Fixpoint observed {R Msg : Type} (body : R -> option Msg)
    (sched : list (Event R)) : Select Msg :=
  match sched with
  | [] => Waits
  | Done :: _ => CtxDone
  | Completes r :: rest =>
      match body r with
      | Some m => Receives m
      | None => observed body rest
      end
  end.

(** The number of polls answered before the [select] decides. *)
Fixpoint polled {R Msg : Type} (body : R -> option Msg)
    (sched : list (Event R)) : nat :=
  match sched with
  | [] => 0
  | Done :: _ => 0
  | Completes r :: rest =>
      S (match body r with
         | Some _ => 0
         | None => polled body rest
         end)
  end.

(** The listings the selection loop of [Start] asks for: one for each
    candidate up to the first whose lookup succeeds. *)
Fixpoint lookupsOf (p : GCEProvider) (langs : list string) (w : World)
  : list Call :=
  match langs with
  | [] => []
  | language :: rest =>
      ImagesList (p_projectID p) (gceImagesFilter language)
      :: match (imageForLanguage p language w).1 with
         | Ok _ => []
         | Err _ => lookupsOf p rest w
         end
  end.

(** The metric [Start] reports after its [select]. *)
Definition bootMetrics (ctx : Context) (s : Select bootMsg) : list Call :=
  match s with
  | Receives (instanceReady _) => [MetricsTimeSince "worker.vm.provider.gce.boot"]
  | CtxDone =>
      if isDeadlineExceeded (ctx_Err ctx)
      then [MetricsMark "worker.vm.provider.gce.boot.timeout"]
      else []
  | _ => []
  end.

(** The listing request of [imageForLanguage] for a language. *)
Definition listCall (p : GCEProvider) (language : string) : Call :=
  ImagesList (p_projectID p) (gceImagesFilter language).

(** Two images that share the name travis-ci-go-2, and an older one. *)
Definition goImages : list compute.Image :=
  [ {| compute.Image_Name := "travis-ci-go-2";
       compute.Image_SelfLink := "images/first" |};
    imageNamed "travis-ci-go-1";
    {| compute.Image_Name := "travis-ci-go-2";
       compute.Image_SelfLink := "images/second" |} ].

Definition set_insert (f : compute.Instance -> result compute.Operation)
    (w : World) : World :=
  {| images := images w; insert := f; instancesGet := instancesGet w;
     delete := delete w; uuid := uuid w; plane := plane w; home := home w;
     files := files w; log := log w |}.

Definition set_delete (r : result compute.Operation) (w : World) : World :=
  {| images := images w; insert := insert w; instancesGet := instancesGet w;
     delete := r; uuid := uuid w; plane := plane w; home := home w;
     files := files w; log := log w |}.

(** A project whose quota is used up: creation requests are refused. *)
Definition fullCloud : World :=
  set_insert (fun _ => Err (Foreign "quota exceeded")) (cloud scenarioImages ∅).

(** A project in which the VM to delete is gone already. *)
Definition goneCloud : World :=
  set_delete (Err (Foreign "not found")) (cloud [] ∅).

(** The VM has an address and grants the SSH connection. *)
Definition connected (i : GCEInstance) (w : World) : Prop :=
  getIP (refreshed i w) <> "" /\ dial (plane w) = None.

(** A VM on which [session.Run] answers [r] and all else succeeds. *)
Definition running (r : option error) : DataPlane := set_run r healthy.

(** A VM that refuses the SSH connection, as it does while it boots. *)
Definition booting : DataPlane :=
  {| dial := Some (Foreign "connection refused"); sftpNew := None;
     lstatFault := None; create := None; write := None; newSession := None;
     requestPty := None; run := None |}.

(** A VM on which writing to a file fails. *)
Definition diskFull : DataPlane :=
  {| dial := None; sftpNew := None; lstatFault := None; create := None;
     write := Some (Foreign "no space left on device"); newSession := None;
     requestPty := None; run := None |}.

(** A VM on which [Lstat] fails although files are there. *)
Definition lstatDenied : DataPlane :=
  {| dial := None; sftpNew := None;
     lstatFault := Some (Foreign "permission denied"); create := None;
     write := None; newSession := None; requestPty := None; run := None |}.

(** The handle [Start] returns in the scenario of the specification. *)
Definition pyHandle : GCEInstance :=
  {| provider := scenarioProvider;
     instance := newInstance scenarioProvider {| Language := "py" |}
                   (imageNamed "travis-ci-python-2") "0";
     ic := p_ic scenarioProvider;
     authUser := "travis";
     projectID := "travis";
     imageName := "travis-ci-python-2" |}.

(** A project in which the record of the VM cannot be read. *)
Definition blindCloud : World :=
  set_instancesGet (Err (Foreign "backend error")) (cloud scenarioImages ∅).

(** A host on which everything answers. *)
Definition goodHost : main.Host :=
  {| main.config := main.config noBusHost;
     main.amqpDial := None;
     main.newProvider := None;
     main.amqpClose := None |}.

(** ** Package [backend]: making the provider *)

(** [*config.ProviderConfig], by the two methods the backend calls. *)
Record ProviderConfig := { IsSet : string -> bool; Get : string -> string }.

Record gceAccountJSON := { ClientEmail : string; PrivateKey : string }.

(** [golang.org/x/oauth2/jwt] *)
Module jwt.
Record Config :=
  { Email : string; PrivateKey : string; Scopes : list string;
    TokenURL : string }.
End jwt.

(** [*compute.Service], as made by [compute.New] from the client of a JWT
    configuration. *)
Inductive Service := ServiceOf (config : jwt.Config).

(** The machine the worker starts on and the libraries it calls while it
    makes the provider: files, JSON, keys, the compute API, and the two
    string functions of the Go library whose code is not part of the
    backend. *)
Record Site :=
  { readFile : string -> result string;               (* ioutil.ReadFile *)
    jsonUnmarshal : string -> gceAccountJSON * option error;
      (* json.Unmarshal(bytes, a) on a fresh a: what a holds, and the error *)
    computeNew : jwt.Config -> result Service;        (* compute.New *)
    pemDecode : string -> option string;              (* pem.Decode: the block, or nil *)
    decryptPEMBlock : string -> string -> result string;
    parsePKCS1PrivateKey : string -> result string;
    newSignerFromKey : string -> result Signer;       (* ssh.NewSignerFromKey *)
    zonesGet : string -> string -> result compute.Zone;
    machineTypesGet : string -> string -> string -> result compute.MachineType;
    networksGet : string -> string -> result compute.Network;
    trimSpace : string -> string;                     (* strings.TrimSpace *)
    parseInt : string -> result Z }.                  (* strconv.ParseInt(s, 10, 64) *)

Global Instance result_ret : MRet result := fun A (a : A) => Ok a.

Global Instance result_bind : MBind result :=
  fun A B (k : A -> result B) (r : result A) =>
    match r with
    | Ok a => k a
    | Err err => Err err
    end.

(** [strings.Split(s, sep)] for a separator of one byte, the only kind the
    backend uses: the pieces of [s] between the separators, one more than
    there are separators. *)
Fixpoint strings_Split (s : string) (sep : ascii) : list string :=
  match s with
  | EmptyString => [""]
  | String c s' =>
      if Ascii.eqb c sep then "" :: strings_Split s' sep
      else match strings_Split s' sep with
           | [] => [String c ""]
           | piece :: pieces => String c piece :: pieces
           end
  end.

(** [func loadGoogleAccountJSON(filename string)], which returns a
    [*gceAccountJSON] and an [error]. *)
Definition loadGoogleAccountJSON (site : Site) (filename : string)
  : option gceAccountJSON * option error :=
  match readFile site filename with
  | Err err => (None, Some err)
  | Ok bytes => let (a, err) := jsonUnmarshal site bytes in (Some a, err)
  end.

(** [func buildGoogleComputeService(cfg *config.ProviderConfig)] *)
Definition buildGoogleComputeService (site : Site) (cfg : ProviderConfig)
  : result Service :=
  if negb (IsSet cfg "ACCOUNT_JSON") then Err (Errorf "missing ACCOUNT_JSON")
  else
    match loadGoogleAccountJSON site (Get cfg "ACCOUNT_JSON") with
    | (_, Some err) => Err err
    | (None, None) => Err (RuntimePanic "nil pointer dereference")
    | (Some a, None) =>
        let config :=
          {| jwt.Email := ClientEmail a;
             jwt.PrivateKey := PrivateKey a;
             jwt.Scopes := [compute.DevstorageFullControlScope;
                            compute.ComputeScope];
             jwt.TokenURL := "https://accounts.google.com/o/oauth2/token" |} in
        computeNew site config
    end.

(** One turn of the loop of [NewGCEProvider] over the pairs of
    [LANGUAGE_MAPPINGS]:
    [kv := strings.Split(strings.TrimSpace(pair), "=");
     if len(kv) == 2 { languageMappings[kv[0]] = kv[1] }]. *)
Definition addLanguageMapping (site : Site) (languageMappings : gmap string string)
    (pair : string) : gmap string string :=
  match strings_Split (trimSpace site pair) "=" with
  | [k; v] => <[k := v]> languageMappings
  | _ => languageMappings
  end.

(** The loop, over [strings.Split(cfg.Get("LANGUAGE_MAPPINGS"), ",")]. *)
Definition parseLanguageMappings (site : Site) (s : string) : gmap string string :=
  foldl (addLanguageMapping site) ∅ (strings_Split s ",").

(** [func NewGCEProvider(cfg *config.ProviderConfig)], which returns a
    [*GCEProvider] and an [error].  The [client] field of the provider is
    the service built first; the requests made through it are answered by
    the [Site] here and by the [World] later. *)
Definition NewGCEProvider (site : Site) (cfg : ProviderConfig)
  : result GCEProvider :=
  client ← buildGoogleComputeService site cfg;
  if negb (IsSet cfg "PROJECT_ID") then Err (Errorf "mising PROJECT_ID") else
  let projectID := Get cfg "PROJECT_ID" in
  if negb (IsSet cfg "SSH_KEY_PATH")
  then Err (Errorf "expected SSH_KEY_PATH config key") else
  let sshKeyPath := Get cfg "SSH_KEY_PATH" in
  if negb (IsSet cfg "SSH_PUB_KEY_PATH")
  then Err (Errorf "expected SSH_PUB_KEY_PATH config key") else
  sshKeyBytes ← readFile site sshKeyPath;
  let sshPubKeyPath := Get cfg "SSH_PUB_KEY_PATH" in
  if negb (IsSet cfg "SSH_KEY_PASSPHRASE")
  then Err (Errorf "expected SSH_KEY_PASSPHRASE config key") else
  sshPubKeyBytes ← readFile site sshPubKeyPath;
  let sshKeyPassphrase := Get cfg "SSH_KEY_PASSPHRASE" in
  match pemDecode site sshKeyBytes with
  | None => Err (Errorf "ssh key does not contain a valid PEM block")
  | Some block =>
      der ← decryptPEMBlock site block sshKeyPassphrase;
      parsedKey ← parsePKCS1PrivateKey site der;
      sshKeySigner ← newSignerFromKey site parsedKey;
      let zoneName :=
        if IsSet cfg "ZONE" then Get cfg "ZONE" else defaultGCEZone in
      zone ← zonesGet site projectID zoneName;
      let mtName :=
        if IsSet cfg "MACHINE_TYPE" then Get cfg "MACHINE_TYPE"
        else defaultGCEMachineType in
      mt ← machineTypesGet site projectID (compute.Zone_Name zone) mtName;
      let nwName :=
        if IsSet cfg "NETWORK" then Get cfg "NETWORK" else defaultGCENetwork in
      nw ← networksGet site projectID nwName;
      let diskSize :=
        if IsSet cfg "DISK_SIZE" then
          match parseInt site (Get cfg "DISK_SIZE") with
          | Ok ds => ds
          | Err _ => defaultGCEDiskSize
          end
        else defaultGCEDiskSize in
      let defaultLanguage :=
        if IsSet cfg "DEFAULT_LANGUAGE" then Get cfg "DEFAULT_LANGUAGE"
        else defaultGCELanguage in
      let languageMappings :=
        if IsSet cfg "LANGUAGE_MAPPINGS"
        then parseLanguageMappings site (Get cfg "LANGUAGE_MAPPINGS")
        else ∅ in
      Ok {| p_projectID := projectID;
            p_ic := {| MachineType := mt;
                       Zone := zone;
                       Network := nw;
                       DiskType := "zones/" +:+ compute.Zone_Name zone
                                   +:+ "/diskTypes/pd-standard";
                       DiskSize := diskSize;
                       SSHKeySigner := sshKeySigner;
                       SSHPubKey := sshPubKeyBytes |};
            defaultLanguage := defaultLanguage;
            languageMappings := languageMappings |}
  end.

(** ** Notions and samples for the provider *)

(** How often the byte [sep] occurs in [s]. *)
Fixpoint occurrences (sep : ascii) (s : string) : nat :=
  match s with
  | EmptyString => 0
  | String c s' =>
      if Ascii.eqb c sep then S (occurrences sep s') else occurrences sep s'
  end.

(** The value of [LANGUAGE_MAPPINGS] that lists the pairs [kvs]. *)
Definition renderMappings (kvs : list (string * string)) : string :=
  strings_Join ((fun kv => kv.1 +:+ "=" +:+ kv.2) <$> kvs) ",".

(** The five keys that the help text of the backend marks as required. *)
Definition requiredKeys : list string :=
  ["PROJECT_ID"; "ACCOUNT_JSON"; "SSH_KEY_PATH"; "SSH_PUB_KEY_PATH";
   "SSH_KEY_PASSPHRASE"].

(** A configuration that holds [settings] and nothing else. *)
Definition configOf (settings : gmap string string) : ProviderConfig :=
  {| IsSet := fun key => bool_decide (is_Some (settings !! key));
     Get := fun key => default "" (settings !! key) |}.

(** [cfg] with [key] set to [value]. *)
Definition withSetting (cfg : ProviderConfig) (key value : string)
  : ProviderConfig :=
  {| IsSet := fun k => if String.eqb k key then true else IsSet cfg k;
     Get := fun k => if String.eqb k key then value else Get cfg k |}.

(** [p] with another disk size. *)
Definition withDiskSize (p : GCEProvider) (diskSize : Z) : GCEProvider :=
  {| p_projectID := p_projectID p;
     p_ic := {| MachineType := MachineType (p_ic p);
                Zone := Zone (p_ic p);
                Network := Network (p_ic p);
                DiskType := DiskType (p_ic p);
                DiskSize := diskSize;
                SSHKeySigner := SSHKeySigner (p_ic p);
                SSHPubKey := SSHPubKey (p_ic p) |};
     defaultLanguage := defaultLanguage p;
     languageMappings := languageMappings p |}.

(** The blank bytes of ASCII, which [strings.TrimSpace] cuts off. *)
Definition isSpace (c : ascii) : bool :=
  existsb (Ascii.eqb c) [" "; "009"; "010"; "011"; "012"; "013"]%char.

Fixpoint trimLeft (s : string) : string :=
  match s with
  | EmptyString => ""
  | String c s' => if isSpace c then trimLeft s' else s
  end.

Fixpoint trimRight (s : string) : string :=
  match s with
  | EmptyString => ""
  | String c s' =>
      match trimRight s' with
      | EmptyString => if isSpace c then "" else String c ""
      | t => String c t
      end
  end.

Definition digit (c : ascii) : option Z :=
  let n := (Z.of_nat (nat_of_ascii c) - 48)%Z in
  if ((0 <=? n) && (n <=? 9))%Z then Some n else None.

Fixpoint parseDigits (s : string) (acc : Z) : option Z :=
  match s with
  | EmptyString => Some acc
  | String c s' =>
      match digit c with
      | Some d => parseDigits s' (10 * acc + d)%Z
      | None => None
      end
  end.

(** A site where the three files of the operator are in [/etc/worker], every
    key is accepted and every zone, machine type and network exists;
    strings are trimmed and numbers parsed as the Go library does for ASCII
    text and for unsigned decimal numbers. *)
Definition sampleSite : Site :=
  {| readFile := fun path =>
       if String.eqb path "/etc/worker/account.json" then Ok "{}"
       else if String.eqb path "/etc/worker/id_rsa" then Ok "PRIVATE KEY"
       else if String.eqb path "/etc/worker/id_rsa.pub"
            then Ok "ssh-rsa AAAA operator"
       else Err (Foreign "open: no such file or directory");
     jsonUnmarshal := fun _ =>
       ({| ClientEmail := "worker@example.com"; PrivateKey := "secret" |}, None);
     computeNew := fun config => Ok (ServiceOf config);
     pemDecode := fun data => Some data;
     decryptPEMBlock := fun block _ => Ok block;
     parsePKCS1PrivateKey := fun der => Ok der;
     newSignerFromKey := fun key => Ok (SignerFromKey key);
     zonesGet := fun _ name => Ok {| compute.Zone_Name := name |};
     machineTypesGet := fun _ zone name =>
       Ok {| compute.MachineType_SelfLink :=
               "zones/" +:+ zone +:+ "/machineTypes/" +:+ name |};
     networksGet := fun _ name =>
       Ok {| compute.Network_SelfLink := "global/networks/" +:+ name |};
     trimSpace := fun s => trimRight (trimLeft s);
     parseInt := fun s =>
       match s, parseDigits s 0 with
       | String _ _, Some n =>
           if (n <? 2 ^ 63)%Z then Ok n
           else Err (Foreign "strconv.ParseInt: value out of range")
       | _, _ => Err (Foreign "strconv.ParseInt: invalid syntax")
       end |}.

(** The required settings of the operator of [sampleSite]. *)
Definition sampleSettings : gmap string string :=
  <["PROJECT_ID" := "travis"]>
  (<["ACCOUNT_JSON" := "/etc/worker/account.json"]>
  (<["SSH_KEY_PATH" := "/etc/worker/id_rsa"]>
  (<["SSH_PUB_KEY_PATH" := "/etc/worker/id_rsa.pub"]>
  (<["SSH_KEY_PASSPHRASE" := "open sesame"]> ∅)))).

(** The value [NewGCEProvider] takes for an optional key: the configured
    one if the key is set, the default otherwise. *)
Definition setting (cfg : ProviderConfig) (key fallback : string) : string :=
  if IsSet cfg key then Get cfg key else fallback.

(** The provider that [sampleSite] makes from [sampleSettings]. *)
Definition sampleProvider : GCEProvider :=
  {| p_projectID := "travis";
     p_ic :=
       {| MachineType :=
            {| compute.MachineType_SelfLink :=
                 "zones/us-central1-a/machineTypes/n1-standard-2" |};
          Zone := {| compute.Zone_Name := "us-central1-a" |};
          Network := {| compute.Network_SelfLink := "global/networks/default" |};
          DiskType := "zones/us-central1-a/diskTypes/pd-standard";
          DiskSize := 20;
          SSHKeySigner := SignerFromKey "PRIVATE KEY";
          SSHPubKey := "ssh-rsa AAAA operator" |};
     defaultLanguage := "minimal";
     languageMappings := ∅ |}.

(** * Properties *)

(** ** Worlds that differ by requests only *)

Section worlds.
Context (w : World) (calls : list Call).

Lemma log_logged : log (logged w calls) = log w ++ calls.
Proof. done. Qed.
Lemma images_logged : images (logged w calls) = images w.
Proof. done. Qed.
Lemma insert_logged : insert (logged w calls) = insert w.
Proof. done. Qed.
Lemma instancesGet_logged : instancesGet (logged w calls) = instancesGet w.
Proof. done. Qed.
Lemma delete_logged : delete (logged w calls) = delete w.
Proof. done. Qed.
Lemma uuid_logged : uuid (logged w calls) = uuid w.
Proof. done. Qed.
Lemma plane_logged : plane (logged w calls) = plane w.
Proof. done. Qed.
Lemma home_logged : home (logged w calls) = home w.
Proof. done. Qed.
Lemma files_logged : files (logged w calls) = files w.
Proof. done. Qed.

Lemma logged_nil : logged w [] = w.
Proof. destruct w. unfold logged, set_log. simpl. by rewrite app_nil_r. Qed.

Lemma logged_logged (more : list Call) :
  logged (logged w calls) more = logged w (calls ++ more).
Proof. unfold logged, set_log. simpl. by rewrite app_assoc. Qed.

Lemma log_set_files (f : gmap string bytes) : log (set_files f w) = log w.
Proof. done. Qed.
Lemma plane_set_files (f : gmap string bytes) : plane (set_files f w) = plane w.
Proof. done. Qed.
Lemma home_set_files (f : gmap string bytes) : home (set_files f w) = home w.
Proof. done. Qed.
Lemma files_set_files (f : gmap string bytes) : files (set_files f w) = f.
Proof. done. Qed.
Lemma set_files_set_files (f g : gmap string bytes) :
  set_files f (set_files g w) = set_files f w.
Proof. done. Qed.
Lemma logged_set_files (f : gmap string bytes) :
  logged (set_files f w) calls = set_files f (logged w calls).
Proof. done. Qed.

Lemma plane_set_plane (d : DataPlane) : plane (set_plane d w) = d.
Proof. done. Qed.
Lemma instancesGet_set_plane (d : DataPlane) :
  instancesGet (set_plane d w) = instancesGet w.
Proof. done. Qed.
Lemma home_set_plane (d : DataPlane) : home (set_plane d w) = home w.
Proof. done. Qed.
Lemma files_set_plane (d : DataPlane) : files (set_plane d w) = files w.
Proof. done. Qed.
Lemma log_set_plane (d : DataPlane) : log (set_plane d w) = log w.
Proof. done. Qed.

End worlds.

Create Rewrite HintDb world.
#[global] Hint Rewrite log_logged images_logged insert_logged instancesGet_logged
  delete_logged uuid_logged plane_logged home_logged files_logged
  logged_logged log_set_files plane_set_files home_set_files files_set_files
  set_files_set_files logged_set_files plane_set_plane instancesGet_set_plane
  home_set_plane files_set_plane log_set_plane : world.

(** Run the requests of the goal and bring the worlds to the form
    [logged w calls]. *)
Ltac step := run; autorewrite with world; simpl.

(** ** The order of strings *)

Section string_order.

Lemma ascii_compare_refl (x : ascii) : Ascii.compare x x = Eq.
Proof. unfold Ascii.compare. apply N.compare_refl. Qed.

Lemma ascii_compare_Lt_trans (x y z : ascii) :
  Ascii.compare x y = Lt -> Ascii.compare y z = Lt -> Ascii.compare x z = Lt.
Proof.
  unfold Ascii.compare. rewrite !N.compare_lt_iff. apply N.lt_trans.
Qed.

Lemma string_compare_refl (a : string) : String.compare a a = Eq.
Proof.
  induction a as [|x a IH]; simpl; [done|].
  by rewrite ascii_compare_refl.
Qed.

Lemma string_compare_not_Gt_trans (a b c : string) :
  String.compare a b <> Gt -> String.compare b c <> Gt ->
  String.compare a c <> Gt.
Proof.
  revert b c. induction a as [|x a IH]; intros [|y b] [|z c]; simpl; try done.
  destruct (Ascii.compare x y) eqn:Hxy; [| |done].
  - apply Ascii.compare_eq_iff in Hxy as ->.
    destruct (Ascii.compare y z); [apply IH|done|done].
  - destruct (Ascii.compare y z) eqn:Hyz; [| |done].
    + apply Ascii.compare_eq_iff in Hyz as <-. by rewrite Hxy.
    + by rewrite (ascii_compare_Lt_trans x y z).
Qed.

Lemma str_le_compare (a b : string) : str_le a b <-> String.compare a b <> Gt.
Proof.
  unfold str_le, String.leb. destruct (String.compare a b); naive_solver.
Qed.

Global Instance str_le_refl : Reflexive str_le.
Proof. intros a. apply str_le_compare. by rewrite string_compare_refl. Qed.

Global Instance str_le_trans : Transitive str_le.
Proof.
  intros a b c. rewrite !str_le_compare. apply string_compare_not_Gt_trans.
Qed.

Global Instance str_le_total : Total str_le.
Proof. intros a b. apply String.leb_total. Qed.

Global Instance str_le_antisym : AntiSymm eq str_le.
Proof. intros a b. apply String.leb_antisym. Qed.

End string_order.

(** ** Sorted slices *)

Section sorted.
Context {A : Type} (R : relation A) `{!Reflexive R}.

(** The last element of a sorted list is above all of them. *)
Lemma StronglySorted_last_above (l : list A) (x : A) :
  StronglySorted R l -> last l = Some x -> forall y, y ∈ l -> R y x.
Proof.
  induction 1 as [|a l Hl IH Ha]; intros Hlast y Hy; [by inversion Hy|].
  destruct l as [|b l].
  - simpl in Hlast. injection Hlast as <-.
    apply list_elem_of_singleton in Hy as ->. reflexivity.
  - change (last (b :: l) = Some x) in Hlast.
    apply elem_of_cons in Hy as [->|Hy]; [|by apply IH].
    rewrite Forall_forall in Ha. apply Ha.
    rewrite last_lookup in Hlast. by eapply list_elem_of_lookup_2.
Qed.

End sorted.

Lemma sort_Strings_last_above (names : list string) (x : string) :
  last (sort_Strings names) = Some x ->
  x ∈ names /\ forall y, y ∈ names -> str_le y x.
Proof.
  intros Hlast. unfold sort_Strings in *.
  pose proof (merge_sort_Permutation str_le names) as Hperm.
  split.
  - rewrite <- Hperm. rewrite last_lookup in Hlast.
    by eapply list_elem_of_lookup_2.
  - intros y Hy. rewrite <- Hperm in Hy.
    eapply (StronglySorted_last_above str_le); [|done..].
    apply StronglySorted_merge_sort; apply _.
Qed.

Lemma sort_Strings_length (names : list string) :
  length (sort_Strings names) = length names.
Proof.
  unfold sort_Strings. by rewrite (merge_sort_Permutation str_le names).
Qed.

(** ** Image selection *)

Section images.

Lemma indexImages_from (items : list compute.Image)
    (m : gmap string compute.Image) (ns : list string) :
  (foldl indexImage (m, ns) items).2 = ns ++ map compute.Image_Name items
  /\ (forall n, n ∈ map compute.Image_Name items ->
        exists image, (foldl indexImage (m, ns) items).1 !! n = Some image
                      /\ image ∈ items /\ compute.Image_Name image = n)
  /\ (forall n, n ∉ map compute.Image_Name items ->
        (foldl indexImage (m, ns) items).1 !! n = m !! n).
Proof.
  revert m ns. induction items as [|image items IH]; intros m ns.
  - simpl. split; [by rewrite app_nil_r|]. split; [|done].
    intros n Hn. by apply elem_of_nil in Hn.
  - change (foldl indexImage (m, ns) (image :: items))
      with (foldl indexImage (<[compute.Image_Name image:=image]> m,
                              ns ++ [compute.Image_Name image]) items).
    simpl map.
    destruct (IH (<[compute.Image_Name image:=image]> m)
                 (ns ++ [compute.Image_Name image])) as (Hns & Hin & Hout).
    split; [by rewrite Hns, <- app_assoc|]. split.
    + intros n Hn.
      destruct (decide (n ∈ map compute.Image_Name items)) as [Hrest|Hrest].
      * destruct (Hin n Hrest) as (image' & ? & ? & ?).
        exists image'. by rewrite elem_of_cons; eauto.
      * apply elem_of_cons in Hn as [->|?]; [|done].
        exists image. rewrite (Hout _ Hrest), lookup_insert_eq.
        by rewrite elem_of_cons; eauto.
    + intros n Hn. apply not_elem_of_cons in Hn as [Hne Hrest].
      by rewrite (Hout _ Hrest), lookup_insert_ne.
Qed.

Lemma indexImages_names (items : list compute.Image) :
  (indexImages items).2 = map compute.Image_Name items.
Proof. apply (indexImages_from items ∅ []). Qed.

Lemma indexImages_lookup (items : list compute.Image) (n : string) :
  n ∈ map compute.Image_Name items ->
  exists image, (indexImages items).1 !! n = Some image /\ image ∈ items
                /\ compute.Image_Name image = n.
Proof. apply (indexImages_from items ∅ []). Qed.

(** [imageForLanguage] issues one request and changes nothing else. *)
Lemma imageForLanguage_world (p : GCEProvider) (language : string) (w : World) :
  (imageForLanguage p language w).2 =
  set_log (log w ++ [ImagesList (p_projectID p) (gceImagesFilter language)]) w.
Proof.
  unfold imageForLanguage. run.
  destruct (images w (gceImagesFilter language)) as [items|]; [|done].
  destruct (length items =? 0)%nat; [done|].
  destruct (indexImages items) as [m ns].
  by destruct (sort_Strings ns !! _).
Qed.

(** A failed listing is passed on. *)
Lemma imageForLanguage_list_error (p : GCEProvider) (language : string)
    (w : World) (err : error) :
  images w (gceImagesFilter language) = Err err ->
  (imageForLanguage p language w).1 = Err err.
Proof. intros H. unfold imageForLanguage. run. by rewrite H. Qed.

(** No image matches: an error that names the language. *)
Lemma imageForLanguage_none (p : GCEProvider) (language : string) (w : World) :
  images w (gceImagesFilter language) = Ok [] ->
  (imageForLanguage p language w).1 =
  Err (Errorf ("no image found with language " +:+ language)).
Proof. intros H. unfold imageForLanguage. run. by rewrite H. Qed.

(** Some image matches: the answer is a matching image whose name is
    above the names of all matching images. *)
Lemma imageForLanguage_some (p : GCEProvider) (language : string) (w : World)
    (items : list compute.Image) :
  images w (gceImagesFilter language) = Ok items -> items <> [] ->
  exists image,
    (imageForLanguage p language w).1 = Ok (Some image)
    /\ image ∈ items
    /\ forall other, other ∈ items ->
         str_le (compute.Image_Name other) (compute.Image_Name image).
Proof.
  intros H Hne. unfold imageForLanguage. run. rewrite H.
  destruct items as [|image0 items0] eqn:Hitems; [done|]. rewrite <- Hitems.
  replace (length items =? 0)%nat with false
    by (subst items; symmetry; by apply Nat.eqb_neq).
  pose proof (indexImages_names items) as Hnames.
  pose proof (indexImages_lookup items) as Hlookup.
  destruct (indexImages items) as [m ns]. simpl in *. subst ns.
  rewrite Nat.sub_1_r, <- last_lookup.
  destruct (last (sort_Strings (map compute.Image_Name items))) as [name|] eqn:Hlast.
  - apply sort_Strings_last_above in Hlast as [Hin Hmax].
    destruct (Hlookup name Hin) as (image & Hm & Himage & Hname).
    exists image. simpl. rewrite Hm. split; [done|]. split; [done|].
    intros other Hother. rewrite Hname. apply Hmax.
    by apply list_elem_of_fmap_2.
  - apply last_None in Hlast.
    apply (f_equal length) in Hlast.
    rewrite sort_Strings_length, length_map in Hlast. by subst items.
Qed.

End images.

Section selection.
Context (p : GCEProvider).

(** The answer of [imageForLanguage] does not depend on earlier requests. *)
Lemma imageForLanguage_logged (language : string) (w : World) (calls : list Call) :
  (imageForLanguage p language (logged w calls)).1 =
  (imageForLanguage p language w).1.
Proof.
  unfold imageForLanguage. run.
  destruct (images w (gceImagesFilter language)) as [items|]; [|done].
  destruct (length items =? 0)%nat; [done|].
  destruct (indexImages items) as [m ns].
  by destruct (sort_Strings ns !! _).
Qed.

Lemma imageForLanguage_step (language : string) (w : World) :
  imageForLanguage p language w =
  ((imageForLanguage p language w).1,
   logged w [ImagesList (p_projectID p) (gceImagesFilter language)]).
Proof.
  rewrite (surjective_pairing (imageForLanguage p language w)) at 1.
  by rewrite imageForLanguage_world.
Qed.

(** The loop of [Start] only lists images. *)
Lemma tryLanguages_world (langs : list string)
    (cur : result (option compute.Image)) (w : World) :
  exists calls,
    (tryLanguages p langs cur w).2 = logged w calls
    /\ Forall (fun c => exists filter, c = ImagesList (p_projectID p) filter) calls.
Proof.
  revert cur w. induction langs as [|language langs IH]; intros cur w; simpl.
  - exists []. by rewrite logged_nil.
  - unfold mbind, M_bind. rewrite imageForLanguage_step.
    destruct (imageForLanguage p language w).1 as [image|err].
    + eexists. split; [done|]. repeat constructor. by eexists.
    + destruct (IH (Err err) (logged w [ImagesList (p_projectID p)
                                          (gceImagesFilter language)]))
        as (calls & -> & Hcalls).
      eexists. rewrite logged_logged. split; [done|].
      constructor; [by eexists|done].
Qed.

(** The loop stops at the first candidate whose lookup succeeds. *)
Lemma tryLanguages_first (tried : list string) (language : string)
    (rest : list string) (cur : result (option compute.Image)) (w : World)
    (image : option compute.Image) :
  Forall (fun l => exists err, (imageForLanguage p l w).1 = Err err) tried ->
  (imageForLanguage p language w).1 = Ok image ->
  (tryLanguages p (tried ++ language :: rest) cur w).1 = Ok image.
Proof.
  intros Htried Hfound. revert cur w Htried Hfound.
  induction tried as [|l tried IH]; intros cur w Htried Hfound; simpl.
  - unfold mbind, M_bind. rewrite imageForLanguage_step, Hfound. done.
  - apply Forall_cons in Htried as [[err Herr] Htried].
    unfold mbind, M_bind. rewrite imageForLanguage_step, Herr.
    apply IH.
    + eapply Forall_impl; [done|]. intros l' [err' Herr'].
      exists err'. by rewrite imageForLanguage_logged.
    + by rewrite imageForLanguage_logged.
Qed.

(** When no candidate succeeds the loop ends with the error of the last. *)
Lemma tryLanguages_none (tried : list string) (language : string)
    (cur : result (option compute.Image)) (w : World) (err : error) :
  Forall (fun l => exists err, (imageForLanguage p l w).1 = Err err) tried ->
  (imageForLanguage p language w).1 = Err err ->
  (tryLanguages p (tried ++ [language]) cur w).1 = Err err.
Proof.
  intros Htried Hlast. revert cur w Htried Hlast.
  induction tried as [|l tried IH]; intros cur w Htried Hlast; simpl.
  - unfold mbind, M_bind. rewrite imageForLanguage_step, Hlast. done.
  - apply Forall_cons in Htried as [[err' Herr'] Htried].
    unfold mbind, M_bind. rewrite imageForLanguage_step, Herr'.
    apply IH.
    + eapply Forall_impl; [done|]. intros l' [err'' Herr''].
      exists err''. by rewrite imageForLanguage_logged.
    + by rewrite imageForLanguage_logged.
Qed.

End selection.

(** ** Polling against a [select] *)

Section await.
Context {R Msg : Type} (request : Call) (body : R -> option Msg).

Lemma await_world (sched : list (Event R)) (w : World) :
  exists n, (await request body sched w).2 = logged w (replicate n request).
Proof.
  revert w. induction sched as [|[r|] sched IH]; intros w; simpl.
  - exists 0%nat. by rewrite logged_nil.
  - run. destruct (body r).
    + by exists 1%nat.
    + fold (logged w [request]).
      destruct (IH (logged w [request])) as [n ->].
      exists (S n). by rewrite logged_logged.
  - exists 0%nat. by rewrite logged_nil.
Qed.

(** What the [select] receives depends on the schedule only. *)
Lemma await_result (sched : list (Event R)) (w w' : World) :
  (await request body sched w).1 = (await request body sched w').1.
Proof.
  revert w w'. induction sched as [|[r|] sched IH]; intros w w'; simpl;
    [done| |done].
  run. destruct (body r); [done|]. apply IH.
Qed.



End await.

Lemma stillRunning_bootPoll (inst : compute.Instance)
    (e : Event (result compute.Operation)) :
  stillRunning e -> exists r, e = Completes r /\ bootPoll inst r = None.
Proof.
  intros (op & -> & Hop). eexists. split; [done|]. simpl.
  by apply String.eqb_neq in Hop as ->.
Qed.

Lemma stillRunning_stopPoll (e : Event (result compute.Operation)) :
  stillRunning e <-> exists r, e = Completes r /\ stopPoll r = None.
Proof.
  split.
  - intros (op & -> & Hop). eexists. split; [done|]. simpl.
    by apply String.eqb_neq in Hop as ->.
  - intros (r & -> & Hr). destruct r as [op|]; [|done].
    exists op. split; [done|]. simpl in Hr.
    destruct (String.eqb_spec (compute.Status op) "DONE") as [|Hne]; [|done].
    by destruct (compute.Error op).
Qed.

(** ** [Start] *)

Lemma not_isInsert (c : Call) :
  match c with InstancesInsert _ _ _ => False | _ => True end -> ~ isInsert c.
Proof. intros Hc (project & zone & inst & ->). done. Qed.

Section start.
Context (p : GCEProvider) (ctx : Context) (startAttributes : StartAttributes).

Lemma Start_selection_error (sched : list (Event (result compute.Operation)))
    (w : World) (err : error) :
  selectedImage p startAttributes w = Err err ->
  (Start p ctx startAttributes sched w).1 = Returned (Err err)
  /\ exists calls,
       (Start p ctx startAttributes sched w).2 = logged w calls
       /\ Forall isImagesList calls.
Proof.
  unfold selectedImage, Start, mbind, M_bind. intros Hsel.
  destruct (tryLanguages_world p (candidateLangs p startAttributes) (Ok None) w)
    as (calls & Hw & Hcalls).
  destruct (tryLanguages p _ _ w) as [r w1]. simpl in *. subst r w1.
  split; [done|]. exists calls. split; [done|].
  eapply Forall_impl; [done|]. intros c [filter ->]. by eexists _, _.
Qed.

Lemma Start_selected (sched : list (Event (result compute.Operation)))
    (w : World) (image : compute.Image) :
  selectedImage p startAttributes w = Ok (Some image) ->
  let inst := newInstance p startAttributes image (uuid w) in
  let project := p_projectID p in
  let zone := compute.Zone_Name (Zone (p_ic p)) in
  (Start p ctx startAttributes sched w).1 =
    match insert w inst with
    | Err err => Returned (Err err)
    | Ok op =>
        started p ctx image
          (await (ZoneOperationsGet project zone (compute.Op_Name op))
                 (bootPoll inst) sched w).1
    end
  /\ exists lookups after,
       (Start p ctx startAttributes sched w).2 =
         logged w (lookups ++ InstancesInsert project zone inst :: after)
       /\ Forall isImagesList lookups
       /\ Forall (fun c => ~ isInsert c) after.
Proof.
  intros Hsel inst project zone.
  unfold selectedImage in Hsel. unfold Start, mbind, M_bind.
  destruct (tryLanguages_world p (candidateLangs p startAttributes) (Ok None) w)
    as (lookups & Hw & Hlookups).
  assert (Forall isImagesList lookups) as Hlookups'.
  { eapply Forall_impl; [done|]. intros c [filter ->]. by eexists _, _. }
  destruct (tryLanguages p _ _ w) as [r w1]. simpl in Hsel, Hw. subst r w1.
  step. fold inst project zone.
  destruct (insert w inst) as [op|err]; [|split; [done|]; by exists lookups, []].
  set (request := ZoneOperationsGet project zone (compute.Op_Name op)).
  set (w1 := logged w _).
  destruct (await_world request (bootPoll inst) sched w1) as [n Hn].
  rewrite (await_result request (bootPoll inst) sched w w1).
  destruct (await request (bootPoll inst) sched w1) as [s w2].
  simpl in Hn |- *. subst w2 w1.
  assert (Forall (fun c => ~ isInsert c) (replicate n request)) as Hpolls.
  { apply Forall_replicate. by apply not_isInsert. }
  assert (forall more, Forall (fun c => ~ isInsert c) more ->
            exists lookups0 after,
              logged (logged (logged w (lookups ++ [InstancesInsert project zone inst]))
                        (replicate n request)) more
              = logged w (lookups0 ++ InstancesInsert project zone inst :: after)
              /\ Forall isImagesList lookups0
              /\ Forall (fun c => ~ isInsert c) after) as Hshape.
  { intros more Hmore. exists lookups, (replicate n request ++ more).
    rewrite !logged_logged, <- !app_assoc. split; [done|]. split; [done|].
    by apply Forall_app. }
  destruct s as [[inst'|err]| |]; simpl.
  - split; [done|]. apply Hshape. constructor; [by apply not_isInsert|done].
  - split; [done|]. rewrite <- (logged_nil (logged _ (replicate n request))).
    by apply Hshape.
  - destruct (isDeadlineExceeded (ctx_Err ctx)); simpl; (split; [done|]).
    + apply Hshape. constructor; [by apply not_isInsert|done].
    + rewrite <- (logged_nil (logged _ (replicate n request))). by apply Hshape.
  - split; [done|]. rewrite <- (logged_nil (logged _ (replicate n request))).
    by apply Hshape.
Qed.

End start.

(** *** [Start] does not dereference a nil image *)

Lemma imageForLanguage_not_nil (p : GCEProvider) (language : string) (w : World) :
  (imageForLanguage p language w).1 <> Ok None.
Proof.
  destruct (images w (gceImagesFilter language)) as [items|err] eqn:Hlist.
  - destruct items as [|image items].
    + by rewrite (imageForLanguage_none p language w Hlist).
    + destruct (imageForLanguage_some p language w (image :: items) Hlist)
        as (found & -> & _); done.
  - by rewrite (imageForLanguage_list_error p language w err Hlist).
Qed.

Lemma tryLanguages_cons (p : GCEProvider) (language : string)
    (rest : list string) (cur : result (option compute.Image)) (w : World) :
  tryLanguages p (language :: rest) cur w =
  match (imageForLanguage p language w).1 with
  | Ok image =>
      (Ok image, logged w [ImagesList (p_projectID p) (gceImagesFilter language)])
  | Err err =>
      tryLanguages p rest (Err err)
        (logged w [ImagesList (p_projectID p) (gceImagesFilter language)])
  end.
Proof.
  simpl. unfold mbind, M_bind. rewrite imageForLanguage_step.
  by destruct (imageForLanguage p language w).1.
Qed.

Lemma tryLanguages_not_nil (p : GCEProvider) (langs : list string)
    (cur : result (option compute.Image)) (w : World) :
  cur <> Ok None -> (tryLanguages p langs cur w).1 <> Ok None.
Proof.
  revert cur w. induction langs as [|language langs IH]; intros cur w Hcur;
    [done|].
  rewrite tryLanguages_cons.
  pose proof (imageForLanguage_not_nil p language w) as Hfound.
  destruct (imageForLanguage p language w).1 as [image|err]; [done|].
  by apply IH.
Qed.

(** The selection never ends with a nil image and no error, so that
    [image.SelfLink] in [Start] is safe. *)
Lemma selectedImage_not_nil (p : GCEProvider)
    (startAttributes : StartAttributes) (w : World) :
  selectedImage p startAttributes w <> Ok None.
Proof.
  unfold selectedImage, candidateLangs.
  destruct (languageMappings p !! Language startAttributes); cbn [app];
    rewrite tryLanguages_cons;
    pose proof (imageForLanguage_not_nil p (Language startAttributes) w);
    (destruct (imageForLanguage p (Language startAttributes) w).1; [done|]);
    by apply tryLanguages_not_nil.
Qed.

(** ** Claims about [Start] *)

(** C5. Whenever the listing for a language has at least one image,
    [imageForLanguage] answers with one of the listed images, and the name
    of every listed image is below or equal to its name in the order of
    strings: it is the lexicographically greatest.  In the scenario of the
    specification the image selected for a job of language py is
    travis-ci-python-2, and so is the image found for the mapped language
    python on its own. *)
Theorem imageForLanguage_greatest_name :
  (forall (p : GCEProvider) (language : string) (w : World)
          (items : list compute.Image),
      images w (gceImagesFilter language) = Ok items -> items <> [] ->
      exists image,
        (imageForLanguage p language w).1 = Ok (Some image)
        /\ image ∈ items
        /\ forall other, other ∈ items ->
             str_le (compute.Image_Name other) (compute.Image_Name image))
  /\ selectedImage scenarioProvider {| Language := "py" |}
       (cloud scenarioImages ∅)
     = Ok (Some (imageNamed "travis-ci-python-2"))
  /\ (imageForLanguage scenarioProvider "python" (cloud scenarioImages ∅)).1
     = Ok (Some (imageNamed "travis-ci-python-2")).
Proof.
  split; [|split; vm_compute; reflexivity].
  intros p language w items Hlist Hne.
  by apply imageForLanguage_some.
Qed.

Lemma imageForLanguage_greatest_name_witness :
  exists image,
    (imageForLanguage scenarioProvider "python" (cloud scenarioImages ∅)).1
    = Ok (Some image)
    /\ image ∈ [imageNamed "travis-ci-python-1"; imageNamed "travis-ci-python-2"]
    /\ forall other,
         other ∈ [imageNamed "travis-ci-python-1"; imageNamed "travis-ci-python-2"] ->
         str_le (compute.Image_Name other) (compute.Image_Name image).
Proof.
  apply (proj1 imageForLanguage_greatest_name scenarioProvider "python"
           (cloud scenarioImages ∅)).
  - vm_compute. reflexivity.
  - discriminate.
Defined.

(** C4, as stated, fails: with rb mapped to ruby and an image for each, the
    order of the specification tries ruby first and would use
    travis-ci-ruby-1, while [Start] tries rb first and uses
    travis-ci-rb-1. *)
Lemma Start_candidate_order_counterexample :
  languageMappings rubyProvider !! "rb" = Some "ruby"
  /\ specCandidateLangs rubyProvider {| Language := "rb" |}
     = ["ruby"; "rb"; "minimal"]
  /\ candidateLangs rubyProvider {| Language := "rb" |}
     = ["rb"; "ruby"; "minimal"]
  /\ (tryLanguages rubyProvider
        (specCandidateLangs rubyProvider {| Language := "rb" |}) (Ok None)
        (cloud rubyImages ∅)).1
     = Ok (Some (imageNamed "travis-ci-ruby-1"))
  /\ selectedImage rubyProvider {| Language := "rb" |} (cloud rubyImages ∅)
     = Ok (Some (imageNamed "travis-ci-rb-1"))
  /\ ~ (selectedImage rubyProvider {| Language := "rb" |} (cloud rubyImages ∅)
        = (tryLanguages rubyProvider
             (specCandidateLangs rubyProvider {| Language := "rb" |}) (Ok None)
             (cloud rubyImages ∅)).1).
Proof.
  repeat split; try (vm_compute; reflexivity).
  vm_compute. discriminate.
Qed.

(** C4, amended. The candidates of [Start] are, in this order: the job
    language itself, then [languageMappings[lang]] if that mapping is
    present, then the default language.  The first candidate in that order
    whose image lookup succeeds gives the image that is used: it is the
    selected image, and the creation request of [Start] is made from it. *)
Theorem Start_candidate_order (p : GCEProvider)
    (startAttributes : StartAttributes) :
  candidateLangs p startAttributes =
    Language startAttributes
      :: match languageMappings p !! Language startAttributes with
         | Some lang => [lang]
         | None => []
         end ++ [defaultLanguage p]
  /\ forall (ctx : Context) (sched : list (Event (result compute.Operation)))
       (w : World) (tried : list string) (language : string)
       (rest : list string) (image : compute.Image),
       candidateLangs p startAttributes = tried ++ language :: rest ->
       Forall (fun l => exists err, (imageForLanguage p l w).1 = Err err) tried ->
       (imageForLanguage p language w).1 = Ok (Some image) ->
       selectedImage p startAttributes w = Ok (Some image)
       /\ InstancesInsert (p_projectID p) (compute.Zone_Name (Zone (p_ic p)))
            (newInstance p startAttributes image (uuid w))
          ∈ log (Start p ctx startAttributes sched w).2.
Proof.
  split.
  - unfold candidateLangs.
    by destruct (languageMappings p !! Language startAttributes).
  - intros ctx sched w tried language rest image Hcands Htried Hfound.
    assert (selectedImage p startAttributes w = Ok (Some image)) as Hsel.
    { unfold selectedImage. rewrite Hcands. by apply tryLanguages_first. }
    split; [done|].
    destruct (Start_selected p ctx startAttributes sched w image Hsel)
      as (_ & lookups & after & -> & _).
    rewrite log_logged, !elem_of_app, elem_of_cons. auto.
Qed.

Lemma Start_candidate_order_witness :
  selectedImage rubyProvider {| Language := "rb" |} (cloud rubyImages ∅)
  = Ok (Some (imageNamed "travis-ci-rb-1"))
  /\ InstancesInsert "travis" "us-central1-a"
       (newInstance rubyProvider {| Language := "rb" |}
          (imageNamed "travis-ci-rb-1") "0")
     ∈ log (Start rubyProvider {| ctx_Err := Canceled |} {| Language := "rb" |}
              [Done] (cloud rubyImages ∅)).2.
Proof.
  apply (proj2 (Start_candidate_order rubyProvider {| Language := "rb" |})
           {| ctx_Err := Canceled |} [Done] (cloud rubyImages ∅)
           [] "rb" ["ruby"; "minimal"] (imageNamed "travis-ci-rb-1")).
  - reflexivity.
  - constructor.
  - vm_compute. reflexivity.
Defined.

Lemma Start_unselected_world (p : GCEProvider) (ctx : Context)
    (startAttributes : StartAttributes)
    (sched : list (Event (result compute.Operation))) (w : World) :
  (forall image, selectedImage p startAttributes w <> Ok (Some image)) ->
  exists calls,
    (Start p ctx startAttributes sched w).2 = logged w calls
    /\ Forall isImagesList calls.
Proof.
  intros Hsel. unfold selectedImage in Hsel. unfold Start, mbind, M_bind.
  destruct (tryLanguages_world p (candidateLangs p startAttributes) (Ok None) w)
    as (calls & Hw & Hcalls).
  destruct (tryLanguages p _ _ w) as [r w1]. simpl in *. subst w1.
  exists calls. split.
  - destruct r as [[image|]|err]; [|done..]. by destruct (Hsel image).
  - eapply Forall_impl; [done|]. intros c [filter ->]. by eexists _, _.
Qed.

Lemma isImagesList_not_insert (calls : list Call) (project zone : string)
    (inst : compute.Instance) :
  Forall isImagesList calls -> InstancesInsert project zone inst ∉ calls.
Proof.
  intros Hcalls Hin. rewrite Forall_forall in Hcalls.
  by destruct (Hcalls _ Hin) as (? & ? & ?).
Qed.



(** C8. Every creation request that [Start] issues is made from the
    selected image and asks for: preemptible scheduling; one disk, a boot
    disk that is deleted with the instance and is initialised from the
    selected image; one network interface whose only access configuration
    is a one-to-one NAT; and as only metadata item a startup script that
    writes the operator's public SSH key to the authorized_keys file of the
    user travis. *)
Theorem Start_creation_request (p : GCEProvider) (ctx : Context)
    (startAttributes : StartAttributes)
    (sched : list (Event (result compute.Operation))) (w : World)
    (calls : list Call) (project zone : string) (inst : compute.Instance) :
  log (Start p ctx startAttributes sched w).2 = log w ++ calls ->
  InstancesInsert project zone inst ∈ calls ->
  exists image,
    selectedImage p startAttributes w = Ok (Some image)
    /\ compute.Scheduling_ inst = Some {| compute.Preemptible := true |}
    /\ (exists params,
          compute.Disks inst =
            [ {| compute.Disk_Type := "PERSISTENT";
                 compute.Mode := "READ_WRITE";
                 compute.Boot := true;
                 compute.AutoDelete := true;
                 compute.InitializeParams := Some params |} ]
          /\ compute.SourceImage params = compute.Image_SelfLink image)
    /\ (exists ni ac,
          compute.NetworkInterfaces inst = [ni]
          /\ compute.AccessConfigs ni = [ac]
          /\ compute.AccessConfig_Type ac = "ONE_TO_ONE_NAT")
    /\ compute.Metadata_ inst =
         Some {| compute.Metadata_Items :=
                   [ {| compute.Key := "startup-script";
                        compute.Value :=
                          "#!/usr/bin/env bash
cat > ~travis/.ssh/authorized_keys <<EOF
" +:+ SSHPubKey (p_ic p) +:+ "
EOF
" |} ] |}.
Proof.
  intros Hlog Hin.
  destruct (selectedImage p startAttributes w) as [[image|]|err] eqn:Hsel.
  - destruct (Start_selected p ctx startAttributes sched w image Hsel)
      as (_ & lookups & after & Hw & Hlookups & Hafter).
    rewrite Hw, log_logged in Hlog. apply app_inv_head in Hlog. subst calls.
    apply elem_of_app in Hin as [Hin|Hin];
      [by apply isImagesList_not_insert in Hin|].
    apply elem_of_cons in Hin as [Hin|Hin].
    + injection Hin as -> -> ->. exists image. split; [done|].
      split; [done|]. split; [by eexists|]. split; [by eexists _, _|done].
    + rewrite Forall_forall in Hafter. destruct (Hafter _ Hin). by eexists _, _, _.
  - destruct (Start_unselected_world p ctx startAttributes sched w)
      as (calls' & Hw & Hcalls); [by rewrite Hsel|].
    rewrite Hw, log_logged in Hlog. apply app_inv_head in Hlog. subst calls.
    by apply isImagesList_not_insert in Hin.
  - destruct (Start_unselected_world p ctx startAttributes sched w)
      as (calls' & Hw & Hcalls); [by rewrite Hsel|].
    rewrite Hw, log_logged in Hlog. apply app_inv_head in Hlog. subst calls.
    by apply isImagesList_not_insert in Hin.
Qed.

Lemma Start_creation_request_witness :
  exists image,
    selectedImage scenarioProvider {| Language := "py" |} (cloud scenarioImages ∅)
    = Ok (Some image)
    /\ compute.Scheduling_
         (newInstance scenarioProvider {| Language := "py" |}
            (imageNamed "travis-ci-python-2") "0")
       = Some {| compute.Preemptible := true |}
    /\ (exists params,
          compute.Disks
            (newInstance scenarioProvider {| Language := "py" |}
               (imageNamed "travis-ci-python-2") "0") =
            [ {| compute.Disk_Type := "PERSISTENT";
                 compute.Mode := "READ_WRITE";
                 compute.Boot := true;
                 compute.AutoDelete := true;
                 compute.InitializeParams := Some params |} ]
          /\ compute.SourceImage params = compute.Image_SelfLink image)
    /\ (exists ni ac,
          compute.NetworkInterfaces
            (newInstance scenarioProvider {| Language := "py" |}
               (imageNamed "travis-ci-python-2") "0") = [ni]
          /\ compute.AccessConfigs ni = [ac]
          /\ compute.AccessConfig_Type ac = "ONE_TO_ONE_NAT")
    /\ compute.Metadata_
         (newInstance scenarioProvider {| Language := "py" |}
            (imageNamed "travis-ci-python-2") "0") =
         Some {| compute.Metadata_Items :=
                   [ {| compute.Key := "startup-script";
                        compute.Value :=
                          "#!/usr/bin/env bash
cat > ~travis/.ssh/authorized_keys <<EOF
" +:+ SSHPubKey (p_ic scenarioProvider) +:+ "
EOF
" |} ] |}.
Proof.
  apply (Start_creation_request scenarioProvider {| ctx_Err := Canceled |}
           {| Language := "py" |} [Done] (cloud scenarioImages ∅)
           [ ImagesList "travis" "name eq ^travis-ci-py.+";
             InstancesInsert "travis" "us-central1-a"
               (newInstance scenarioProvider {| Language := "py" |}
                  (imageNamed "travis-ci-python-2") "0") ]
           "travis" "us-central1-a").
  - vm_compute. reflexivity.
  - apply (list_elem_of_lookup_2 _ 1%nat). reflexivity.
Defined.

(** ** The SSH connection *)

Section connection.
Context (i : GCEInstance).

Lemma refreshInstance_eq (w : World) :
  refreshInstance i w =
  ((refreshed i w,
    match instancesGet w with Ok _ => None | Err err => Some err end),
   logged w [refreshCall i]).
Proof.
  unfold refreshed, refreshInstance. run. by destruct (instancesGet w).
Qed.

Lemma refreshed_fields (w : World) :
  authUser (refreshed i w) = authUser i /\ ic (refreshed i w) = ic i.
Proof.
  unfold refreshed, refreshInstance. run. by destruct (instancesGet w).
Qed.

Lemma sshClient_eq (w : World) :
  sshClient i w =
  if String.eqb (getIP (refreshed i w)) "" then
    ((refreshed i w, Err gceMissingIPAddressError), logged w [refreshCall i])
  else
    ((refreshed i w,
      match dial (plane w) with
      | None =>
          Ok (ClientOf (getIP (refreshed i w) +:+ ":22")
                {| User := authUser i;
                   Auth := [PublicKeys (SSHKeySigner (ic i))] |})
      | Some err => Err err
      end),
     logged w [refreshCall i; dialCall i w]).
Proof.
  unfold sshClient, mbind, M_bind. rewrite refreshInstance_eq.
  destruct (refreshed_fields w) as [Huser Hic]. unfold dialCall.
  destruct (String.eqb (getIP (refreshed i w)) ""); [done|].
  run. rewrite Huser, Hic. unfold logged, set_log. simpl.
  by rewrite <- app_assoc.
Qed.

End connection.

(** ** [uploadScriptAttempt] and [RunScript], case by case *)

Section data_plane.
Context (i : GCEInstance) (ctx : Context).

Lemma RunScript_eq (w : World) :
  RunScript i ctx w =
  let i' := refreshed i w in
  let failed err := (i', ({| Completed := false; ExitCode := 0 |}, Some err)) in
  if String.eqb (getIP i') "" then
    (failed gceMissingIPAddressError, logged w [refreshCall i])
  else
    match dial (plane w) with
    | Some err => (failed err, logged w [refreshCall i; dialCall i w])
    | None =>
        match newSession (plane w) with
        | Some err =>
            (failed err,
             logged w [refreshCall i; dialCall i w; NewSession; ClientClose])
        | None =>
            match requestPty (plane w) with
            | Some err =>
                (failed err,
                 logged w [refreshCall i; dialCall i w; NewSession;
                           RequestPty "xterm" 80 40; SessionClose; ClientClose])
            | None =>
                ((i', runOutcome (run (plane w))),
                 logged w [refreshCall i; dialCall i w; NewSession;
                           RequestPty "xterm" 80 40;
                           SessionRun "bash ~/build.sh";
                           SessionClose; ClientClose])
            end
        end
    end.
Proof.
  unfold RunScript, mbind, M_bind. rewrite sshClient_eq.
  destruct (String.eqb (getIP (refreshed i w)) ""); [done|].
  destruct (dial (plane w)); [done|].
  step. destruct (newSession (plane w)); step; [done|].
  destruct (requestPty (plane w)); step; done.
Qed.

Lemma uploadScriptAttempt_eq (script : bytes) (w : World) :
  uploadScriptAttempt i ctx script w =
  let i' := refreshed i w in
  let path := sftpPath (home w) "build.sh" in
  let opened := [refreshCall i; dialCall i w; SftpNewClient] in
  let closed := [SftpClose; ClientClose] in
  let created :=
    match create (plane w) with
    | Some err =>
        ((i', Some err),
         logged w (opened ++ [SftpLstat "build.sh"; SftpCreate "build.sh"]
                     ++ closed))
    | None =>
        match write (plane w) with
        | Some err =>
            ((i', Some err),
             set_files (<[path := []]> (files w))
               (logged w (opened ++ [SftpLstat "build.sh"; SftpCreate "build.sh";
                                     FileWrite "build.sh" script] ++ closed)))
        | None =>
            ((i', None),
             set_files (<[path := script]> (files w))
               (logged w (opened ++ [SftpLstat "build.sh"; SftpCreate "build.sh";
                                     FileWrite "build.sh" script] ++ closed)))
        end
    end in
  if String.eqb (getIP i') "" then
    ((i', Some gceMissingIPAddressError), logged w [refreshCall i])
  else
    match dial (plane w) with
    | Some err => ((i', Some err), logged w [refreshCall i; dialCall i w])
    | None =>
        match sftpNew (plane w) with
        | Some err => ((i', Some err), logged w (opened ++ [ClientClose]))
        | None =>
            match lstatFault (plane w) with
            | Some _ => created
            | None =>
                match files w !! path with
                | Some _ =>
                    ((i', Some ErrStaleVM),
                     logged w (opened ++ [SftpLstat "build.sh"] ++ closed))
                | None => created
                end
            end
        end
    end.
Proof.
  unfold uploadScriptAttempt, mbind, M_bind. rewrite sshClient_eq.
  destruct (String.eqb (getIP (refreshed i w)) ""); [done|].
  destruct (dial (plane w)); [done|].
  step. destruct (sftpNew (plane w)); step; [done|].
  destruct (lstatFault (plane w)); step;
    [|destruct (files w !! sftpPath (home w) "build.sh"); step; [done|]];
    (destruct (create (plane w)); step; [done|]);
    destruct (write (plane w)); step; by rewrite ?insert_insert_eq.
Qed.

End data_plane.

(** ** The address of the VM *)

Lemma firstNatIP_None (acs : list compute.AccessConfig) :
  firstNatIP acs = None <-> forall ac, ac ∈ acs -> compute.NatIP ac = "".
Proof.
  induction acs as [|ac acs IH]; simpl.
  - split; [|done]. intros _ ac Hac. by apply elem_of_nil in Hac.
  - destruct (String.eqb_spec (compute.NatIP ac) "") as [Hip|Hip]; simpl.
    + rewrite IH. split.
      * intros Hacs ac' [->|?]%elem_of_cons; auto.
      * intros Hacs ac' ?. apply Hacs. by apply elem_of_cons; right.
    + split; [done|]. intros Hacs. destruct Hip. apply Hacs.
      by apply elem_of_cons; left.
Qed.

Lemma firstNatIP_Some (acs : list compute.AccessConfig) (ip : string) :
  firstNatIP acs = Some ip -> ip <> "".
Proof.
  induction acs as [|ac acs IH]; simpl; [done|].
  destruct (String.eqb_spec (compute.NatIP ac) "") as [Hip|Hip]; simpl; [done|].
  by intros [= <-].
Qed.

Lemma getIP_in_empty (nis : list compute.NetworkInterface) :
  getIP_in nis = "" <->
  forall ni ac, ni ∈ nis -> ac ∈ compute.AccessConfigs ni -> compute.NatIP ac = "".
Proof.
  induction nis as [|ni nis IH]; simpl.
  - split; [|done]. intros _ ni ac Hni. by apply elem_of_nil in Hni.
  - destruct (firstNatIP (compute.AccessConfigs ni)) as [ip|] eqn:Hfirst.
    + split.
      * intros ->. by apply firstNatIP_Some in Hfirst.
      * intros Hall. assert (firstNatIP (compute.AccessConfigs ni) = None) as Hnone.
        { apply firstNatIP_None. intros ac Hac. apply (Hall ni ac); [|done].
          by apply elem_of_cons; left. }
        congruence.
    + rewrite IH. rewrite firstNatIP_None in Hfirst. split.
      * intros Hnis ni' ac [->|?]%elem_of_cons ?; eauto.
      * intros Hall ni' ac ? ?. apply (Hall ni' ac); [|done].
        by apply elem_of_cons; right.
Qed.

Lemma getIP_noNatIP (i : GCEInstance) :
  getIP i = "" <-> noNatIP (instance i).
Proof. apply getIP_in_empty. Qed.

Lemma refreshed_eq (i : GCEInstance) (w : World) :
  refreshed i w =
  match instancesGet w with
  | Ok inst => set_instance inst i
  | Err _ => i
  end.
Proof. unfold refreshed, refreshInstance. run. by destruct (instancesGet w). Qed.

(** ** Claims about the SSH connection and [RunScript] *)

(** C10. When the record of the VM that the handle holds after
    [refreshInstance] has no network interface with a non-empty NAT
    address, [sshClient] fails with [gceMissingIPAddressError] and the only
    request made is the refresh of the record, so that no connection is
    dialled; an upload attempt returns that error, and [RunScript] returns
    a result that is not completed together with that error. *)
Theorem no_nat_ip_no_dial (i : GCEInstance) (ctx : Context) (script : bytes)
    (w : World) :
  noNatIP (instance (refreshed i w)) ->
  sshClient i w =
    ((refreshed i w, Err gceMissingIPAddressError),
     logged w [InstancesGet (projectID i) (compute.Zone_Name (Zone (ic i)))
                 (compute.Name (instance i))])
  /\ (forall c, c ∈ log (sshClient i w).2 -> isDial c -> c ∈ log w)
  /\ uploadScriptAttempt i ctx script w =
       ((refreshed i w, Some gceMissingIPAddressError), logged w [refreshCall i])
  /\ RunScript i ctx w =
       ((refreshed i w,
         ({| Completed := false; ExitCode := 0 |}, Some gceMissingIPAddressError)),
        logged w [refreshCall i]).
Proof.
  intros Hno. apply getIP_noNatIP in Hno.
  rewrite uploadScriptAttempt_eq, RunScript_eq, sshClient_eq. simpl.
  rewrite Hno. simpl. split; [done|]. split; [|done].
  intros c Hc (network & addr & config & ->).
  apply elem_of_app in Hc as [?|Hc]; [done|].
  by apply list_elem_of_singleton in Hc.
Qed.

Lemma no_nat_ip_no_dial_witness :
  sshClient pythonVM bootingCloud =
    ((refreshed pythonVM bootingCloud, Err gceMissingIPAddressError),
     logged bootingCloud
       [InstancesGet "travis" "us-central1-a" "testing-gce-0"])
  /\ (forall c, c ∈ log (sshClient pythonVM bootingCloud).2 -> isDial c ->
        c ∈ log bootingCloud)
  /\ uploadScriptAttempt pythonVM {| ctx_Err := Canceled |} [] bootingCloud =
       ((refreshed pythonVM bootingCloud, Some gceMissingIPAddressError),
        logged bootingCloud [refreshCall pythonVM])
  /\ RunScript pythonVM {| ctx_Err := Canceled |} bootingCloud =
       ((refreshed pythonVM bootingCloud,
         ({| Completed := false; ExitCode := 0 |}, Some gceMissingIPAddressError)),
        logged bootingCloud [refreshCall pythonVM]).
Proof.
  apply (no_nat_ip_no_dial pythonVM {| ctx_Err := Canceled |} [] bootingCloud).
  apply getIP_noNatIP. vm_compute. reflexivity.
Defined.

Lemma uint8_small (n : Z) : (0 <= n < 256)%Z -> uint8 n = n.
Proof. intros Hn. unfold uint8. by apply Z.mod_small. Qed.

Lemma sessionReady_RunScript (i : GCEInstance) (ctx : Context) (w : World) :
  sessionReady i w ->
  (RunScript i ctx w).1.2 = runOutcome (run (plane w)).
Proof.
  intros (Hip & Hdial & Hsession & Hpty). rewrite RunScript_eq. simpl.
  apply String.eqb_neq in Hip. by rewrite Hip, Hdial, Hsession, Hpty.
Qed.

(** C2. When the invocation gets as far as running the script: a script
    that ends with status 0 (no error from [session.Run]) gives
    [{completed: true, exitCode: 0}] and no error; a script that ends with
    a status [n] of eight bits, reported as an [*ssh.ExitError], gives
    [{completed: true, exitCode: n}] and no error; and any other error of
    [session.Run] gives [{completed: false}] with that error.  When the
    invocation does not get that far (no address, or the connection, the
    session or the terminal is refused) the result is [{completed: false}]
    with an error. *)
Theorem RunScript_exit_code_fidelity (i : GCEInstance) (ctx : Context)
    (w : World) :
  (sessionReady i w ->
     (run (plane w) = None ->
      (RunScript i ctx w).1.2 = ({| Completed := true; ExitCode := 0 |}, None))
     /\ (forall n : Z, (0 <= n < 256)%Z ->
           run (plane w) = Some (ExitError n) ->
           (RunScript i ctx w).1.2
           = ({| Completed := true; ExitCode := n |}, None))
     /\ (forall err, (forall n, err <> ExitError n) ->
           run (plane w) = Some err ->
           (RunScript i ctx w).1.2
           = ({| Completed := false; ExitCode := 0 |}, Some err)))
  /\ (~ sessionReady i w ->
      exists err,
        (RunScript i ctx w).1.2
        = ({| Completed := false; ExitCode := 0 |}, Some err)).
Proof.
  split.
  - intros Hready. rewrite (sessionReady_RunScript i ctx w Hready).
    split; [by intros ->|]. split.
    + intros n Hn ->. simpl. by rewrite uint8_small.
    + intros err Hne ->. destruct err; try done. by destruct (Hne status).
  - intros Hnot. rewrite RunScript_eq. simpl.
    destruct (String.eqb_spec (getIP (refreshed i w)) "") as [|Hip];
      [by eexists|].
    destruct (dial (plane w)) eqn:Hdial; [by eexists|].
    destruct (newSession (plane w)) eqn:Hsession; [by eexists|].
    destruct (requestPty (plane w)) eqn:Hpty; [by eexists|].
    by destruct Hnot.
Qed.

Lemma RunScript_exit_code_fidelity_witness :
  (RunScript pythonVM {| ctx_Err := Canceled |}
     (set_plane (set_run (Some (ExitError 42)) healthy) (cloud [] ∅))).1.2
  = ({| Completed := true; ExitCode := 42 |}, None).
Proof.
  refine (proj1 (proj2 (proj1
            (RunScript_exit_code_fidelity pythonVM {| ctx_Err := Canceled |}
               (set_plane (set_run (Some (ExitError 42)) healthy) (cloud [] ∅)))
            _)) 42%Z _ _).
  - repeat split; try reflexivity. vm_compute. discriminate.
  - lia.
  - reflexivity.
Defined.

(** ** The path of the script *)

Section script_calls.
Context (i : GCEInstance) (ctx : Context) (w : World).






End script_calls.



(** ** [UploadScript] on a VM that already holds a script *)

Section stale.
Context (ctx : Context) (script : bytes).

Lemma uploadScriptAttempt_stale (i : GCEInstance) (w : World) :
  staleVM i w ->
  uploadScriptAttempt i ctx script (set_plane healthy w) =
  ((refreshed i w, Some ErrStaleVM),
   logged (set_plane healthy w)
     [refreshCall i; dialCall i w; SftpNewClient; SftpLstat "build.sh";
      SftpClose; ClientClose]).
Proof.
  intros [Hip [old Hold]]. rewrite uploadScriptAttempt_eq.
  assert (refreshed i (set_plane healthy w) = refreshed i w) as Hr
    by by rewrite !refreshed_eq.
  unfold dialCall. rewrite Hr. simpl.
  apply String.eqb_neq in Hip. by rewrite Hip, Hold.
Qed.

Lemma staleVM_preserved (i : GCEInstance) (w : World) (calls : list Call) :
  staleVM i w ->
  staleVM (refreshed i w) (logged (set_plane healthy w) calls).
Proof.
  intros [Hip Hold]. split; [|done].
  rewrite !refreshed_eq in *. simpl. by destruct (instancesGet w).
Qed.

(** Attempts on a stale VM leave the loop running, with [ErrStaleVM] in
    [uploadErr] once one of them has ended. *)
Lemma uploadLoop_stale (n : nat) (tail : list (Event DataPlane))
    (i : GCEInstance) (w : World) (uploadErr : option error) :
  staleVM i w ->
  exists i' w',
    (uploadLoop i ctx script uploadErr
       (replicate n (Completes healthy) ++ tail) w).1.2
    = (uploadLoop i' ctx script
         (match n with O => uploadErr | S _ => Some ErrStaleVM end) tail w').1.2.
Proof.
  revert i w uploadErr. induction n as [|n IH]; intros i w uploadErr Hstale.
  - by exists i, w.
  - simpl. unfold mbind, M_bind, act.
    rewrite (uploadScriptAttempt_stale i w Hstale).
    destruct (IH (refreshed i w)
                (logged (set_plane healthy w)
                   [refreshCall i; dialCall i w; SftpNewClient;
                    SftpLstat "build.sh"; SftpClose; ClientClose])
                (Some ErrStaleVM)) as (i' & w' & ->).
    { by apply staleVM_preserved. }
    exists i', w'. by destruct n.
Qed.

End stale.

(** ** Claim about [UploadScript] *)

(** C1, at a failing input. The VM already holds build.sh, and an upload
    attempt on it does return [ErrStaleVM].  But [UploadScript] does not
    return it to its caller: when the context is done before the first
    attempt has ended it returns nil, and as long as the context is not
    done it does not return at all, however many attempts have found the
    stale file.  Only when the context is done later does it return the
    error of the last attempt. *)
Theorem UploadScript_stale_vm (ctx : Context) (script : bytes) :
  (uploadScriptAttempt pythonVM ctx script staleCloud).1.2 = Some ErrStaleVM
  /\ (UploadScript pythonVM ctx script [Done] staleCloud).1.2 = Returned None
  /\ (forall n,
        (UploadScript pythonVM ctx script (replicate n (Completes healthy))
           staleCloud).1.2 = Blocked)
  /\ (forall n,
        (UploadScript pythonVM ctx script
           (replicate (S n) (Completes healthy) ++ [Done]) staleCloud).1.2
        = Returned (Some ErrStaleVM)).
Proof.
  assert (staleVM pythonVM staleCloud) as Hstale.
  { split; [vm_compute; discriminate|]. eexists. vm_compute. reflexivity. }
  split.
  { change staleCloud with (set_plane healthy staleCloud) at 1.
    by rewrite (uploadScriptAttempt_stale ctx script _ _ Hstale). }
  split; [done|]. split; intros n; unfold UploadScript.
  - destruct (uploadLoop_stale ctx script n [] pythonVM staleCloud None Hstale)
      as (i' & w' & Heq).
    rewrite app_nil_r in Heq. by rewrite Heq.
  - by destruct (uploadLoop_stale ctx script (S n) [Done] pythonVM staleCloud
                   None Hstale) as (i' & w' & ->).
Qed.

(** ** [Stop] *)



Section stop.
Context (i : GCEInstance) (ctx : Context).



End stop.



(** ** Claims about the process *)

(** C6, as stated, fails: when the message bus refuses the connection,
    start-up fails and yet the process exits with status 0. *)
Lemma exit_status_counterexample :
  ~ (main.startupFails noBusHost -> (main.main noBusHost).2 <> 0%Z).
Proof.
  intros Hclaim. apply Hclaim; [|reflexivity].
  left. by eexists.
Qed.

(** C6, amended. The worker process exits with status 0 on clean shutdown.
    When start-up fails because the message bus cannot be reached or the
    backend provider cannot be created, [runWorker] logs the error as the
    last thing it does, never runs the pool, and returns: the process exits
    with status 0 as well. *)
Theorem exit_status (h : main.Host) :
  (main.main h).2 = 0%Z
  /\ (main.amqpDial h = None -> main.newProvider h = None ->
      main.PoolRun (main.PoolSize (main.config h)) (main.QueueName (main.config h))
        ∈ (main.main h).1)
  /\ (main.startupFails h ->
      (forall poolSize queueName,
         main.PoolRun poolSize queueName ∉ (main.main h).1)
      /\ exists msg err, last (main.main h).1 = Some (main.LogError msg err)).
Proof.
  unfold main.main, main.runWorker, main.startupFails.
  destruct (negb _ && negb _ && negb _);
    (destruct (main.amqpDial h) as [e1|] eqn:Hdial;
      [|destruct (main.newProvider h) as [e2|] eqn:Hprovider;
        [|destruct (main.amqpClose h)]]);
    simpl; (split; [done|]); split;
    try (intros _; split; [|by eexists _, _];
         intros poolSize queueName Hin;
         repeat (apply elem_of_cons in Hin as [Hin|Hin]; [discriminate|]);
         by apply elem_of_nil in Hin);
    try (by intros [[? [=]]|[? [=]]]);
    try done;
    intros _ _; repeat first [apply list_elem_of_here|apply list_elem_of_further].
Qed.

Lemma exit_status_witness :
  (forall poolSize queueName,
     main.PoolRun poolSize queueName ∉ (main.main noBusHost).1)
  /\ exists msg err, last (main.main noBusHost).1 = Some (main.LogError msg err).
Proof.
  apply (proj2 (proj2 (exit_status noBusHost))).
  left. exists (Foreign "connection refused"). reflexivity.
Defined.

(** * Further properties *)

(** ** Exact requests of the polling and of the selection *)

Section exact.
Context {R Msg : Type} (request : Call) (body : R -> option Msg).

Lemma await_eq (sched : list (Event R)) (w : World) :
  await request body sched w =
  (observed body sched, logged w (replicate (polled body sched) request)).
Proof.
  revert w. induction sched as [|[r|] sched IH]; intros w; simpl.
  - by rewrite logged_nil.
  - step. destruct (body r); [done|]. by rewrite IH, logged_logged.
  - by rewrite logged_nil.
Qed.

Lemma observed_skip (pending sched : list (Event R)) :
  Forall (fun e => exists r, e = Completes r /\ body r = None) pending ->
  observed body (pending ++ sched) = observed body sched.
Proof.
  induction 1 as [|e pending (r & -> & Hr) _ IH]; [done|]. simpl.
  by rewrite Hr.
Qed.

Lemma polled_skip (pending sched : list (Event R)) :
  Forall (fun e => exists r, e = Completes r /\ body r = None) pending ->
  polled body (pending ++ sched) = (length pending + polled body sched)%nat.
Proof.
  induction 1 as [|e pending (r & -> & Hr) _ IH]; [done|]. simpl.
  by rewrite Hr, IH.
Qed.

End exact.

Lemma tryLanguages_requests (p : GCEProvider) (langs : list string)
    (cur : result (option compute.Image)) (w : World) :
  (tryLanguages p langs cur w).2 = logged w (lookupsOf p langs w).
Proof.
  revert cur w. induction langs as [|language langs IH]; intros cur w.
  - simpl. by rewrite logged_nil.
  - rewrite tryLanguages_cons. cbn [lookupsOf].
    destruct (imageForLanguage p language w).1 as [image|err] eqn:Hl; [done|].
    rewrite IH, logged_logged. f_equal. f_equal.
    clear IH Hl. induction langs as [|l langs IH]; [done|]. cbn [lookupsOf].
    rewrite imageForLanguage_logged.
    destruct (imageForLanguage p l w).1; [done|]. by rewrite IH.
Qed.

(** [Start], all cases: what it returns and every request it makes. *)
Lemma Start_eq (p : GCEProvider) (ctx : Context)
    (startAttributes : StartAttributes)
    (sched : list (Event (result compute.Operation))) (w : World) :
  let lookups := lookupsOf p (candidateLangs p startAttributes) w in
  let project := p_projectID p in
  let zone := compute.Zone_Name (Zone (p_ic p)) in
  Start p ctx startAttributes sched w =
  match selectedImage p startAttributes w with
  | Err err => (Returned (Err err), logged w lookups)
  | Ok None =>
      (Returned (Err (RuntimePanic "nil pointer dereference")), logged w lookups)
  | Ok (Some image) =>
      let inst := newInstance p startAttributes image (uuid w) in
      match insert w inst with
      | Err err =>
          (Returned (Err err),
           logged w (lookups ++ [InstancesInsert project zone inst]))
      | Ok op =>
          let s := observed (bootPoll inst) sched in
          (started p ctx image s,
           logged w (lookups
                     ++ InstancesInsert project zone inst
                     :: replicate (polled (bootPoll inst) sched)
                          (ZoneOperationsGet project zone (compute.Op_Name op))
                     ++ bootMetrics ctx s))
      end
  end.
Proof.
  intros lookups project zone. unfold selectedImage, Start, mbind, M_bind.
  pose proof (tryLanguages_requests p (candidateLangs p startAttributes)
                (Ok None) w) as Hw.
  destruct (tryLanguages p _ _ w) as [r w1]. simpl in Hw |- *. subst w1.
  fold lookups. destruct r as [[image|]|err]; [|done..].
  step. fold project zone.
  destruct (insert w _) as [op|err]; [|done].
  rewrite await_eq. autorewrite with world.
  destruct (observed _ sched) as [[inst'|err]| |]; simpl;
    try destruct (isDeadlineExceeded (ctx_Err ctx)); step;
    by rewrite ?app_nil_r, <- ?app_assoc.
Qed.

(** [Stop], all cases. *)
Lemma Stop_eq (i : GCEInstance) (ctx : Context)
    (sched : list (Event (result compute.Operation))) (w : World) :
  let project := projectID i in
  let zone := compute.Zone_Name (Zone (ic i)) in
  let request := InstancesDelete project zone (compute.Name (instance i)) in
  Stop i ctx sched w =
  match delete w with
  | Err err => (Returned (Some err), logged w [request])
  | Ok op =>
      (match observed stopPoll sched with
       | Receives err => Returned err
       | CtxDone => Returned (Some (ctx_Err ctx))
       | Waits => Blocked
       end,
       logged w (request
                 :: replicate (polled stopPoll sched)
                      (ZoneOperationsGet project zone (compute.Op_Name op))))
  end.
Proof.
  intros project zone request. unfold Stop, mbind, M_bind. step.
  fold project zone request.
  destruct (delete w) as [op|err]; [|done].
  rewrite await_eq. autorewrite with world.
  by destruct (observed stopPoll sched).
Qed.

(** ** More on image selection *)

Lemma imageForLanguage_result (p : GCEProvider) (language : string) (w : World)
    (items : list compute.Image) :
  images w (gceImagesFilter language) = Ok items -> items <> [] ->
  exists name,
    last (sort_Strings (map compute.Image_Name items)) = Some name
    /\ (imageForLanguage p language w).1 = Ok ((indexImages items).1 !! name).
Proof.
  intros H Hne. unfold imageForLanguage. run. rewrite H.
  destruct items as [|image0 items0] eqn:Hitems; [done|]. rewrite <- Hitems.
  replace (length items =? 0)%nat with false
    by (subst items; symmetry; by apply Nat.eqb_neq).
  pose proof (indexImages_names items) as Hnames.
  destruct (indexImages items) as [m ns]. simpl in *. subst ns.
  rewrite Nat.sub_1_r, <- last_lookup.
  destruct (last (sort_Strings (map compute.Image_Name items))) as [name|] eqn:Hlast.
  - by exists name.
  - apply last_None in Hlast. apply (f_equal length) in Hlast.
    rewrite sort_Strings_length, length_map in Hlast. by subst items.
Qed.

Lemma indexImages_last (before after : list compute.Image)
    (image : compute.Image) :
  compute.Image_Name image ∉ map compute.Image_Name after ->
  (indexImages (before ++ image :: after)).1 !! compute.Image_Name image
  = Some image.
Proof.
  intros Hafter. unfold indexImages. rewrite foldl_app. cbn [foldl].
  destruct (foldl indexImage (∅, []) before) as [m ns]. unfold indexImage at 2.
  cbn [fst snd].
  destruct (indexImages_from after (<[compute.Image_Name image:=image]> m)
              (ns ++ [compute.Image_Name image])) as (_ & _ & Hout).
  by rewrite (Hout _ Hafter), lookup_insert_eq.
Qed.

(** X1. Among the listed images [imageForLanguage] returns the last one
    that bears the greatest name: an image whose name is above or equal to
    the names before it in the listing and strictly above the names after
    it.  When several listed images share the greatest name, the one
    listed last is returned. *)
Theorem imageForLanguage_last_of_greatest (p : GCEProvider) (language : string)
    (w : World) (before after : list compute.Image) (image : compute.Image) :
  images w (gceImagesFilter language) = Ok (before ++ image :: after) ->
  (forall other, other ∈ before ->
     str_le (compute.Image_Name other) (compute.Image_Name image)) ->
  (forall other, other ∈ after ->
     str_le (compute.Image_Name other) (compute.Image_Name image)
     /\ compute.Image_Name other <> compute.Image_Name image) ->
  (imageForLanguage p language w).1 = Ok (Some image).
Proof.
  intros Hlist Hbefore Hafter.
  destruct (imageForLanguage_result p language w _ Hlist) as (name & Hlast & ->).
  { by destruct before. }
  apply sort_Strings_last_above in Hlast as [Hin Hmax].
  assert (name = compute.Image_Name image) as ->.
  { apply (anti_symm str_le).
    - apply list_elem_of_fmap in Hin as (other & -> & Hother).
      apply elem_of_app in Hother as [?|Hother]; [by apply Hbefore|].
      apply elem_of_cons in Hother as [->|?]; [done|]. by apply Hafter.
    - apply Hmax, list_elem_of_fmap_2.
      apply elem_of_app. right. by apply elem_of_cons; left. }
  f_equal. apply indexImages_last.
  intros (other & Hname & Hother)%list_elem_of_fmap.
  by destruct (Hafter other Hother) as [_ []].
Qed.

Lemma imageForLanguage_last_of_greatest_witness :
  (imageForLanguage scenarioProvider "go" (cloud goImages ∅)).1
  = Ok (Some {| compute.Image_Name := "travis-ci-go-2";
                compute.Image_SelfLink := "images/second" |}).
Proof.
  apply (imageForLanguage_last_of_greatest scenarioProvider "go"
           (cloud goImages ∅)
           [ {| compute.Image_Name := "travis-ci-go-2";
                compute.Image_SelfLink := "images/first" |};
             imageNamed "travis-ci-go-1" ] []).
  - vm_compute. reflexivity.
  - intros other Hother.
    apply elem_of_cons in Hother as [->|Hother]; [vm_compute; reflexivity|].
    apply list_elem_of_singleton in Hother as ->. vm_compute. reflexivity.
  - intros other Hother. by apply elem_of_nil in Hother.
Defined.

Lemma NoDup_fmap_inj_on {A B : Type} (f : A -> B) (l : list A) (x y : A) :
  NoDup (f <$> l) -> x ∈ l -> y ∈ l -> f x = f y -> x = y.
Proof.
  induction l as [|a l IH]; intros Hnd Hx Hy Hf; [by apply elem_of_nil in Hx|].
  rewrite fmap_cons in Hnd. apply NoDup_cons in Hnd as [Ha Hnd].
  apply elem_of_cons in Hx as [->|Hx]; apply elem_of_cons in Hy as [->|Hy].
  - done.
  - destruct Ha. rewrite Hf. by apply list_elem_of_fmap_2.
  - destruct Ha. rewrite <- Hf. by apply list_elem_of_fmap_2.
  - by apply IH.
Qed.

(** X2. When the listed images have distinct names, the answer of
    [imageForLanguage] does not depend on the order of the listing: two
    listings that are rearrangements of one another give the same image. *)
Theorem imageForLanguage_order_independent (p : GCEProvider)
    (language : string) (w w' : World) (items items' : list compute.Image) :
  images w (gceImagesFilter language) = Ok items ->
  images w' (gceImagesFilter language) = Ok items' ->
  items ≡ₚ items' ->
  NoDup (compute.Image_Name <$> items) ->
  (imageForLanguage p language w).1 = (imageForLanguage p language w').1.
Proof.
  intros Hlist Hlist' Hperm Hnames.
  destruct items as [|image0 items0] eqn:Hitems.
  { apply Permutation_nil_l in Hperm. subst items'.
    by rewrite (imageForLanguage_none p language w Hlist),
               (imageForLanguage_none p language w' Hlist'). }
  rewrite <- Hitems in *.
  destruct (imageForLanguage_some p language w items Hlist)
    as (image & -> & Hin & Hmax); [by subst items|].
  destruct (imageForLanguage_some p language w' items' Hlist')
    as (image' & -> & Hin' & Hmax').
  { intros ->. apply Permutation_nil_r in Hperm. by subst items. }
  do 2 f_equal. rewrite <- Hperm in Hin'.
  apply (NoDup_fmap_inj_on compute.Image_Name items); [done..|].
  apply (anti_symm str_le).
  - apply Hmax'. by rewrite <- Hperm.
  - by apply Hmax.
Qed.

Lemma imageForLanguage_order_independent_witness :
  (imageForLanguage scenarioProvider "python" (cloud scenarioImages ∅)).1
  = (imageForLanguage scenarioProvider "python"
       (cloud (reverse scenarioImages) ∅)).1.
Proof.
  apply (imageForLanguage_order_independent scenarioProvider "python"
           (cloud scenarioImages ∅) (cloud (reverse scenarioImages) ∅)
           [imageNamed "travis-ci-python-1"; imageNamed "travis-ci-python-2"]
           [imageNamed "travis-ci-python-2"; imageNamed "travis-ci-python-1"]).
  - vm_compute. reflexivity.
  - vm_compute. reflexivity.
  - apply Permutation_swap.
  - apply (bool_decide_unpack _). vm_compute. reflexivity.
Defined.

(** ** More on [Start] *)

Lemma lookupsOf_first (p : GCEProvider) (w : World) (tried : list string)
    (language : string) (rest : list string) (image : option compute.Image) :
  Forall (fun l => exists err, (imageForLanguage p l w).1 = Err err) tried ->
  (imageForLanguage p language w).1 = Ok image ->
  lookupsOf p (tried ++ language :: rest) w = listCall p <$> (tried ++ [language]).
Proof.
  intros Htried Hfound.
  induction Htried as [|l tried [err Herr] _ IH]; simpl.
  - by rewrite Hfound.
  - by rewrite Herr, IH.
Qed.

Lemma lookupsOf_all (p : GCEProvider) (w : World) (langs : list string) :
  Forall (fun l => exists err, (imageForLanguage p l w).1 = Err err) langs ->
  lookupsOf p langs w = listCall p <$> langs.
Proof.
  induction 1 as [|l langs [err Herr] _ IH]; simpl; [done|].
  by rewrite Herr, IH.
Qed.

Lemma not_isImagesList (c : Call) :
  match c with ImagesList _ _ => False | _ => True end -> ~ isImagesList c.
Proof. intros Hc (project & filter & ->). done. Qed.

Lemma observed_Waits {R Msg : Type} (body : R -> option Msg)
    (sched : list (Event R)) :
  observed body sched = Waits <->
  Forall (fun e => exists r, e = Completes r /\ body r = None) sched.
Proof.
  induction sched as [|[r|] sched IH]; simpl.
  - split; [constructor|done].
  - destruct (body r) eqn:Hr.
    + split; [done|]. intros [(r' & [= <-] & Hr') _]%Forall_cons. congruence.
    + rewrite IH. split.
      * intros ?. constructor; [by eexists|done].
      * by intros [_ ?]%Forall_cons.
  - split; [done|]. by intros [(r' & [=] & _) _]%Forall_cons.
Qed.

Lemma observed_CtxDone {R Msg : Type} (body : R -> option Msg)
    (sched : list (Event R)) :
  observed body sched = CtxDone <->
  exists pending rest,
    sched = pending ++ Done :: rest
    /\ Forall (fun e => exists r, e = Completes r /\ body r = None) pending.
Proof.
  split.
  - induction sched as [|[r|] sched IH]; simpl; [done| |].
    + destruct (body r) eqn:Hr; [done|]. intros Hs.
      destruct (IH Hs) as (pending & rest & -> & Hpending).
      exists (Completes r :: pending), rest. split; [done|].
      constructor; [by eexists|done].
    + intros _. by exists [], sched.
  - intros (pending & rest & -> & Hpending). by rewrite observed_skip.
Qed.

Lemma stillRunning_bootPoll_iff (inst : compute.Instance)
    (e : Event (result compute.Operation)) :
  stillRunning e <-> exists r, e = Completes r /\ bootPoll inst r = None.
Proof.
  split; [apply stillRunning_bootPoll|].
  intros (r & -> & Hr). destruct r as [op|]; [|done].
  exists op. split; [done|]. simpl in Hr.
  destruct (String.eqb_spec (compute.Status op) "DONE") as [|Hne]; [|done].
  by destruct (compute.Error op).
Qed.

Lemma Forall_stillRunning_bootPoll (inst : compute.Instance)
    (sched : list (Event (result compute.Operation))) :
  Forall stillRunning sched <->
  Forall (fun e => exists r, e = Completes r /\ bootPoll inst r = None) sched.
Proof.
  apply Forall_iff. intros e. apply stillRunning_bootPoll_iff.
Qed.

Lemma Forall_stillRunning_stopPoll
    (sched : list (Event (result compute.Operation))) :
  Forall stillRunning sched <->
  Forall (fun e => exists r, e = Completes r /\ stopPoll r = None) sched.
Proof.
  apply Forall_iff. intros e. apply stillRunning_stopPoll.
Qed.

(** X3. [Start] asks for the listing of each candidate language in order
    and stops at the first candidate whose lookup succeeds: the listings it
    requests are those of the candidates up to and including that one, and
    it requests no listing afterwards. *)
Theorem Start_lookups_stop_at_first (p : GCEProvider) (ctx : Context)
    (startAttributes : StartAttributes)
    (sched : list (Event (result compute.Operation))) (w : World)
    (tried : list string) (language : string) (rest : list string)
    (image : compute.Image) :
  candidateLangs p startAttributes = tried ++ language :: rest ->
  Forall (fun l => exists err, (imageForLanguage p l w).1 = Err err) tried ->
  (imageForLanguage p language w).1 = Ok (Some image) ->
  exists after,
    log (Start p ctx startAttributes sched w).2
    = log w ++ (listCall p <$> (tried ++ [language])) ++ after
    /\ Forall (fun c => ~ isImagesList c) after.
Proof.
  intros Hcands Htried Hfound.
  pose proof (Start_eq p ctx startAttributes sched w) as Heq. simpl in Heq.
  rewrite Heq. clear Heq. unfold selectedImage. rewrite Hcands.
  rewrite (tryLanguages_first p tried language rest _ w _ Htried Hfound).
  rewrite (lookupsOf_first p w tried language rest _ Htried Hfound).
  destruct (insert w _) as [op|err]; simpl;
    eexists; (split; [reflexivity|]).
  - constructor; [by apply not_isImagesList|].
    apply Forall_app. split.
    + apply Forall_replicate. by apply not_isImagesList.
    + unfold bootMetrics.
      destruct (observed _ sched) as [[?|?]| |];
        try destruct (isDeadlineExceeded _);
        repeat constructor; by apply not_isImagesList.
  - constructor; [by apply not_isImagesList|done].
Qed.

Lemma Start_lookups_stop_at_first_witness :
  exists after,
    log (Start rubyProvider {| ctx_Err := Canceled |} {| Language := "rb" |}
           [Done] (cloud [imageNamed "travis-ci-ruby-1"] ∅)).2
    = log (cloud [imageNamed "travis-ci-ruby-1"] ∅)
      ++ (listCall rubyProvider <$> (["rb"] ++ ["ruby"])) ++ after
    /\ Forall (fun c => ~ isImagesList c) after.
Proof.
  apply (Start_lookups_stop_at_first rubyProvider {| ctx_Err := Canceled |}
           {| Language := "rb" |} [Done]
           (cloud [imageNamed "travis-ci-ruby-1"] ∅)
           ["rb"] "ruby" ["minimal"] (imageNamed "travis-ci-ruby-1")).
  - reflexivity.
  - repeat constructor. eexists. vm_compute. reflexivity.
  - vm_compute. reflexivity.
Defined.

(** X4. When the lookup fails for every candidate language, [Start]
    returns the error of the last candidate, the default language,
    whatever the schedule; it has then requested the listing of every
    candidate and nothing else: no instance is created and nothing is
    polled. *)
Theorem Start_no_image (p : GCEProvider) (ctx : Context)
    (startAttributes : StartAttributes)
    (sched : list (Event (result compute.Operation))) (w : World) :
  Forall (fun l => exists err, (imageForLanguage p l w).1 = Err err)
    (candidateLangs p startAttributes) ->
  exists err,
    (imageForLanguage p (defaultLanguage p) w).1 = Err err
    /\ Start p ctx startAttributes sched w =
       (Returned (Err err),
        logged w (listCall p <$> candidateLangs p startAttributes)).
Proof.
  intros Hall.
  assert (exists tried, candidateLangs p startAttributes
                        = tried ++ [defaultLanguage p]) as [tried Hcands]
    by by eexists.
  pose proof Hall as Hall'. rewrite Hcands in Hall'.
  apply Forall_app in Hall' as [Htried [[err Herr] _]%Forall_cons].
  exists err. split; [done|].
  pose proof (Start_eq p ctx startAttributes sched w) as Heq. simpl in Heq.
  rewrite Heq. unfold selectedImage.
  rewrite (lookupsOf_all p w _ Hall), Hcands.
  by rewrite (tryLanguages_none p tried _ _ w err Htried Herr).
Qed.

Lemma Start_no_image_witness :
  exists err,
    (imageForLanguage scenarioProvider (defaultLanguage scenarioProvider)
       (cloud [] ∅)).1 = Err err
    /\ Start scenarioProvider {| ctx_Err := Canceled |} {| Language := "py" |} []
         (cloud [] ∅) =
       (Returned (Err err),
        logged (cloud [] ∅)
          (listCall scenarioProvider
             <$> candidateLangs scenarioProvider {| Language := "py" |})).
Proof.
  apply (Start_no_image scenarioProvider {| ctx_Err := Canceled |}
           {| Language := "py" |} [] (cloud [] ∅)).
  repeat constructor; eexists; vm_compute; reflexivity.
Defined.

Section boot.
Context (p : GCEProvider) (ctx : Context) (startAttributes : StartAttributes)
  (w : World) (image : compute.Image).

Let inst := newInstance p startAttributes image (uuid w).
Let project := p_projectID p.
Let zone := compute.Zone_Name (Zone (p_ic p)).

(** [Start] once an image is selected and the creation is accepted. *)
Lemma Start_booting (sched : list (Event (result compute.Operation)))
    (op : compute.Operation) :
  selectedImage p startAttributes w = Ok (Some image) ->
  insert w inst = Ok op ->
  Start p ctx startAttributes sched w =
  (started p ctx image (observed (bootPoll inst) sched),
   logged w (lookupsOf p (candidateLangs p startAttributes) w
             ++ InstancesInsert project zone inst
             :: replicate (polled (bootPoll inst) sched)
                  (ZoneOperationsGet project zone (compute.Op_Name op))
             ++ bootMetrics ctx (observed (bootPoll inst) sched))).
Proof.
  intros Hsel Hinsert.
  pose proof (Start_eq p ctx startAttributes sched w) as Heq. simpl in Heq.
  rewrite Heq, Hsel. fold inst. by rewrite Hinsert.
Qed.

End boot.

(** X5. When the polled operation is found DONE without an error before
    the context is done, [Start] returns an instance handle and no error.
    The handle holds the record that was sent in the creation request, not
    a record read back from the API: its user is travis, its image name is
    the name of the selected image, its identifier is
    [testing-gce-<uuid>:<image name>], and its record carries no NAT
    address. *)
Theorem Start_success (p : GCEProvider) (ctx : Context)
    (startAttributes : StartAttributes) (w : World) (image : compute.Image)
    (op last : compute.Operation)
    (pending rest : list (Event (result compute.Operation))) :
  selectedImage p startAttributes w = Ok (Some image) ->
  insert w (newInstance p startAttributes image (uuid w)) = Ok op ->
  Forall stillRunning pending ->
  compute.Status last = "DONE" -> compute.Error last = None ->
  exists h,
    (Start p ctx startAttributes (pending ++ Completes (Ok last) :: rest) w).1
    = Returned (Ok h)
    /\ instance h = newInstance p startAttributes image (uuid w)
    /\ authUser h = "travis"
    /\ imageName h = compute.Image_Name image
    /\ ID h = "testing-gce-" +:+ uuid w +:+ ":" +:+ compute.Image_Name image
    /\ getIP h = "".
Proof.
  intros Hsel Hinsert Hpending Hdone Herror.
  rewrite (Start_booting p ctx startAttributes w image _ op Hsel Hinsert).
  rewrite observed_skip by by apply Forall_stillRunning_bootPoll.
  simpl. rewrite Hdone, Herror. simpl. eexists. split; [reflexivity|].
  by repeat split.
Qed.

Lemma Start_success_witness :
  exists h,
    (Start scenarioProvider {| ctx_Err := Canceled |} {| Language := "py" |}
       ([Completes (Ok (operation "operation-insert" "RUNNING" None))]
        ++ Completes (Ok (operation "operation-insert" "DONE" None)) :: [])
       (cloud scenarioImages ∅)).1
    = Returned (Ok h)
    /\ instance h
       = newInstance scenarioProvider {| Language := "py" |}
           (imageNamed "travis-ci-python-2") "0"
    /\ authUser h = "travis"
    /\ imageName h = "travis-ci-python-2"
    /\ ID h = "testing-gce-" +:+ "0" +:+ ":" +:+ "travis-ci-python-2"
    /\ getIP h = "".
Proof.
  apply (Start_success scenarioProvider {| ctx_Err := Canceled |}
           {| Language := "py" |} (cloud scenarioImages ∅)
           (imageNamed "travis-ci-python-2")
           (operation "operation-insert" "PENDING" None)
           (operation "operation-insert" "DONE" None)
           [Completes (Ok (operation "operation-insert" "RUNNING" None))] []).
  - vm_compute. reflexivity.
  - reflexivity.
  - repeat constructor. eexists. split; [reflexivity|discriminate].
  - reflexivity.
  - reflexivity.
Defined.

(** X6. [Start] keeps failures of the operation apart from failures of the
    polling: when a poll itself fails before the operation is seen DONE,
    [Start] returns that error as it is; when the operation is seen DONE
    with an error, [Start] returns it wrapped as an operation error.  In
    both cases it returns no instance, it has polled once more than the
    polls that found the operation still running, and it reports no boot
    metric. *)
Theorem Start_poll_errors (p : GCEProvider) (ctx : Context)
    (startAttributes : StartAttributes) (w : World) (image : compute.Image)
    (op : compute.Operation)
    (pending rest : list (Event (result compute.Operation))) :
  selectedImage p startAttributes w = Ok (Some image) ->
  insert w (newInstance p startAttributes image (uuid w)) = Ok op ->
  Forall stillRunning pending ->
  let requests :=
    lookupsOf p (candidateLangs p startAttributes) w
    ++ InstancesInsert (p_projectID p) (compute.Zone_Name (Zone (p_ic p)))
         (newInstance p startAttributes image (uuid w))
    :: replicate (S (length pending))
         (ZoneOperationsGet (p_projectID p) (compute.Zone_Name (Zone (p_ic p)))
            (compute.Op_Name op)) in
  (forall err,
     Start p ctx startAttributes (pending ++ Completes (Err err) :: rest) w
     = (Returned (Err err), logged w requests))
  /\ (forall last oe,
        compute.Status last = "DONE" -> compute.Error last = Some oe ->
        Start p ctx startAttributes (pending ++ Completes (Ok last) :: rest) w
        = (Returned (Err (gceOpError oe)), logged w requests)).
Proof.
  intros Hsel Hinsert Hpending requests. unfold requests.
  apply Forall_stillRunning_bootPoll with (inst :=
    newInstance p startAttributes image (uuid w)) in Hpending.
  split.
  - intros err.
    rewrite (Start_booting p ctx startAttributes w image _ op Hsel Hinsert).
    rewrite observed_skip, polled_skip by done.
    simpl. by rewrite app_nil_r, Nat.add_1_r.
  - intros last oe Hdone Herror.
    rewrite (Start_booting p ctx startAttributes w image _ op Hsel Hinsert).
    rewrite observed_skip, polled_skip by done.
    simpl. rewrite Hdone, Herror. simpl. by rewrite app_nil_r, Nat.add_1_r.
Qed.

Lemma Start_poll_errors_witness :
  Start scenarioProvider {| ctx_Err := Canceled |} {| Language := "py" |}
    ([] ++ Completes (Ok (operation "operation-insert" "DONE" (Some failedDelete)))
        :: [Done])
    (cloud scenarioImages ∅)
  = (Returned (Err (gceOpError failedDelete)),
     logged (cloud scenarioImages ∅)
       (lookupsOf scenarioProvider
          (candidateLangs scenarioProvider {| Language := "py" |})
          (cloud scenarioImages ∅)
        ++ InstancesInsert "travis" "us-central1-a"
             (newInstance scenarioProvider {| Language := "py" |}
                (imageNamed "travis-ci-python-2") "0")
        :: replicate 1
             (ZoneOperationsGet "travis" "us-central1-a" "operation-insert"))).
Proof.
  refine (proj2 (Start_poll_errors scenarioProvider {| ctx_Err := Canceled |}
            {| Language := "py" |} (cloud scenarioImages ∅)
            (imageNamed "travis-ci-python-2")
            (operation "operation-insert" "PENDING" None) [] [Done] _ _ _)
            (operation "operation-insert" "DONE" (Some failedDelete))
            failedDelete _ _).
  - vm_compute. reflexivity.
  - reflexivity.
  - constructor.
  - reflexivity.
  - reflexivity.
Defined.

(** X7. When the creation request is refused, [Start] returns that error
    at once, whatever the schedule: after the listings it has made the
    creation request and nothing else, so that no operation is polled. *)
Theorem Start_insert_refused (p : GCEProvider) (ctx : Context)
    (startAttributes : StartAttributes)
    (sched : list (Event (result compute.Operation))) (w : World)
    (image : compute.Image) (err : error) :
  selectedImage p startAttributes w = Ok (Some image) ->
  insert w (newInstance p startAttributes image (uuid w)) = Err err ->
  Start p ctx startAttributes sched w =
  (Returned (Err err),
   logged w (lookupsOf p (candidateLangs p startAttributes) w
             ++ [InstancesInsert (p_projectID p)
                   (compute.Zone_Name (Zone (p_ic p)))
                   (newInstance p startAttributes image (uuid w))])).
Proof.
  intros Hsel Hinsert.
  pose proof (Start_eq p ctx startAttributes sched w) as Heq. simpl in Heq.
  by rewrite Heq, Hsel, Hinsert.
Qed.

(** X8. Once the creation is accepted, [Start] fails to return exactly
    when every event of the schedule is a poll that finds the operation
    still running: it has no time limit of its own, and returns as soon as
    a poll fails, the operation is DONE, or the context is done. *)
Theorem Start_blocks_iff (p : GCEProvider) (ctx : Context)
    (startAttributes : StartAttributes)
    (sched : list (Event (result compute.Operation))) (w : World)
    (image : compute.Image) (op : compute.Operation) :
  selectedImage p startAttributes w = Ok (Some image) ->
  insert w (newInstance p startAttributes image (uuid w)) = Ok op ->
  ((Start p ctx startAttributes sched w).1 = Blocked
   <-> Forall stillRunning sched).
Proof.
  intros Hsel Hinsert.
  rewrite (Start_booting p ctx startAttributes w image _ op Hsel Hinsert).
  rewrite (Forall_stillRunning_bootPoll
             (newInstance p startAttributes image (uuid w))).
  rewrite <- observed_Waits. simpl.
  by destruct (observed _ sched) as [[?|?]| |].
Qed.

(** X9. Once the creation is accepted, [Start] marks the metric
    [worker.vm.provider.gce.boot.timeout] exactly when it returns because
    the context is done while the operation is still running and the error
    of the context is [DeadlineExceeded]; a cancelled context marks
    nothing. *)
Theorem Start_timeout_metric (p : GCEProvider) (ctx : Context)
    (startAttributes : StartAttributes)
    (sched : list (Event (result compute.Operation))) (w : World)
    (image : compute.Image) (op : compute.Operation) (calls : list Call) :
  selectedImage p startAttributes w = Ok (Some image) ->
  insert w (newInstance p startAttributes image (uuid w)) = Ok op ->
  log (Start p ctx startAttributes sched w).2 = log w ++ calls ->
  (MetricsMark "worker.vm.provider.gce.boot.timeout" ∈ calls
   <-> ctx_Err ctx = DeadlineExceeded
       /\ exists pending rest,
            sched = pending ++ Done :: rest /\ Forall stillRunning pending).
Proof.
  intros Hsel Hinsert Hlog.
  rewrite (Start_booting p ctx startAttributes w image _ op Hsel Hinsert) in Hlog.
  simpl in Hlog. apply app_inv_head in Hlog. subst calls.
  assert ((exists pending rest,
             sched = pending ++ Done :: rest /\ Forall stillRunning pending)
          <-> observed (bootPoll (newInstance p startAttributes image (uuid w)))
                sched = CtxDone) as ->.
  { rewrite observed_CtxDone. split; intros (pending & rest & -> & Hpending);
      exists pending, rest; (split; [done|]);
      by apply (Forall_stillRunning_bootPoll
                  (newInstance p startAttributes image (uuid w))). }
  assert (forall c, c ∈ lookupsOf p (candidateLangs p startAttributes) w ->
                    isImagesList c) as Hlookups.
  { intros c Hc.
    destruct (tryLanguages_world p (candidateLangs p startAttributes)
                (Ok None) w) as (lookups & Hw & Hcalls).
    rewrite tryLanguages_requests in Hw.
    apply (f_equal log) in Hw. rewrite !log_logged in Hw.
    apply app_inv_head in Hw. subst lookups.
    rewrite Forall_forall in Hcalls.
    destruct (Hcalls c Hc) as [filter ->]. by eexists _, _. }
  rewrite elem_of_app, elem_of_cons, elem_of_app. split.
  - intros [Hc|[[=]|[Hc|Hc]]].
    + by destruct (Hlookups _ Hc) as (? & ? & ?).
    + by apply elem_of_replicate in Hc as [[=] _].
    + unfold bootMetrics in Hc.
      destruct (observed _ sched) as [[?|?]| |];
        try (by apply elem_of_nil in Hc);
        try (by apply list_elem_of_singleton in Hc).
      destruct (ctx_Err ctx); simpl in Hc;
        try (by apply elem_of_nil in Hc); done.
  - intros [Hctx ->]. right. right. right. simpl. rewrite Hctx. simpl.
    by apply list_elem_of_singleton.
Qed.

Lemma Start_timeout_metric_witness :
  MetricsMark "worker.vm.provider.gce.boot.timeout"
    ∈ [ ImagesList "travis" "name eq ^travis-ci-py.+";
        InstancesInsert "travis" "us-central1-a"
          (newInstance scenarioProvider {| Language := "py" |}
             (imageNamed "travis-ci-python-2") "0");
        MetricsMark "worker.vm.provider.gce.boot.timeout" ]
  <-> DeadlineExceeded = DeadlineExceeded
      /\ exists pending rest,
           [Done] = pending ++ Done :: rest /\ Forall stillRunning pending.
Proof.
  apply (Start_timeout_metric scenarioProvider {| ctx_Err := DeadlineExceeded |}
           {| Language := "py" |} [Done] (cloud scenarioImages ∅)
           (imageNamed "travis-ci-python-2")
           (operation "operation-insert" "PENDING" None)).
  - vm_compute. reflexivity.
  - reflexivity.
  - vm_compute. reflexivity.
Defined.

Lemma Start_insert_refused_witness :
  Start scenarioProvider {| ctx_Err := Canceled |} {| Language := "py" |} []
    fullCloud
  = (Returned (Err (Foreign "quota exceeded")),
     logged fullCloud
       (lookupsOf scenarioProvider
          (candidateLangs scenarioProvider {| Language := "py" |}) fullCloud
        ++ [InstancesInsert "travis" "us-central1-a"
              (newInstance scenarioProvider {| Language := "py" |}
                 (imageNamed "travis-ci-python-2") "0")])).
Proof.
  apply (Start_insert_refused scenarioProvider {| ctx_Err := Canceled |}
           {| Language := "py" |} [] fullCloud (imageNamed "travis-ci-python-2")).
  - vm_compute. reflexivity.
  - reflexivity.
Defined.

Lemma Start_blocks_iff_witness :
  (Start scenarioProvider {| ctx_Err := Canceled |} {| Language := "py" |}
     [Completes (Ok (operation "operation-insert" "RUNNING" None))]
     (cloud scenarioImages ∅)).1 = Blocked
  <-> Forall stillRunning
        [Completes (Ok (operation "operation-insert" "RUNNING" None))].
Proof.
  apply (Start_blocks_iff scenarioProvider {| ctx_Err := Canceled |}
           {| Language := "py" |} _ (cloud scenarioImages ∅)
           (imageNamed "travis-ci-python-2")
           (operation "operation-insert" "PENDING" None)).
  - vm_compute. reflexivity.
  - reflexivity.
Defined.

(** ** More on [Stop] *)

(** X10. When the delete request is refused, [Stop] returns that error at
    once, whatever the schedule, and has polled nothing.  When the request
    is accepted and a poll fails while the operation is still running,
    [Stop] returns the error of that poll as it is, having polled once more
    than the polls that found the operation running. *)
Theorem Stop_transport_errors (i : GCEInstance) (ctx : Context) (w : World) :
  let request :=
    InstancesDelete (projectID i) (compute.Zone_Name (Zone (ic i)))
      (compute.Name (instance i)) in
  (forall sched err,
     delete w = Err err ->
     Stop i ctx sched w = (Returned (Some err), logged w [request]))
  /\ (forall op pending rest err,
        delete w = Ok op -> Forall stillRunning pending ->
        Stop i ctx (pending ++ Completes (Err err) :: rest) w
        = (Returned (Some err),
           logged w (request
                     :: replicate (S (length pending))
                          (ZoneOperationsGet (projectID i)
                             (compute.Zone_Name (Zone (ic i)))
                             (compute.Op_Name op))))).
Proof.
  intros request. split.
  - intros sched err Hdelete.
    pose proof (Stop_eq i ctx sched w) as Heq. simpl in Heq.
    by rewrite Heq, Hdelete.
  - intros op pending rest err Hdelete Hpending.
    apply Forall_stillRunning_stopPoll in Hpending.
    pose proof (Stop_eq i ctx (pending ++ Completes (Err err) :: rest) w) as Heq.
    simpl in Heq. rewrite Heq, Hdelete.
    rewrite observed_skip, polled_skip by done. simpl.
    by rewrite Nat.add_1_r.
Qed.

Lemma Stop_transport_errors_witness :
  Stop pythonVM {| ctx_Err := Canceled |} [] goneCloud
  = (Returned (Some (Foreign "not found")),
     logged goneCloud
       [InstancesDelete (projectID pythonVM)
          (compute.Zone_Name (Zone (ic pythonVM)))
          (compute.Name (instance pythonVM))]).
Proof.
  apply (proj1 (Stop_transport_errors pythonVM {| ctx_Err := Canceled |}
                  goneCloud) [] (Foreign "not found")).
  reflexivity.
Defined.

(** X11. Once the delete request is accepted, [Stop] fails to return
    exactly when every event of the schedule is a poll that finds the
    operation still running: without a deadline on the context, a delete
    that never completes holds [Stop] for ever. *)
Theorem Stop_blocks_iff (i : GCEInstance) (ctx : Context)
    (sched : list (Event (result compute.Operation))) (w : World)
    (op : compute.Operation) :
  delete w = Ok op ->
  ((Stop i ctx sched w).1 = Blocked <-> Forall stillRunning sched).
Proof.
  intros Hdelete.
  pose proof (Stop_eq i ctx sched w) as Heq. simpl in Heq.
  rewrite Heq, Hdelete. simpl.
  rewrite Forall_stillRunning_stopPoll, <- observed_Waits.
  by destruct (observed stopPoll sched).
Qed.

Lemma Stop_blocks_iff_witness :
  (Stop pythonVM {| ctx_Err := Canceled |}
     [Completes (Ok (operation "operation-delete" "RUNNING" None))]
     (cloud [] ∅)).1 = Blocked
  <-> Forall stillRunning
        [Completes (Ok (operation "operation-delete" "RUNNING" None))].
Proof.
  apply (Stop_blocks_iff pythonVM {| ctx_Err := Canceled |} _ (cloud [] ∅)
           (operation "operation-delete" "PENDING" None)).
  reflexivity.
Defined.

(** ** More on the address and the connection *)

Lemma firstNatIP_first (acs : list compute.AccessConfig) (ip : string) :
  firstNatIP acs = Some ip ->
  exists acs1 ac acs2,
    acs = acs1 ++ ac :: acs2 /\ compute.NatIP ac = ip /\ ip <> ""
    /\ Forall (fun ac' => compute.NatIP ac' = "") acs1.
Proof.
  induction acs as [|ac acs IH]; simpl; [done|].
  destruct (String.eqb_spec (compute.NatIP ac) "") as [Hip|Hip]; simpl.
  - intros Hfirst. destruct (IH Hfirst) as (acs1 & ac' & acs2 & -> & ? & ? & ?).
    exists (ac :: acs1), ac', acs2. repeat split; try done. by constructor.
  - intros [= <-]. by exists [], ac, acs.
Qed.

(** X12. When [getIP] answers a non-empty address, it is the NAT address
    of an access configuration of the record, the first non-empty one in
    the order of the interfaces and of their access configurations: every
    access configuration before it has an empty NAT address. *)
Theorem getIP_first_address (i : GCEInstance) :
  getIP i <> "" ->
  exists nis1 ni nis2 acs1 ac acs2,
    compute.NetworkInterfaces (instance i) = nis1 ++ ni :: nis2
    /\ compute.AccessConfigs ni = acs1 ++ ac :: acs2
    /\ compute.NatIP ac = getIP i
    /\ Forall (fun ni' =>
                 Forall (fun ac' => compute.NatIP ac' = "")
                   (compute.AccessConfigs ni')) nis1
    /\ Forall (fun ac' => compute.NatIP ac' = "") acs1.
Proof.
  unfold getIP. induction (compute.NetworkInterfaces (instance i)) as [|ni nis IH];
    simpl; [done|].
  destruct (firstNatIP (compute.AccessConfigs ni)) as [ip|] eqn:Hfirst.
  - intros _.
    destruct (firstNatIP_first _ _ Hfirst) as (acs1 & ac & acs2 & ? & ? & ? & ?).
    by exists [], ni, nis, acs1, ac, acs2.
  - intros Hip.
    destruct (IH Hip) as (nis1 & ni' & nis2 & acs1 & ac & acs2 & -> & ? & ? & ? & ?).
    exists (ni :: nis1), ni', nis2, acs1, ac, acs2. repeat split; try done.
    constructor; [|done]. apply Forall_forall. by apply firstNatIP_None.
Qed.

Lemma getIP_first_address_witness :
  exists nis1 ni nis2 acs1 ac acs2,
    compute.NetworkInterfaces (instance (refreshed pythonVM (cloud [] ∅)))
    = nis1 ++ ni :: nis2
    /\ compute.AccessConfigs ni = acs1 ++ ac :: acs2
    /\ compute.NatIP ac = getIP (refreshed pythonVM (cloud [] ∅))
    /\ Forall (fun ni' =>
                 Forall (fun ac' => compute.NatIP ac' = "")
                   (compute.AccessConfigs ni')) nis1
    /\ Forall (fun ac' => compute.NatIP ac' = "") acs1.
Proof.
  apply (getIP_first_address (refreshed pythonVM (cloud [] ∅))).
  vm_compute. discriminate.
Defined.

Lemma observed_bootPoll_ready (inst inst' : compute.Instance)
    (sched : list (Event (result compute.Operation))) :
  observed (bootPoll inst) sched = Receives (instanceReady inst') -> inst' = inst.
Proof.
  induction sched as [|[r|] sched IH]; simpl; [done| |done].
  destruct r as [op|err]; simpl; [|done].
  destruct (String.eqb (compute.Status op) "DONE"); [|done].
  destruct (compute.Error op); [done|]. by intros [= ->].
Qed.

(** The handle of a successful [Start] holds the record of the request. *)
Lemma Start_handle_record (p : GCEProvider) (ctx : Context)
    (startAttributes : StartAttributes)
    (sched : list (Event (result compute.Operation))) (w : World)
    (h : GCEInstance) :
  (Start p ctx startAttributes sched w).1 = Returned (Ok h) ->
  exists image,
    instance h = newInstance p startAttributes image (uuid w)
    /\ authUser h = "travis" /\ ic h = p_ic p.
Proof.
  pose proof (Start_eq p ctx startAttributes sched w) as Heq. simpl in Heq.
  rewrite Heq. clear Heq.
  destruct (selectedImage p startAttributes w) as [[image|]|err]; [|done..].
  destruct (insert w _) as [op|err]; [|done]. simpl.
  destruct (observed _ sched) as [[inst'|err]| |] eqn:Hobs; try done.
  apply observed_bootPoll_ready in Hobs as ->. simpl.
  intros [= <-]. by exists image.
Qed.

(** X13. A handle that [Start] has just returned cannot be connected to
    unless the record of the VM can be read: in any world in which
    [Instances.Get] fails, [sshClient] on that handle fails with
    [gceMissingIPAddressError] without dialling, and so do an upload
    attempt and [RunScript]; the error of [Instances.Get] itself is
    reported nowhere. *)
Theorem fresh_handle_needs_refresh (p : GCEProvider) (ctx : Context)
    (startAttributes : StartAttributes)
    (sched : list (Event (result compute.Operation))) (w0 w : World)
    (h : GCEInstance) (err : error) (script : bytes) :
  (Start p ctx startAttributes sched w0).1 = Returned (Ok h) ->
  instancesGet w = Err err ->
  sshClient h w = ((h, Err gceMissingIPAddressError), logged w [refreshCall h])
  /\ uploadScriptAttempt h ctx script w
     = ((h, Some gceMissingIPAddressError), logged w [refreshCall h])
  /\ RunScript h ctx w
     = ((h, ({| Completed := false; ExitCode := 0 |},
             Some gceMissingIPAddressError)),
        logged w [refreshCall h]).
Proof.
  intros Hstart Hget.
  destruct (Start_handle_record p ctx startAttributes sched w0 h Hstart)
    as (image & Hrecord & _).
  assert (refreshed h w = h) as Hr by by rewrite refreshed_eq, Hget.
  assert (getIP h = "") as Hip by (unfold getIP; by rewrite Hrecord).
  rewrite uploadScriptAttempt_eq, RunScript_eq, sshClient_eq. simpl.
  by rewrite Hr, Hip.
Qed.

Lemma fresh_handle_needs_refresh_witness :
  sshClient pyHandle blindCloud
  = ((pyHandle, Err gceMissingIPAddressError),
     logged blindCloud [refreshCall pyHandle])
  /\ uploadScriptAttempt pyHandle {| ctx_Err := Canceled |} [] blindCloud
     = ((pyHandle, Some gceMissingIPAddressError),
        logged blindCloud [refreshCall pyHandle])
  /\ RunScript pyHandle {| ctx_Err := Canceled |} blindCloud
     = ((pyHandle, ({| Completed := false; ExitCode := 0 |},
                    Some gceMissingIPAddressError)),
        logged blindCloud [refreshCall pyHandle]).
Proof.
  apply (fresh_handle_needs_refresh scenarioProvider {| ctx_Err := Canceled |}
           {| Language := "py" |}
           [Completes (Ok (operation "operation-insert" "DONE" None))]
           (cloud scenarioImages ∅) blindCloud pyHandle
           (Foreign "backend error") []).
  - vm_compute. reflexivity.
  - reflexivity.
Defined.

(** ** More on uploading and running the script *)

Section transfer.
Context (i : GCEInstance) (ctx : Context) (script : bytes) (w : World).

Let target := sftpPath (home w) "build.sh".

(** X14. An upload attempt changes no file of the VM but [build.sh] in the
    home directory, and leaves the home directory and the answers of the
    VM as they were.  When it returns nil, [build.sh] holds exactly the
    script; when it finds the file present, it changes no file at all. *)
Theorem uploadScriptAttempt_frame :
  let out := uploadScriptAttempt i ctx script w in
  (forall path, path <> target -> files out.2 !! path = files w !! path)
  /\ home out.2 = home w /\ plane out.2 = plane w
  /\ (out.1.2 = None -> files out.2 = <[target := script]> (files w))
  /\ (lstatFault (plane w) = None -> is_Some (files w !! target) ->
      files out.2 = files w).
Proof.
  intros out. unfold out, target. rewrite uploadScriptAttempt_eq. simpl.
  destruct (String.eqb (getIP (refreshed i w)) ""); [done|].
  destruct (dial (plane w)); [done|].
  destruct (sftpNew (plane w)); [done|].
  destruct (lstatFault (plane w)) eqn:Hlstat;
    [|destruct (files w !! sftpPath (home w) "build.sh") eqn:Hfile];
    [| by repeat split |];
    (destruct (create (plane w)); [by repeat split; try by intros _ []|]);
    destruct (write (plane w)); simpl; autorewrite with world;
    (split; [intros path Hpath; by rewrite lookup_insert_ne|]);
    repeat split; try done; try by intros _ []; try by intros ? [].
Qed.

End transfer.

Lemma uploadScriptAttempt_frame_witness :
  files (uploadScriptAttempt pythonVM {| ctx_Err := Canceled |} [x68; x69]
           (cloud [] {["/home/travis/.bashrc" := [x23]]})).2
  = <["/home/travis/build.sh" := [x68; x69]]>
      ({["/home/travis/.bashrc" := [x23]]} : gmap string bytes).
Proof.
  refine (proj1 (proj2 (proj2 (proj2
            (uploadScriptAttempt_frame pythonVM {| ctx_Err := Canceled |}
               [x68; x69] (cloud [] {["/home/travis/.bashrc" := [x23]]})))))
            _).
  reflexivity.
Defined.

(** X15. An [Lstat] that fails for whatever reason is taken for a missing
    file: on a connected VM whose [Lstat] fails while creating and writing
    succeed, the upload attempt returns nil and replaces [build.sh] by the
    script even when the file was there, so that the stale VM goes
    unnoticed. *)
Theorem uploadScriptAttempt_lstat_failure (i : GCEInstance) (ctx : Context)
    (script : bytes) (w : World) (err : error) :
  connected i w -> sftpNew (plane w) = None ->
  lstatFault (plane w) = Some err ->
  create (plane w) = None -> write (plane w) = None ->
  (uploadScriptAttempt i ctx script w).1.2 = None
  /\ files (uploadScriptAttempt i ctx script w).2
     = <[sftpPath (home w) "build.sh" := script]> (files w)
  /\ SftpCreate "build.sh" ∈ log (uploadScriptAttempt i ctx script w).2.
Proof.
  intros [Hip Hdial] Hsftp Hlstat Hcreate Hwrite.
  rewrite uploadScriptAttempt_eq. simpl. apply String.eqb_neq in Hip.
  rewrite Hip, Hdial, Hsftp, Hlstat, Hcreate, Hwrite. simpl.
  split; [done|]. split; [done|].
  rewrite !elem_of_app, !elem_of_cons. auto 10.
Qed.

Lemma uploadScriptAttempt_lstat_failure_witness :
  (uploadScriptAttempt pythonVM {| ctx_Err := Canceled |} [x68; x69]
     (set_plane lstatDenied staleCloud)).1.2 = None
  /\ files (uploadScriptAttempt pythonVM {| ctx_Err := Canceled |} [x68; x69]
              (set_plane lstatDenied staleCloud)).2
     = <[sftpPath (home (set_plane lstatDenied staleCloud)) "build.sh"
         := [x68; x69]]> (files (set_plane lstatDenied staleCloud))
  /\ SftpCreate "build.sh"
     ∈ log (uploadScriptAttempt pythonVM {| ctx_Err := Canceled |} [x68; x69]
              (set_plane lstatDenied staleCloud)).2.
Proof.
  apply (uploadScriptAttempt_lstat_failure pythonVM {| ctx_Err := Canceled |}
           [x68; x69] (set_plane lstatDenied staleCloud)
           (Foreign "permission denied")).
  - split; [vm_compute; discriminate|reflexivity].
  - reflexivity.
  - reflexivity.
  - reflexivity.
  - reflexivity.
Defined.

Lemma instancesGet_set_files (w : World) (f : gmap string bytes) :
  instancesGet (set_files f w) = instancesGet w.
Proof. done. Qed.

#[global] Hint Rewrite instancesGet_set_files : world.

Section retries.
Context (ctx : Context) (script : bytes).

(** An attempt that cannot connect changes nothing on the VM. *)
Lemma uploadScriptAttempt_refused (i : GCEInstance) (w : World) (d : DataPlane)
    (err : error) :
  getIP (refreshed i w) <> "" -> dial d = Some err ->
  uploadScriptAttempt i ctx script (set_plane d w) =
  ((refreshed i w, Some err),
   logged (set_plane d w) [refreshCall i; dialCall i w]).
Proof.
  intros Hip Hdial. rewrite uploadScriptAttempt_eq.
  assert (refreshed i (set_plane d w) = refreshed i w) as Hr
    by by rewrite !refreshed_eq.
  unfold dialCall. rewrite Hr. simpl. autorewrite with world.
  apply String.eqb_neq in Hip. by rewrite Hip, Hdial.
Qed.

Lemma getIP_refreshed_again (i : GCEInstance) (w w' : World) :
  instancesGet w' = instancesGet w ->
  getIP (refreshed (refreshed i w) w') = getIP (refreshed i w).
Proof.
  intros Hget. rewrite !refreshed_eq, Hget. by destruct (instancesGet w).
Qed.

(** Attempts that cannot connect leave the loop running on the same VM. *)
Lemma uploadLoop_refused (ds : list DataPlane) (tail : list (Event DataPlane))
    (i : GCEInstance) (w : World) (uploadErr : option error) :
  getIP (refreshed i w) <> "" ->
  Forall (fun d => is_Some (dial d)) ds ->
  exists i' w' uploadErr',
    uploadLoop i ctx script uploadErr ((Completes <$> ds) ++ tail) w
    = uploadLoop i' ctx script uploadErr' tail w'
    /\ getIP (refreshed i' w') = getIP (refreshed i w)
    /\ files w' = files w /\ home w' = home w
    /\ (ds = [] -> uploadErr' = uploadErr)
    /\ (ds <> [] -> exists d, last ds = Some d /\ uploadErr' = dial d).
Proof.
  intros Hip Hds. revert i w uploadErr Hip.
  induction Hds as [|d ds [err Hd] _ IH]; intros i w uploadErr Hip.
  - exists i, w, uploadErr. by repeat split.
  - cbn [fmap list_fmap app uploadLoop]. unfold mbind, M_bind, act.
    rewrite (uploadScriptAttempt_refused i w d err Hip Hd).
    set (w1 := logged (set_plane d w) _).
    destruct (IH (refreshed i w) w1 (Some err)) as
      (i' & w' & uploadErr' & -> & Hip' & Hfiles & Hhome & Hnil & Hlast).
    { by rewrite getIP_refreshed_again. }
    exists i', w', uploadErr'. split; [done|].
    rewrite Hip', getIP_refreshed_again by done.
    repeat split; try done.
    intros _. destruct ds as [|d' ds'].
    + exists d. split; [done|]. rewrite Hnil by done. by rewrite Hd.
    + destruct Hlast as (dl & Hdl & ->); [done|]. by exists dl.
Qed.

(** X16. [UploadScript] retries until an attempt succeeds: on a VM that has
    an address and no [build.sh] yet, after any number of attempts that
    could not connect, the first attempt on the healthy VM makes
    [UploadScript] return nil, with the script stored in [build.sh],
    whatever the schedule holds afterwards. *)
Theorem UploadScript_retries_until_success (i : GCEInstance) (w : World)
    (ds : list DataPlane) (rest : list (Event DataPlane)) :
  getIP (refreshed i w) <> "" ->
  files w !! sftpPath (home w) "build.sh" = None ->
  Forall (fun d => is_Some (dial d)) ds ->
  let out :=
    UploadScript i ctx script ((Completes <$> ds) ++ Completes healthy :: rest) w in
  out.1.2 = Returned None
  /\ files out.2 = <[sftpPath (home w) "build.sh" := script]> (files w).
Proof.
  intros Hip Hfile Hds out. unfold out, UploadScript.
  destruct (uploadLoop_refused ds (Completes healthy :: rest) i w None Hip Hds)
    as (i' & w' & uploadErr' & -> & Hip' & Hfiles & Hhome & _).
  cbn [uploadLoop]. unfold mbind, M_bind, act.
  rewrite uploadScriptAttempt_eq. simpl. autorewrite with world.
  assert (refreshed i' (set_plane healthy w') = refreshed i' w') as Hr
    by by rewrite !refreshed_eq.
  rewrite Hr. rewrite <- Hip' in Hip. apply String.eqb_neq in Hip.
  rewrite Hip. simpl. rewrite Hhome, Hfiles, Hfile. simpl.
  by autorewrite with world.
Qed.

(** X17. A failed write spoils the VM for every later attempt: on a VM
    that has an address and no [build.sh], an attempt whose [Create]
    succeeds and whose [Write] fails leaves an empty [build.sh] behind, so
    that later attempts on the healthy VM find it and fail with
    [ErrStaleVM]; [UploadScript] then never returns nil, and once the
    context is done it returns [ErrStaleVM] for a VM that only this job
    has touched. *)
Theorem UploadScript_failed_write_spoils (i : GCEInstance) (w : World)
    (d : DataPlane) (err : error) (n : nat) :
  getIP (refreshed i w) <> "" ->
  files w !! sftpPath (home w) "build.sh" = None ->
  dial d = None -> sftpNew d = None -> lstatFault d = None ->
  create d = None -> write d = Some err ->
  files (uploadScriptAttempt i ctx script (set_plane d w)).2
    !! sftpPath (home w) "build.sh" = Some []
  /\ (UploadScript i ctx script
        (Completes d :: replicate n (Completes healthy)) w).1.2 = Blocked
  /\ (UploadScript i ctx script
        (Completes d :: replicate (S n) (Completes healthy) ++ [Done]) w).1.2
     = Returned (Some ErrStaleVM).
Proof.
  intros Hip Hfile Hdial Hsftp Hlstat Hcreate Hwrite.
  assert (refreshed i (set_plane d w) = refreshed i w) as Hr
    by by rewrite !refreshed_eq.
  pose proof (uploadScriptAttempt_eq i ctx script (set_plane d w)) as Heq.
  simpl in Heq. autorewrite with world in Heq. rewrite Hr in Heq.
  pose proof Hip as Hip'. apply String.eqb_neq in Hip'.
  rewrite Hip', Hdial, Hsftp, Hlstat, Hfile, Hcreate, Hwrite in Heq.
  split; [rewrite Heq; simpl; autorewrite with world; apply lookup_insert_eq|].
  unfold UploadScript. cbn [uploadLoop app]. unfold mbind, M_bind, act.
  rewrite Heq. set (w1 := set_files _ _).
  assert (staleVM (refreshed i w) w1) as Hstale.
  { split.
    - rewrite getIP_refreshed_again; [done|].
      unfold w1. by autorewrite with world.
    - unfold w1. autorewrite with world. rewrite lookup_insert_eq.
      by eexists. }
  split.
  - destruct (uploadLoop_stale ctx script n [] _ w1 (Some err) Hstale)
      as (i' & w' & Hloop).
    rewrite app_nil_r in Hloop. by rewrite Hloop.
  - change (replicate (S n) (Completes healthy) ++ [Done])
      with (replicate (S n) (Completes healthy : Event DataPlane) ++ [Done]).
    by destruct (uploadLoop_stale ctx script (S n) [Done] _ w1 (Some err)
                   Hstale) as (i' & w' & ->).
Qed.

End retries.

Lemma UploadScript_retries_until_success_witness :
  (UploadScript pythonVM {| ctx_Err := Canceled |} [x68; x69]
     ((Completes <$> [booting; booting]) ++ Completes healthy :: [])
     (cloud [] ∅)).1.2 = Returned None
  /\ files (UploadScript pythonVM {| ctx_Err := Canceled |} [x68; x69]
              ((Completes <$> [booting; booting]) ++ Completes healthy :: [])
              (cloud [] ∅)).2
     = <[sftpPath (home (cloud [] ∅)) "build.sh" := [x68; x69]]>
         (files (cloud [] ∅)).
Proof.
  apply (UploadScript_retries_until_success {| ctx_Err := Canceled |} [x68; x69]
           pythonVM (cloud [] ∅) [booting; booting] []).
  - vm_compute. discriminate.
  - reflexivity.
  - repeat constructor; by eexists.
Defined.

Lemma UploadScript_failed_write_spoils_witness :
  files (uploadScriptAttempt pythonVM {| ctx_Err := Canceled |} [x68; x69]
           (set_plane diskFull (cloud [] ∅))).2
    !! sftpPath (home (cloud [] ∅)) "build.sh" = Some []
  /\ (UploadScript pythonVM {| ctx_Err := Canceled |} [x68; x69]
        (Completes diskFull :: replicate 2 (Completes healthy))
        (cloud [] ∅)).1.2 = Blocked
  /\ (UploadScript pythonVM {| ctx_Err := Canceled |} [x68; x69]
        (Completes diskFull :: replicate 3 (Completes healthy) ++ [Done])
        (cloud [] ∅)).1.2
     = Returned (Some ErrStaleVM).
Proof.
  apply (UploadScript_failed_write_spoils {| ctx_Err := Canceled |} [x68; x69]
           pythonVM (cloud [] ∅) diskFull (Foreign "no space left on device") 2).
  - vm_compute. discriminate.
  - reflexivity.
  - reflexivity.
  - reflexivity.
  - reflexivity.
  - reflexivity.
  - reflexivity.
Defined.

(** X18. [RunScript] keeps only the low eight bits of the exit status that
    the SSH library reports: for every status it answers completed, with
    no error and an exit code between 0 and 255 that is the status modulo
    256.  Statuses that agree modulo 256 give the same result, so that a
    status that is a non-zero multiple of 256 is reported like a
    success. *)
Theorem RunScript_exit_status_truncated (i : GCEInstance) (ctx : Context)
    (w : World) (status : Z) :
  sessionReady i w -> run (plane w) = Some (ExitError status) ->
  (RunScript i ctx w).1.2
  = ({| Completed := true; ExitCode := (status mod 256)%Z |}, None)
  /\ (0 <= ExitCode (RunScript i ctx w).1.2.1 < 256)%Z
  /\ ((status mod 256 = 0)%Z ->
      (RunScript i ctx w).1.2 = runOutcome None).
Proof.
  intros Hready Hrun. rewrite (sessionReady_RunScript i ctx w Hready), Hrun.
  simpl. unfold uint8. split; [done|]. split.
  - by apply Z.mod_pos_bound.
  - by intros ->.
Qed.

Lemma RunScript_exit_status_truncated_witness :
  (RunScript pythonVM {| ctx_Err := Canceled |}
     (set_plane (running (Some (ExitError 256))) (cloud [] ∅))).1.2
  = ({| Completed := true; ExitCode := (256 mod 256)%Z |}, None)
  /\ (0 <= ExitCode (RunScript pythonVM {| ctx_Err := Canceled |}
                       (set_plane (running (Some (ExitError 256)))
                          (cloud [] ∅))).1.2.1 < 256)%Z
  /\ ((256 mod 256 = 0)%Z ->
      (RunScript pythonVM {| ctx_Err := Canceled |}
         (set_plane (running (Some (ExitError 256))) (cloud [] ∅))).1.2
      = runOutcome None).
Proof.
  apply (RunScript_exit_status_truncated pythonVM {| ctx_Err := Canceled |}
           (set_plane (running (Some (ExitError 256))) (cloud [] ∅)) 256).
  - repeat split; try reflexivity. vm_compute. discriminate.
  - reflexivity.
Defined.

(** ** What is opened is closed *)

Ltac no_member :=
  let H := fresh in
  intros H; unfold refreshCall, dialCall in H;
  repeat (apply elem_of_cons in H as [H|H]; [discriminate H|]);
  by apply elem_of_nil in H.

Ltac all_but_last_two :=
  match goal with
  | |- exists pre, ?l = pre ++ _ /\ _ =>
      exists (take (length l - 2) l); simpl; split; [reflexivity|]
  end.

Section closing.
Context (i : GCEInstance) (ctx : Context) (w : World).

(** X19. An upload attempt closes what it has opened, in reverse order and
    on every path.  When the SSH connection and the SFTP client were made,
    its last two requests close the SFTP client and then the connection,
    and nothing is closed before; when only the connection was made, it is
    closed at once; when no connection was made, nothing is closed. *)
Theorem uploadScriptAttempt_closes (script : bytes) :
  exists calls,
    log (uploadScriptAttempt i ctx script w).2 = log w ++ calls
    /\ (connected i w -> sftpNew (plane w) = None ->
        exists pre,
          calls = pre ++ [SftpClose; ClientClose]
          /\ (SftpClose ∉ pre) /\ (ClientClose ∉ pre))
    /\ (connected i w -> is_Some (sftpNew (plane w)) ->
        calls = [refreshCall i; dialCall i w; SftpNewClient; ClientClose])
    /\ (~ connected i w -> (SftpClose ∉ calls) /\ (ClientClose ∉ calls)).
Proof.
  rewrite uploadScriptAttempt_eq. simpl. unfold connected.
  destruct (String.eqb_spec (getIP (refreshed i w)) "") as [Hip|Hip];
    [|destruct (dial (plane w)) eqn:Hdial;
      [|destruct (sftpNew (plane w)) eqn:Hsftp;
        [|destruct (lstatFault (plane w));
          [|destruct (files w !! sftpPath (home w) "build.sh")];
          try (destruct (create (plane w)); [|destruct (write (plane w))])]]];
    simpl; autorewrite with world;
    (eexists; split; [reflexivity|]);
    (split; [|split]);
    try (intros [? ?] ?; congruence);
    try (intros [? ?] [? [=]]);
    try (intros Hnot; by destruct Hnot);
    try (intros _ _; reflexivity);
    try (intros _ _; all_but_last_two; split; no_member);
    intros _; split; no_member.
Qed.

(** X20. [RunScript] closes what it has opened, in reverse order and on
    every path.  When the SSH connection and the session were made, its
    last two requests close the session and then the connection, and
    nothing is closed before; when only the connection was made, it is
    closed at once; when no connection was made, nothing is closed. *)
Theorem RunScript_closes :
  exists calls,
    log (RunScript i ctx w).2 = log w ++ calls
    /\ (connected i w -> newSession (plane w) = None ->
        exists pre,
          calls = pre ++ [SessionClose; ClientClose]
          /\ (SessionClose ∉ pre) /\ (ClientClose ∉ pre))
    /\ (connected i w -> is_Some (newSession (plane w)) ->
        calls = [refreshCall i; dialCall i w; NewSession; ClientClose])
    /\ (~ connected i w -> (SessionClose ∉ calls) /\ (ClientClose ∉ calls)).
Proof.
  rewrite RunScript_eq. simpl. unfold connected.
  destruct (String.eqb_spec (getIP (refreshed i w)) "") as [Hip|Hip];
    [|destruct (dial (plane w)) eqn:Hdial;
      [|destruct (newSession (plane w)) eqn:Hsession;
        [|destruct (requestPty (plane w))]]];
    simpl; autorewrite with world;
    (eexists; split; [reflexivity|]);
    (split; [|split]);
    try (intros [? ?] ?; congruence);
    try (intros [? ?] [? [=]]);
    try (intros Hnot; by destruct Hnot);
    try (intros _ _; reflexivity);
    try (intros _ _; all_but_last_two; split; no_member);
    intros _; split; no_member.
Qed.

End closing.

Lemma uploadScriptAttempt_closes_witness :
  exists calls,
    log (uploadScriptAttempt pythonVM {| ctx_Err := Canceled |} [x68; x69]
           staleCloud).2 = log staleCloud ++ calls
    /\ exists pre,
         calls = pre ++ [SftpClose; ClientClose]
         /\ (SftpClose ∉ pre) /\ (ClientClose ∉ pre).
Proof.
  destruct (uploadScriptAttempt_closes pythonVM {| ctx_Err := Canceled |}
              staleCloud [x68; x69]) as (calls & Hlog & Hclosed & _).
  exists calls. split; [exact Hlog|].
  apply Hclosed.
  - split; [vm_compute; discriminate|reflexivity].
  - reflexivity.
Defined.

Lemma RunScript_closes_witness :
  exists calls,
    log (RunScript pythonVM {| ctx_Err := Canceled |} (cloud [] ∅)).2
    = log (cloud [] ∅) ++ calls
    /\ exists pre,
         calls = pre ++ [SessionClose; ClientClose]
         /\ (SessionClose ∉ pre) /\ (ClientClose ∉ pre).
Proof.
  destruct (RunScript_closes pythonVM {| ctx_Err := Canceled |} (cloud [] ∅))
    as (calls & Hlog & Hclosed & _).
  exists calls. split; [exact Hlog|].
  apply Hclosed.
  - split; [vm_compute; discriminate|reflexivity].
  - reflexivity.
Defined.

(** ** More on [runWorker] *)

Section worker.
Context (h : main.Host).

Let cfg := main.config h.

(** X21. [runWorker] starts exactly one metrics reporter, right after
    reading the configuration and before it dials the message bus: the
    Librato reporter when the Librato e-mail, token and source are all
    non-empty, and the reporter that logs to standard error in every other
    case. *)
Theorem runWorker_reporter :
  exists msg reporter rest,
    (main.runWorker h).1 =
      main.LogDebug "read config" :: main.LogInfo msg :: reporter
      :: main.AmqpDial (main.AmqpURI cfg) :: rest
    /\ (main.GoLibrato ∉ rest) /\ (main.GoMetricsLog ∉ rest)
    /\ ((reporter = main.GoLibrato
         /\ msg = "starting librato metrics reporter"
         /\ main.LibratoEmail cfg <> "" /\ main.LibratoToken cfg <> ""
         /\ main.LibratoSource cfg <> "")
        \/ (reporter = main.GoMetricsLog
            /\ msg = "starting logger metrics reporter"
            /\ (main.LibratoEmail cfg = "" \/ main.LibratoToken cfg = ""
                \/ main.LibratoSource cfg = ""))).
Proof.
  unfold main.runWorker. fold cfg.
  destruct (String.eqb_spec (main.LibratoEmail cfg) "") as [He|He],
           (String.eqb_spec (main.LibratoToken cfg) "") as [Ht|Ht],
           (String.eqb_spec (main.LibratoSource cfg) "") as [Hs|Hs];
    simpl;
    (destruct (main.amqpDial h);
      [|destruct (main.newProvider h); [|destruct (main.amqpClose h)]]);
    simpl; eexists _, _, _;
    (split; [reflexivity|]); (split; [no_member|]); (split; [no_member|]);
    first [ left; by repeat split | right; repeat split; auto ].
Qed.

End worker.

Section worker_connection.
Context (h : main.Host).

Let cfg := main.config h.
Let acts := (main.runWorker h).1.

(** X22. [runWorker] closes the connection to the message bus only after
    the pool has run: the close is requested exactly when the bus was
    reached and the provider was created, right after the pool has run;
    when the provider cannot be created, the connection that was opened is
    never closed.  The provider is created only once the bus is reached,
    and an error of the close is the last thing logged. *)
Theorem runWorker_connection :
  (main.AmqpClose ∈ acts <-> main.amqpDial h = None /\ main.newProvider h = None)
  /\ (forall name, main.NewProvider name ∈ acts -> main.amqpDial h = None)
  /\ (main.amqpDial h = None -> main.newProvider h = None ->
      exists pre post,
        acts = pre ++ [main.SignalNotify;
                       main.PoolRun (main.PoolSize cfg) (main.QueueName cfg);
                       main.AmqpClose] ++ post
        /\ (main.AmqpClose ∉ pre)
        /\ match main.amqpClose h with
           | None => post = []
           | Some err =>
               post = [main.LogError "couldn't close AMQP connection cleanly" err]
           end).
Proof.
  unfold acts, main.runWorker. fold cfg.
  destruct (negb _ && negb _ && negb _);
    (destruct (main.amqpDial h);
      [|destruct (main.newProvider h); [|destruct (main.amqpClose h)]]);
    simpl;
    (split; [split; [try no_member; by intros _
                    |first [ by intros [[=] _] | by intros [_ [=]]
                           | intros _;
                             repeat first [apply list_elem_of_here
                                          |apply list_elem_of_further] ]]|]);
    (split; [intros name; first [done | no_member]|]);
    try (by intros [=]); try (by intros _ [=]);
    intros _ _;
    (eexists [_; _; _; _; _; _; _], _);
    (split; [reflexivity|]); (split; [no_member|reflexivity]).
Qed.

End worker_connection.

Lemma runWorker_connection_witness :
  exists pre post,
    (main.runWorker goodHost).1
    = pre ++ [main.SignalNotify;
              main.PoolRun (main.PoolSize (main.config goodHost))
                (main.QueueName (main.config goodHost));
              main.AmqpClose] ++ post
    /\ (main.AmqpClose ∉ pre)
    /\ match main.amqpClose goodHost with
       | None => post = []
       | Some err =>
           post = [main.LogError "couldn't close AMQP connection cleanly" err]
       end.
Proof.
  apply (proj2 (proj2 (runWorker_connection goodHost))); reflexivity.
Defined.

(** ** Making the provider *)

(** *** [strings.Split] *)

Lemma strings_Split_length (s : string) (sep : ascii) :
  length (strings_Split s sep) = S (occurrences sep s).
Proof.
  induction s as [|c s IH]; [done|]. simpl.
  destruct (Ascii.eqb c sep); simpl; [by rewrite IH|].
  destruct (strings_Split s sep); simpl in *; done.
Qed.

Lemma strings_Split_none (s : string) (sep : ascii) :
  occurrences sep s = 0 -> strings_Split s sep = [s].
Proof.
  induction s as [|c s IH]; [done|]. simpl.
  destruct (Ascii.eqb c sep); [done|]. intros Hs. by rewrite IH.
Qed.

Lemma strings_Split_app (s t : string) (sep : ascii) :
  strings_Split (s +:+ String sep t) sep
  = strings_Split s sep ++ strings_Split t sep.
Proof.
  induction s as [|c s IH]; simpl.
  - by rewrite Ascii.eqb_refl.
  - rewrite IH. destruct (Ascii.eqb c sep); [done|].
    pose proof (strings_Split_length s sep) as Hlen.
    by destruct (strings_Split s sep).
Qed.

Lemma strings_Split_pair (k v : string) (sep : ascii) :
  occurrences sep k = 0 -> occurrences sep v = 0 ->
  strings_Split (k +:+ String sep v) sep = [k; v].
Proof.
  intros Hk Hv. by rewrite strings_Split_app, !strings_Split_none.
Qed.

Lemma parseLanguageMappings_app (site : Site) (s pair : string) :
  occurrences "," pair = 0 ->
  parseLanguageMappings site (s +:+ String "," pair)
  = addLanguageMapping site (parseLanguageMappings site s) pair.
Proof.
  intros Hpair. unfold parseLanguageMappings.
  by rewrite strings_Split_app, foldl_app, (strings_Split_none pair).
Qed.

Lemma addLanguageMapping_pair (site : Site) (m : gmap string string)
    (pair k v : string) :
  trimSpace site pair = k +:+ "=" +:+ v ->
  occurrences "=" k = 0 -> occurrences "=" v = 0 ->
  addLanguageMapping site m pair = <[k := v]> m.
Proof.
  intros Hpair Hk Hv. unfold addLanguageMapping.
  rewrite Hpair. change (k +:+ "=" +:+ v) with (k +:+ String "=" v).
  by rewrite strings_Split_pair.
Qed.

Lemma addLanguageMapping_skip (site : Site) (m : gmap string string)
    (pair : string) :
  occurrences "=" (trimSpace site pair) <> 1 ->
  addLanguageMapping site m pair = m.
Proof.
  intros Hpair. unfold addLanguageMapping.
  pose proof (strings_Split_length (trimSpace site pair) "=") as Hlen.
  destruct (strings_Split _ "=") as [|k [|v [|more kv]]]; try done.
  simpl in Hlen. lia.
Qed.

(** *** [NewGCEProvider] *)

(** What holds of the site and of the configuration when a provider is
    made, and where each field of the provider comes from. *)
Lemma NewGCEProvider_Ok (site : Site) (cfg : ProviderConfig) (p : GCEProvider) :
  NewGCEProvider site cfg = Ok p ->
  let project := Get cfg "PROJECT_ID" in
  Forall (fun key => IsSet cfg key = true) requiredKeys
  /\ p_projectID p = project
  /\ zonesGet site project (setting cfg "ZONE" "us-central1-a")
     = Ok (Zone (p_ic p))
  /\ machineTypesGet site project (compute.Zone_Name (Zone (p_ic p)))
       (setting cfg "MACHINE_TYPE" "n1-standard-2")
     = Ok (MachineType (p_ic p))
  /\ networksGet site project (setting cfg "NETWORK" "default")
     = Ok (Network (p_ic p))
  /\ DiskType (p_ic p)
     = "zones/" +:+ compute.Zone_Name (Zone (p_ic p)) +:+ "/diskTypes/pd-standard"
  /\ DiskSize (p_ic p)
     = (if IsSet cfg "DISK_SIZE" then
          match parseInt site (Get cfg "DISK_SIZE") with
          | Ok ds => ds
          | Err _ => 20%Z
          end
        else 20%Z)
  /\ defaultLanguage p = setting cfg "DEFAULT_LANGUAGE" "minimal"
  /\ languageMappings p
     = (if IsSet cfg "LANGUAGE_MAPPINGS"
        then parseLanguageMappings site (Get cfg "LANGUAGE_MAPPINGS")
        else ∅)
  /\ readFile site (Get cfg "SSH_PUB_KEY_PATH") = Ok (SSHPubKey (p_ic p))
  /\ exists keyBytes block der key,
       readFile site (Get cfg "SSH_KEY_PATH") = Ok keyBytes
       /\ pemDecode site keyBytes = Some block
       /\ decryptPEMBlock site block (Get cfg "SSH_KEY_PASSPHRASE") = Ok der
       /\ parsePKCS1PrivateKey site der = Ok key
       /\ newSignerFromKey site key = Ok (SSHKeySigner (p_ic p)).
Proof.
  unfold NewGCEProvider, buildGoogleComputeService, setting, requiredKeys,
    defaultGCEZone, defaultGCEMachineType, defaultGCENetwork,
    defaultGCEDiskSize, defaultGCELanguage, mbind, result_bind.
  destruct (IsSet cfg "ACCOUNT_JSON") eqn:Haccount; simpl; [|done].
  destruct (loadGoogleAccountJSON site _) as [[a|] [err|]]; try done.
  destruct (computeNew site _) as [client|err]; [|done].
  destruct (IsSet cfg "PROJECT_ID") eqn:Hproject; simpl; [|done].
  destruct (IsSet cfg "SSH_KEY_PATH") eqn:Hkey; simpl; [|done].
  destruct (IsSet cfg "SSH_PUB_KEY_PATH") eqn:Hpub; simpl; [|done].
  destruct (readFile site (Get cfg "SSH_KEY_PATH")) as [keyBytes|err] eqn:Hk;
    [|done].
  destruct (IsSet cfg "SSH_KEY_PASSPHRASE") eqn:Hpass; simpl; [|done].
  destruct (readFile site (Get cfg "SSH_PUB_KEY_PATH")) as [pubBytes|err] eqn:Hp;
    [|done].
  destruct (pemDecode site keyBytes) as [block|] eqn:Hblock; [|done].
  destruct (decryptPEMBlock site block _) as [der|err] eqn:Hder; [|done].
  destruct (parsePKCS1PrivateKey site der) as [key|err] eqn:Hparsed; [|done].
  destruct (newSignerFromKey site key) as [signer|err] eqn:Hsigner; [|done].
  destruct (zonesGet site _ _) as [zone|err] eqn:Hzone; [|done].
  destruct (machineTypesGet site _ _ _) as [mt|err] eqn:Hmt; [|done].
  destruct (networksGet site _ _) as [nw|err] eqn:Hnw; [|done].
  intros [= <-]. simpl.
  split; [by repeat constructor|].
  do 9 (split; [done|]). by exists keyBytes, block, der, key.
Qed.

(** X23. [NewGCEProvider] makes a provider only from a configuration in
    which all five keys that the help text marks as required are set:
    [PROJECT_ID], [ACCOUNT_JSON], [SSH_KEY_PATH], [SSH_PUB_KEY_PATH] and
    [SSH_KEY_PASSPHRASE].  With any of them missing it returns an error,
    whatever the files and the compute API hold. *)
Theorem NewGCEProvider_required_keys (site : Site) (cfg : ProviderConfig)
    (key : string) :
  key ∈ requiredKeys -> IsSet cfg key = false ->
  exists err, NewGCEProvider site cfg = Err err.
Proof.
  intros Hkey Hunset.
  destruct (NewGCEProvider site cfg) as [p|err] eqn:Hp; [|by exists err].
  apply NewGCEProvider_Ok in Hp as [Hset _].
  rewrite Forall_forall in Hset. apply Hset in Hkey. congruence.
Qed.

Lemma NewGCEProvider_required_keys_witness :
  "SSH_KEY_PASSPHRASE" ∈ requiredKeys
  /\ IsSet (configOf (base.delete "SSH_KEY_PASSPHRASE" sampleSettings))
       "SSH_KEY_PASSPHRASE" = false
  /\ exists err,
       NewGCEProvider sampleSite
         (configOf (base.delete "SSH_KEY_PASSPHRASE" sampleSettings)) = Err err.
Proof.
  assert ("SSH_KEY_PASSPHRASE" ∈ requiredKeys) as Hkey.
  { apply (list_elem_of_lookup_2 _ 4%nat). reflexivity. }
  assert (IsSet (configOf (base.delete "SSH_KEY_PASSPHRASE" sampleSettings))
            "SSH_KEY_PASSPHRASE" = false) as Hunset.
  { vm_compute. reflexivity. }
  split; [exact Hkey|]. split; [exact Hunset|].
  exact (NewGCEProvider_required_keys sampleSite _ _ Hkey Hunset).
Defined.

(** X24. Where the fields of a provider come from.  The project is
    [PROJECT_ID].  The zone is the answer of the compute API for [ZONE], or
    for us-central1-a when [ZONE] is not set; the machine type ([MACHINE_TYPE]
    or n1-standard-2) is looked up in the zone by the name the API answered,
    not by the configured name, and the disk type is pd-standard of that
    zone; the network is [NETWORK] or default.  The disk size is 20 unless
    [DISK_SIZE] is set and parses.  The default language is
    [DEFAULT_LANGUAGE] or minimal, and there are no mappings unless
    [LANGUAGE_MAPPINGS] is set.  The public key is the content of the file
    [SSH_PUB_KEY_PATH], and the signer is made from the PEM block of the file
    [SSH_KEY_PATH], decrypted with [SSH_KEY_PASSPHRASE]. *)
Theorem NewGCEProvider_fields (site : Site) (cfg : ProviderConfig)
    (p : GCEProvider) :
  NewGCEProvider site cfg = Ok p ->
  p_projectID p = Get cfg "PROJECT_ID"
  /\ zonesGet site (Get cfg "PROJECT_ID") (setting cfg "ZONE" "us-central1-a")
     = Ok (Zone (p_ic p))
  /\ machineTypesGet site (Get cfg "PROJECT_ID")
       (compute.Zone_Name (Zone (p_ic p)))
       (setting cfg "MACHINE_TYPE" "n1-standard-2")
     = Ok (MachineType (p_ic p))
  /\ networksGet site (Get cfg "PROJECT_ID") (setting cfg "NETWORK" "default")
     = Ok (Network (p_ic p))
  /\ DiskType (p_ic p)
     = "zones/" +:+ compute.Zone_Name (Zone (p_ic p)) +:+ "/diskTypes/pd-standard"
  /\ (DiskSize (p_ic p) = 20%Z
      \/ IsSet cfg "DISK_SIZE" = true
         /\ parseInt site (Get cfg "DISK_SIZE") = Ok (DiskSize (p_ic p)))
  /\ defaultLanguage p = setting cfg "DEFAULT_LANGUAGE" "minimal"
  /\ (IsSet cfg "LANGUAGE_MAPPINGS" = false -> languageMappings p = ∅)
  /\ readFile site (Get cfg "SSH_PUB_KEY_PATH") = Ok (SSHPubKey (p_ic p))
  /\ exists keyBytes block der key,
       readFile site (Get cfg "SSH_KEY_PATH") = Ok keyBytes
       /\ pemDecode site keyBytes = Some block
       /\ decryptPEMBlock site block (Get cfg "SSH_KEY_PASSPHRASE") = Ok der
       /\ parsePKCS1PrivateKey site der = Ok key
       /\ newSignerFromKey site key = Ok (SSHKeySigner (p_ic p)).
Proof.
  intros Hp. apply NewGCEProvider_Ok in Hp
    as (_ & Hproject & Hzone & Hmt & Hnw & Htype & Hsize & Hlang & Hmap
        & Hpub & Hsigner).
  do 5 (split; [done|]). split.
  { rewrite Hsize. destruct (IsSet cfg "DISK_SIZE"); [|by left].
    destruct (parseInt site _) as [ds|err]; [by right|by left]. }
  split; [done|]. split; [|done].
  intros Hunset. by rewrite Hmap, Hunset.
Qed.

Lemma NewGCEProvider_fields_witness :
  NewGCEProvider sampleSite (configOf sampleSettings) = Ok sampleProvider
  /\ p_projectID sampleProvider = "travis"
  /\ zonesGet sampleSite "travis" "us-central1-a"
     = Ok (Zone (p_ic sampleProvider))
  /\ DiskSize (p_ic sampleProvider) = 20%Z
  /\ readFile sampleSite "/etc/worker/id_rsa.pub"
     = Ok (SSHPubKey (p_ic sampleProvider)).
Proof.
  assert (NewGCEProvider sampleSite (configOf sampleSettings)
          = Ok sampleProvider) as Hp.
  { vm_compute. reflexivity. }
  split; [exact Hp|].
  destruct (NewGCEProvider_fields sampleSite (configOf sampleSettings)
              sampleProvider Hp)
    as (Hproject & Hzone & _ & _ & _ & _ & _ & _ & Hpub & _).
  split; [exact Hproject|]. split; [exact Hzone|]. split; [reflexivity|].
  exact Hpub.
Defined.

(** X25. [DISK_SIZE] decides the disk size and nothing else.  Setting it,
    to any text, neither makes [NewGCEProvider] fail nor succeed where it
    would not have, and changes no other field of the provider: the disk
    size becomes the number the text parses to, and 20 when it does not
    parse, without an error. *)
Theorem NewGCEProvider_disk_size (site : Site) (cfg : ProviderConfig)
    (value : string) :
  NewGCEProvider site (withSetting cfg "DISK_SIZE" value) =
  match NewGCEProvider site cfg with
  | Ok p =>
      Ok (withDiskSize p match parseInt site value with
                         | Ok ds => ds
                         | Err _ => 20%Z
                         end)
  | Err err => Err err
  end.
Proof.
  unfold NewGCEProvider, buildGoogleComputeService, withSetting, withDiskSize,
    defaultGCEDiskSize, mbind, result_bind.
  simpl.
  destruct (IsSet cfg "ACCOUNT_JSON"); simpl; [|done].
  destruct (loadGoogleAccountJSON site _) as [[a|] [err|]]; try done.
  destruct (computeNew site _) as [client|err]; [|done].
  destruct (IsSet cfg "PROJECT_ID"); simpl; [|done].
  destruct (IsSet cfg "SSH_KEY_PATH"); simpl; [|done].
  destruct (IsSet cfg "SSH_PUB_KEY_PATH"); simpl; [|done].
  destruct (readFile site (Get cfg "SSH_KEY_PATH")) as [keyBytes|err]; [|done].
  destruct (IsSet cfg "SSH_KEY_PASSPHRASE"); simpl; [|done].
  destruct (readFile site (Get cfg "SSH_PUB_KEY_PATH")) as [pubBytes|err];
    [|done].
  destruct (pemDecode site keyBytes) as [block|]; [|done].
  destruct (decryptPEMBlock site block _) as [der|err]; [|done].
  destruct (parsePKCS1PrivateKey site der) as [key|err]; [|done].
  destruct (newSignerFromKey site key) as [signer|err]; [|done].
  destruct (zonesGet site _ _) as [zone|err]; [|done].
  destruct (machineTypesGet site _ _ _) as [mt|err]; [|done].
  destruct (networksGet site _ _) as [nw|err]; [|done].
  reflexivity.
Qed.

(** *** [LANGUAGE_MAPPINGS] *)

(** X26. What one more pair does to the language mappings.  When the text
    of [LANGUAGE_MAPPINGS] is extended by a comma and a pair without comma,
    the mappings stay as they were unless the pair, trimmed, holds exactly
    one equals sign; a pair [k=v] binds [k] to [v] and replaces an earlier
    binding of [k].  Key and value are what stands left and right of the
    equals sign in the trimmed pair, blanks next to the sign included. *)
Theorem LANGUAGE_MAPPINGS_pair (site : Site) (s pair : string) :
  occurrences "," pair = 0 ->
  (occurrences "=" (trimSpace site pair) <> 1 ->
   parseLanguageMappings site (s +:+ "," +:+ pair)
   = parseLanguageMappings site s)
  /\ (forall k v,
        trimSpace site pair = k +:+ "=" +:+ v ->
        occurrences "=" k = 0 -> occurrences "=" v = 0 ->
        parseLanguageMappings site (s +:+ "," +:+ pair)
        = <[k := v]> (parseLanguageMappings site s)).
Proof.
  intros Hpair.
  change (s +:+ "," +:+ pair) with (s +:+ String "," pair).
  rewrite (parseLanguageMappings_app site s pair Hpair). split.
  - apply addLanguageMapping_skip.
  - intros k v. apply addLanguageMapping_pair.
Qed.

Lemma LANGUAGE_MAPPINGS_pair_witness :
  parseLanguageMappings sampleSite "py=python,rb=ruby, py = python3 "
  = <["py " := " python3"]> (parseLanguageMappings sampleSite "py=python,rb=ruby")
  /\ parseLanguageMappings sampleSite "py=python,rb=ruby, py = python3 " !! "py"
     = Some "python".
Proof.
  split; [|vm_compute; reflexivity].
  apply (LANGUAGE_MAPPINGS_pair sampleSite "py=python,rb=ruby" " py = python3 ");
    reflexivity.
Defined.

Lemma strings_Split_Join (parts : list string) (sep : ascii) :
  parts <> [] -> Forall (fun s => occurrences sep s = 0) parts ->
  strings_Split (strings_Join parts (String sep "")) sep = parts.
Proof.
  induction parts as [|s [|s' rest] IH]; intros Hne Hparts; [done|..].
  - apply strings_Split_none. by inversion Hparts.
  - inversion Hparts as [|? ? Hs Hrest]; subst.
    change (strings_Join (s :: s' :: rest) (String sep ""))
      with (s +:+ String sep (strings_Join (s' :: rest) (String sep ""))).
    rewrite strings_Split_app, (strings_Split_none s sep Hs), IH; done.
Qed.

Lemma occurrences_app (sep : ascii) (s t : string) :
  occurrences sep (s +:+ t) = occurrences sep s + occurrences sep t.
Proof.
  induction s as [|c s IH]; [done|]. simpl.
  destruct (Ascii.eqb c sep); simpl; by rewrite IH.
Qed.

Lemma foldl_insert_list_to_map (kvs : list (string * string))
    (m : gmap string string) :
  foldl (fun acc kv => <[kv.1 := kv.2]> acc) m kvs
  = list_to_map (reverse kvs) ∪ m.
Proof.
  revert m. induction kvs as [|[k v] kvs IH]; intros m; simpl.
  - by rewrite (left_id_L ∅ (∪)).
  - rewrite IH, reverse_cons, list_to_map_app. simpl.
    rewrite insert_empty, <- (assoc_L (∪)). f_equal.
    by rewrite <- insert_union_singleton_l.
Qed.

(** X27. Round trip of [LANGUAGE_MAPPINGS].  For a non-empty list of pairs
    with distinct keys, whose keys and values hold neither comma nor equals
    sign and whose texts [k=v] trimming leaves alone, the mappings parsed
    from the pairs written as [k=v] and joined by commas are exactly the
    pairs. *)
Theorem LANGUAGE_MAPPINGS_round_trip (site : Site)
    (kvs : list (string * string)) :
  kvs <> [] ->
  NoDup kvs.*1 ->
  Forall (fun kv =>
            occurrences "," kv.1 = 0 /\ occurrences "," kv.2 = 0
            /\ occurrences "=" kv.1 = 0 /\ occurrences "=" kv.2 = 0
            /\ trimSpace site (kv.1 +:+ "=" +:+ kv.2) = kv.1 +:+ "=" +:+ kv.2)
         kvs ->
  parseLanguageMappings site (renderMappings kvs) = list_to_map kvs.
Proof.
  intros Hne Hkeys Hkvs. unfold parseLanguageMappings, renderMappings.
  rewrite (strings_Split_Join _ ","); first last.
  - apply Forall_fmap. eapply Forall_impl; [exact Hkvs|].
    intros [k v] (Hk & Hv & _). simpl in *.
    rewrite !occurrences_app. simpl. lia.
  - by destruct kvs.
  - transitivity (foldl (fun acc kv => <[kv.1 := kv.2]> acc)
                    (∅ : gmap string string) kvs).
    + generalize (∅ : gmap string string). clear Hne Hkeys.
      induction Hkvs as [|[k v] kvs (_ & _ & Hk & Hv & Htrim) _ IH];
        intros m; [done|].
      simpl in *. rewrite <- IH. f_equal.
      by apply addLanguageMapping_pair.
    + rewrite foldl_insert_list_to_map, (right_id_L ∅ (∪)).
      apply list_to_map_proper; [|apply reverse_Permutation].
      by rewrite fmap_reverse, reverse_Permutation.
Qed.

Lemma LANGUAGE_MAPPINGS_round_trip_witness :
  parseLanguageMappings sampleSite "py=python,rb=ruby"
  = list_to_map [("py", "python"); ("rb", "ruby")].
Proof.
  apply (LANGUAGE_MAPPINGS_round_trip sampleSite
           [("py", "python"); ("rb", "ruby")]).
  - discriminate.
  - apply (bool_decide_unpack _). vm_compute. reflexivity.
  - repeat constructor.
Defined.

(** *** [buildGoogleComputeService] and [loadGoogleAccountJSON] *)

(** X28. The compute service is built exactly when [ACCOUNT_JSON] is set,
    the file it names can be read, its content decodes as JSON without
    error, and [compute.New] accepts the client.  The client then signs in
    with the e-mail and the private key of that file, for the scopes
    full-control storage and compute.  A decoding error fails the build
    although [loadGoogleAccountJSON] returns an account beside it. *)
Theorem buildGoogleComputeService_success (site : Site) (cfg : ProviderConfig)
    (client : Service) :
  buildGoogleComputeService site cfg = Ok client <->
  IsSet cfg "ACCOUNT_JSON" = true
  /\ exists content a,
       readFile site (Get cfg "ACCOUNT_JSON") = Ok content
       /\ jsonUnmarshal site content = (a, None)
       /\ computeNew site
            {| jwt.Email := ClientEmail a;
               jwt.PrivateKey := PrivateKey a;
               jwt.Scopes :=
                 [ "https://www.googleapis.com/auth/devstorage.full_control";
                   "https://www.googleapis.com/auth/compute" ];
               jwt.TokenURL := "https://accounts.google.com/o/oauth2/token" |}
          = Ok client.
Proof.
  unfold buildGoogleComputeService, loadGoogleAccountJSON.
  destruct (IsSet cfg "ACCOUNT_JSON"); simpl;
    [|split; [done|by intros [? _]]].
  destruct (readFile site _) as [content|err];
    [|split; [done|by intros (_ & content & a & [=] & _)]].
  destruct (jsonUnmarshal site content) as [a [err|]] eqn:Hjson.
  - split; [done|]. intros (_ & content' & a' & [= <-] & Ha & _).
    rewrite Hjson in Ha. done.
  - split.
    + intros Hnew. split; [done|]. by exists content, a.
    + intros (_ & content' & a' & [= <-] & Ha & Hnew).
      rewrite Hjson in Ha. by injection Ha as <-.
Qed.

(** *** From the configuration to the creation request *)


